(** * k6 test boilerplate: scenario weighting, thresholds, validators, CRUD flow

    A shallow embedding of the JavaScript sources of the repository
    (config/env.js, config/slo.js, helpers/common.js, utils/http-utils.js,
    utils/checks.js, run-all.js and tests/example/crud-operations.js) and the
    properties their specification states about them.

    JavaScript values are an inductive type; the services of the script
    engine and of the k6 runtime that the sources call but do not define
    (number formatting, the prototype chain, [encodeURIComponent], the HTTP
    client, the clock, the random generator, [__ENV]) are the fields of a
    class [Runtime], so every statement holds for each runtime.  Side effects
    (metric samples, check results, console lines, requests, sleeps) are
    collected as an ordered list of events by a small monad that also carries
    JavaScript exceptions. *)

From Stdlib Require Import ZArith QArith Qround Qpower Qabs Lqa.
From Stdlib Require Import List String Ascii Bool Lia.
Import ListNotations.

#[local] Set Warnings "-register-all".

Local Open Scope string_scope.
Local Open Scope Z_scope.

(* ------------------------------------------------------------------ *)
(** ** Numbers: IEEE 754 binary64, as the engine computes them        *)
(* ------------------------------------------------------------------ *)

(** A JavaScript number is a binary64 value.  The finite ones are rationals;
    [-0] is identified with [0] (the sources never divide by a zero). *)
Inductive Number : Type :=
| Fin (q : Q)
| PInf
| NInf
| NaN.

Module B64.

(** [ilog2 q] is the integer [e] with [2^e <= |q| < 2^(e+1)], for [q <> 0]. *)
Definition ilog2 (q : Q) : Z :=
  let n := Z.abs (Qnum q) in
  let k := Z.log2 n - Z.log2 (Zpos (Qden q)) in
  if Qle_bool (Qpower 2 k) (n # Qden q) then k else k - 1.

(** Rounding of a rational to the nearest integer, ties to even. *)
Definition round_half_even (q : Q) : Z :=
  let f := Qfloor q in
  match Qcompare (q - inject_Z f) (1 # 2) with
  | Lt => f
  | Gt => f + 1
  | Eq => if Z.even f then f else f + 1
  end.

(** The binary64 value nearest to the real [q]: 53 significant bits,
    exponent at least [-1022] (gradual underflow below), ties to even. *)
Definition round (q : Q) : Q :=
  if Qeq_bool q 0 then 0%Q
  else
    let e := Z.max (ilog2 q) (-1022) in
    let m := round_half_even (q * Qpower 2 (52 - e)) in
    Qred (inject_Z m * Qpower 2 (e - 52)).

(** Results of magnitude [2^1024] or more overflow to an infinity. *)
Definition of_Q (q : Q) : Number :=
  let r := round q in
  if Qle_bool (Qpower 2 1024) r then PInf
  else if Qle_bool r (- Qpower 2 1024) then NInf
  else Fin r.

Definition of_Z (z : Z) : Number := of_Q (inject_Z z).

Definition is_zero (n : Number) : bool :=
  match n with Fin q => Qeq_bool q 0 | _ => false end.

Definition is_neg (n : Number) : bool :=
  match n with
  | Fin q => negb (Qle_bool 0 q)
  | NInf => true
  | _ => false
  end.

Definition neg (n : Number) : Number :=
  match n with
  | Fin q => Fin (Qred (- q))
  | PInf => NInf
  | NInf => PInf
  | NaN => NaN
  end.

(** [a * b] *)
Definition mul (a b : Number) : Number :=
  match a, b with
  | NaN, _ | _, NaN => NaN
  | Fin x, Fin y => of_Q (x * y)
  | _, _ =>
      if is_zero a || is_zero b then NaN
      else if xorb (is_neg a) (is_neg b) then NInf else PInf
  end.

(** [a + b] *)
Definition add (a b : Number) : Number :=
  match a, b with
  | NaN, _ | _, NaN => NaN
  | Fin x, Fin y => of_Q (x + y)
  | PInf, NInf | NInf, PInf => NaN
  | PInf, _ | _, PInf => PInf
  | NInf, _ | _, NInf => NInf
  end.

(** [a - b] *)
Definition sub (a b : Number) : Number := add a (neg b).

(** [a / b]; a finite number divided by zero is an infinity, its sign
    taken from the dividend. *)
Definition div (a b : Number) : Number :=
  match a, b with
  | NaN, _ | _, NaN => NaN
  | Fin x, Fin y =>
      if Qeq_bool y 0
      then (if Qeq_bool x 0 then NaN else if is_neg a then NInf else PInf)
      else of_Q (x / y)
  | Fin _, _ => Fin 0
  | _, Fin _ => if xorb (is_neg a) (is_neg b) then NInf else PInf
  | _, _ => NaN
  end.

(** [a < b] *)
Definition ltb (a b : Number) : bool :=
  match a, b with
  | NaN, _ | _, NaN => false
  | Fin x, Fin y => negb (Qle_bool y x)
  | NInf, NInf | PInf, _ => false
  | NInf, _ | _, PInf => true
  | _, NInf => false
  end.

(** [a <= b] *)
Definition leb (a b : Number) : bool :=
  match a, b with
  | NaN, _ | _, NaN => false
  | Fin x, Fin y => Qle_bool x y
  | NInf, _ | _, PInf => true
  | _, _ => false
  end.

(** [a === b] on numbers *)
Definition eqb (a b : Number) : bool :=
  match a, b with
  | Fin x, Fin y => Qeq_bool x y
  | PInf, PInf | NInf, NInf => true
  | _, _ => false
  end.

(** [Math.ceil] and [Math.floor]; an integer of magnitude below [2^1024]
    that is the ceiling or floor of a binary64 value is one itself. *)
Definition ceil (a : Number) : Number :=
  match a with Fin q => Fin (inject_Z (Qceiling q)) | _ => a end.

Definition floor (a : Number) : Number :=
  match a with Fin q => Fin (inject_Z (Qfloor q)) | _ => a end.

(** A decimal literal of the source text denotes the nearest binary64. *)
Definition lit (num : Z) (den : positive) : Number := of_Q (num # den).

End B64.

Declare Scope num_scope.
Delimit Scope num_scope with num.
Infix "*" := B64.mul : num_scope.
Infix "+" := B64.add : num_scope.
Infix "-" := B64.sub : num_scope.
Infix "/" := B64.div : num_scope.
Infix "<?" := B64.ltb : num_scope.
Infix "<=?" := B64.leb : num_scope.

(* ------------------------------------------------------------------ *)
(** ** Values                                                          *)
(* ------------------------------------------------------------------ *)

(** A string is its sequence of code units (the ones below 256, which cover
    every literal of the sources).  [VObj] lists the own enumerable
    properties of an object, each name once, in the order [Object.entries]
    reports them;
    [VNative] is a built-in function object, named. *)
Inductive Value : Type :=
| VUndefined
| VNull
| VBool (b : bool)
| VNum (n : Number)
| VStr (s : string)
| VArr (items : list Value)
| VObj (props : list (string * Value))
| VNative (name : string).

Definition VInt (z : Z) : Value := VNum (Fin (inject_Z z)).

(** A completion: a value, or a thrown exception (its message). *)
Inductive Result (A : Type) : Type :=
| Ok (a : A)
| Throw (msg : string).
Arguments Ok {A} a.
Arguments Throw {A} msg.

(** Lookup in a property list; the first entry of a name is the live one. *)
Fixpoint assoc {A : Type} (k : string) (l : list (string * A)) : option A :=
  match l with
  | [] => None
  | (k', v) :: tl => if String.eqb k k' then Some v else assoc k tl
  end.

(** An HTTP request as the k6 client receives it. *)
Record Request : Type := {
  method : string;
  url : string;
  headers : list (string * string);
  req_body : option string
}.

(** A k6 response: [res.status], [res.body] ([null] when there is none) and
    what [res.json()] does: the parsed body, or an exception when the body
    is no JSON text. *)
Record Response : Type := {
  status : Z;
  body : option string;
  json : Result Value
}.

(** What the script engine and the k6 runtime supply. *)
Class Runtime : Type := {
  (** [Number::toString], as template literals and [String(n)] use it *)
  number_to_string : Number -> string;
  (** [StringToNumber], the numeric value of a string *)
  string_to_number : string -> Number;
  (** the value found along the prototype chain of a value for a name that
      is none of the own properties modelled below (the properties of an
      object, the length and the indices of an array or a string);
      [VUndefined] when there is none *)
  inherited : Value -> string -> Value;
  (** the built-in [encodeURIComponent] *)
  encodeURIComponent : string -> string;
  (** the built-in [JSON.stringify], on the objects the sources send *)
  JSON_stringify : Value -> string;
  (** the variables k6 exposes as [__ENV] *)
  ENV : string -> option string;
  (** the response the [n]-th HTTP request of the iteration receives *)
  http_send : nat -> Request -> Response;
  (** the [n]-th reading of the clock by [Date.now()], in milliseconds *)
  date_now : nat -> Number;
  (** [new Date().toISOString()] at the [n]-th reading of the clock *)
  date_iso : nat -> string;
  (** the [n]-th [Math.random()], a binary64 in [0, 1) *)
  math_random : nat -> Number
}.

Section JS.
Context {RT : Runtime}.

(** [ToBoolean] *)
Definition truthy (v : Value) : bool :=
  match v with
  | VUndefined | VNull => false
  | VBool b => b
  | VNum n => match n with
              | Fin q => negb (Qeq_bool q 0)
              | NaN => false
              | _ => true
              end
  | VStr s => negb (String.eqb s "")
  | VArr _ | VObj _ | VNative _ => true
  end.

(** [typeof] *)
Definition typeof (v : Value) : string :=
  match v with
  | VUndefined => "undefined"
  | VNull => "object"
  | VBool _ => "boolean"
  | VNum _ => "number"
  | VStr _ => "string"
  | VArr _ | VObj _ => "object"
  | VNative _ => "function"
  end.

Definition isArray (v : Value) : bool :=
  match v with VArr _ => true | _ => false end.

(** [a || b], the second operand already evaluated (the sources only use
    operands without effects there). *)
Definition js_or (a b : Value) : Value := if truthy a then a else b.

(** Separator-joined concatenation, [Array.prototype.join] on strings. *)
Fixpoint join (sep : string) (l : list string) : string :=
  match l with
  | [] => ""
  | [s] => s
  | s :: tl => s ++ sep ++ join sep tl
  end.

(** [ToString]: template literals, property keys, string concatenation.
    An array joins its elements with commas, [null] and [undefined]
    elements rendered empty; a plain object is ["[object Object]"]. *)
Fixpoint to_string (v : Value) : string :=
  match v with
  | VUndefined => "undefined"
  | VNull => "null"
  | VBool true => "true"
  | VBool false => "false"
  | VNum n => number_to_string n
  | VStr s => s
  | VArr l =>
      join "," (map (fun x => match x with
                              | VUndefined | VNull => ""
                              | _ => to_string x
                              end) l)
  | VObj _ => "[object Object]"
  | VNative name => "function " ++ name ++ "() { [native code] }"
  end.

(** [ToNumber] *)
Definition to_number (v : Value) : Number :=
  match v with
  | VUndefined => NaN
  | VNull => Fin 0
  | VBool true => Fin 1
  | VBool false => Fin 0
  | VNum n => n
  | VStr s => string_to_number s
  | VArr _ => string_to_number (to_string v)
  | VObj _ | VNative _ => NaN
  end.

(** [a === b].  Two objects are equal only when they are one object; the
    objects the sources compare come from different responses, so a
    comparison between objects is [false]. *)
Definition strict_eq (a b : Value) : bool :=
  match a, b with
  | VUndefined, VUndefined | VNull, VNull => true
  | VBool x, VBool y => Bool.eqb x y
  | VNum x, VNum y => B64.eqb x y
  | VStr x, VStr y => String.eqb x y
  | _, _ => false
  end.

Definition nullish (v : Value) : bool :=
  match v with VUndefined | VNull => true | _ => false end.

Definition is_primitive (v : Value) : bool :=
  match v with VArr _ | VObj _ | VNative _ => false | _ => true end.

(** [a == b]: equal types compare strictly, [null] and [undefined] equal
    each other only, an object meets a primitive as its string, and a
    number is compared with the numeric value of the other side. *)
Definition loose_eq (a b : Value) : bool :=
  if nullish a || nullish b then nullish a && nullish b
  else if negb (is_primitive a) && negb (is_primitive b) then false
  else
    let pa := if is_primitive a then a else VStr (to_string a) in
    let pb := if is_primitive b then b else VStr (to_string b) in
    match pa, pb with
    | VStr x, VStr y => String.eqb x y
    | _, _ => B64.eqb (to_number pa) (to_number pb)
    end.

(** The element whose index, written as the engine writes a number, is
    the key [k]; [i] is the index of the head of [l]. *)
Fixpoint index_of_key (k : string) (l : list Value) (i : nat) : option Value :=
  match l with
  | [] => None
  | x :: tl =>
      if String.eqb k (to_string (VInt (Z.of_nat i))) then Some x
      else index_of_key k tl (S i)
  end.

Definition chars (s : string) : list Value :=
  map (fun c => VStr (String c "")) (list_ascii_of_string s).

(** The own property [k] of a value, when it has one. *)
Definition own_property (v : Value) (k : string) : option Value :=
  match v with
  | VObj props => assoc k props
  | VArr l =>
      if String.eqb k "length" then Some (VInt (Z.of_nat (List.length l)))
      else index_of_key k l 0
  | VStr s =>
      if String.eqb k "length" then Some (VInt (Z.of_nat (String.length s)))
      else index_of_key k (chars s) 0
  | _ => None
  end.

(** [v[k]] and [v.k] on a value that is neither [null] nor [undefined]:
    the own property, else what the prototype chain has. *)
Definition prop (v : Value) (k : string) : Value :=
  match own_property v k with
  | Some x => x
  | None => inherited v k
  end.

(** [v[k]] and [v.k] in general: a [TypeError] on [null] and [undefined]. *)
Definition get_prop (v : Value) (k : string) : Result Value :=
  if nullish v
  then Throw ("TypeError: Cannot read property '" ++ k ++ "' of " ++ to_string v)
  else Ok (prop v k).

(** [v?.k] *)
Definition get_opt (v : Value) (k : string) : Value :=
  if nullish v then VUndefined else prop v k.

(** The entries an object spread [{...v}] copies: the own enumerable
    properties, which a string and an array have per index. *)
Fixpoint indexed (l : list Value) (i : nat) : list (string * Value) :=
  match l with
  | [] => []
  | x :: tl => (to_string (VInt (Z.of_nat i)), x) :: indexed tl (S i)
  end.

Definition own_entries (v : Value) : list (string * Value) :=
  match v with
  | VObj props => props
  | VArr l => indexed l 0
  | VStr s => indexed (chars s) 0
  | _ => []
  end.

(** [Object.entries(v)]: a [TypeError] on [null] and [undefined]. *)
Definition Object_entries (v : Value) : Result (list (string * Value)) :=
  if nullish v
  then Throw "TypeError: Cannot convert undefined or null to object"
  else Ok (own_entries v).

(** A parameter with a default value: the default stands in for
    [undefined], and for nothing else. *)
Definition default_param (v d : Value) : Value :=
  match v with VUndefined => d | _ => v end.

(** [obj[k] = x] on a property list: an existing property keeps its place. *)
Fixpoint set_prop {A : Type} (k : string) (x : A) (l : list (string * A))
  : list (string * A) :=
  match l with
  | [] => [(k, x)]
  | (k', y) :: tl =>
      if String.eqb k k' then (k, x) :: tl else (k', y) :: set_prop k x tl
  end.

(** [{ ...base, ...v }] on property lists: the own enumerable properties
    of [v] are set one by one, in their order, over those of the base. *)
Definition spread (v : Value) (base : list (string * Value))
  : list (string * Value) :=
  fold_left (fun acc kv => set_prop (fst kv) (snd kv) acc) (own_entries v) base.

(** [JSON.stringify(v)] as the body of a request: a text, or [undefined]
    (here [None], a request without a body) when [v] is [undefined] or a
    function. *)
Definition json_text (v : Value) : option string :=
  match v with
  | VUndefined | VNative _ => None
  | _ => Some (JSON_stringify v)
  end.

(** [l[i]] on an array literal of the sources whose elements the model
    keeps typed: the element at an index that is a natural number below
    the length, [undefined] (here [None]) at every other number. *)
Definition item_at {A : Type} (l : list A) (i : Number) : option A :=
  match i with
  | Fin q =>
      if Qeq_bool (inject_Z (Qfloor q)) q && (0 <=? Qfloor q)
      then nth_error l (Z.to_nat (Qfloor q))
      else None
  | _ => None
  end.

End JS.

(* ------------------------------------------------------------------ *)
(** ** Effects                                                         *)
(* ------------------------------------------------------------------ *)

(** What an iteration does to the world, in order.  [ECall] is a ghost
    event that marks the entry of a function of the CRUD test. *)
Inductive Event : Type :=
| EMetric (metric : string) (sample : Value)
| ECheck (name : string) (pass : bool)
| EConsole (level : string) (args : list string)
| EHttp (req : Request) (res : Response)
| ESleep (seconds : Number)
| ECall (fn : string).

(** How many requests, clock readings and random draws were made so far. *)
Record Ticks : Type := {
  n_http : nat;
  n_date : nat;
  n_rand : nat
}.

Definition ticks0 : Ticks := {| n_http := 0; n_date := 0; n_rand := 0 |}.

(** A computation: from the ticks, a completion, the new ticks and the
    events it emitted. *)
Definition M (A : Type) : Type := Ticks -> Result A * Ticks * list Event.

Definition ret {A : Type} (a : A) : M A := fun t => (Ok a, t, []).

Definition bind {A B : Type} (m : M A) (f : A -> M B) : M B :=
  fun t =>
    match m t with
    | (Ok a, t1, e1) =>
        match f a t1 with
        | (r, t2, e2) => (r, t2, (e1 ++ e2)%list)
        end
    | (Throw x, t1, e1) => (Throw x, t1, e1)
    end.

Definition throw {A : Type} (msg : string) : M A := fun t => (Throw msg, t, []).

(** [try { m } catch (e) { h e }] *)
Definition try_catch {A : Type} (m : M A) (h : string -> M A) : M A :=
  fun t =>
    match m t with
    | (Ok a, t1, e1) => (Ok a, t1, e1)
    | (Throw x, t1, e1) =>
        match h x t1 with
        | (r, t2, e2) => (r, t2, (e1 ++ e2)%list)
        end
    end.

Definition emit (e : Event) : M unit := fun t => (Ok tt, t, [e]).

(** A pure completion inside a computation. *)
Definition lift {A : Type} (r : Result A) : M A := fun t => (r, t, []).

Declare Scope m_scope.
Delimit Scope m_scope with M.
Notation "x <- m ;; k" := (bind m (fun x => k))
  (at level 61, m at next level, right associativity) : m_scope.
Notation "m ;; k" := (bind m (fun _ => k))
  (at level 61, right associativity) : m_scope.
Local Open Scope m_scope.

Definition result_of {A : Type} (o : Result A * Ticks * list Event) : Result A :=
  fst (fst o).
Definition ticks_of {A : Type} (o : Result A * Ticks * list Event) : Ticks :=
  snd (fst o).
Definition events_of {A : Type} (o : Result A * Ticks * list Event) : list Event :=
  snd o.

Section K6.
Context {RT : Runtime}.

(** [console.log] and [console.error] *)
Definition console_log (args : list string) : M unit := emit (EConsole "log" args).
Definition console_error (args : list string) : M unit := emit (EConsole "error" args).

(** [sleep(seconds)] *)
Definition sleep (seconds : Number) : M unit := emit (ESleep seconds).

(** [metric.add(sample)] on a [Trend], [Counter] or [Rate] *)
Definition metric_add (metric : string) (sample : Value) : M unit :=
  emit (EMetric metric sample).

(** [Date.now()], in milliseconds *)
Definition Date_now : M Number :=
  fun t => (Ok (date_now (n_date t)),
            {| n_http := n_http t; n_date := S (n_date t); n_rand := n_rand t |}, []).

(** [new Date().toISOString()] *)
Definition Date_toISOString : M string :=
  fun t => (Ok (date_iso (n_date t)),
            {| n_http := n_http t; n_date := S (n_date t); n_rand := n_rand t |}, []).

(** [Math.random()] *)
Definition Math_random : M Number :=
  fun t => (Ok (math_random (n_rand t)),
            {| n_http := n_http t; n_date := n_date t; n_rand := S (n_rand t) |}, []).

(** [http.get], [http.post], [http.put], [http.del]: the request goes out
    and the response of the server comes back. *)
Definition http_request (req : Request) : M Response :=
  fun t => let res := http_send (n_http t) req in
           (Ok res,
            {| n_http := S (n_http t); n_date := n_date t; n_rand := n_rand t |},
            [EHttp req res]).

(** [res.json()] *)
Definition res_json (res : Response) : M Value := lift (json res).

(** [check(val, sets)]: every predicate is called on [val], in the order
    of the keys; each outcome is recorded under its name; the result is
    whether all passed.  A predicate that throws is recorded as failed,
    and its exception then leaves [check]. *)
Fixpoint check {T : Type} (val : T) (sets : list (string * (T -> M Value))) : M bool :=
  match sets with
  | [] => ret true
  | (name, predicate) :: tl =>
      v <- try_catch (predicate val)
             (fun err => emit (ECheck name false) ;; throw err) ;;
      emit (ECheck name (truthy v)) ;;
      rest <- check val tl ;;
      ret (truthy v && rest)
  end.

End K6.

(* ------------------------------------------------------------------ *)
(** ** config/env.js                                                   *)
(* ------------------------------------------------------------------ *)

Module Env.
Section Env.
Context {RT : Runtime}.

(** [__ENV.NAME]: the string, or [undefined] when the variable is unset. *)
Definition env (name : string) : Value :=
  match ENV name with
  | Some s => VStr s
  | None => VUndefined
  end.

Definition HOSTS : Value :=
  VObj [ ("PROD", VStr "https://api.example.com");
         ("DEV", VStr "https://api-dev.example.com");
         ("STAGING", VStr "https://api-staging.example.com");
         ("LOCAL", VStr "http://localhost:3000") ].

Definition CURRENT_HOST : Value :=
  if truthy (env "HOST")
  then js_or (prop HOSTS (to_string (env "HOST"))) (env "HOST")
  else prop HOSTS "DEV".

Definition TOKENS : Value :=
  VObj [ ("USER", js_or (env "TOKEN_USER") (VStr "your-user-token-here"));
         ("ADMIN", js_or (env "TOKEN_ADMIN") (VStr "your-admin-token-here"));
         ("SUPER_USER",
          js_or (env "TOKEN_SUPER_USER") (VStr "your-super-user-token-here")) ].

Definition LOAD_PROFILES : Value :=
  VObj [ ("SMOKE", VObj [ ("vus", VInt 1);
                          ("duration", VStr "30s");
                          ("description", VStr "Quick sanity check") ]);
         ("LIGHT", VObj [ ("vus", VInt 10);
                          ("duration", VStr "60s");
                          ("description", VStr "Daily CI/CD, quick validation") ]);
         ("MEDIUM", VObj [ ("vus", VInt 30);
                           ("duration", VStr "5m");
                           ("description", VStr "Weekly regression, pre-release") ]);
         ("HEAVY", VObj [ ("vus", VInt 100);
                          ("duration", VStr "10m");
                          ("description",
                           VStr "Monthly stress testing, capacity planning") ]) ].

Definition DEFAULT_PROFILE : Value := prop LOAD_PROFILES "LIGHT".

Definition getProfile : Value :=
  let profileName := js_or (env "PROFILE") (VStr "LIGHT") in
  js_or (prop LOAD_PROFILES (to_string profileName)) DEFAULT_PROFILE.

End Env.
End Env.

(* ------------------------------------------------------------------ *)
(** ** config/slo.js                                                   *)
(* ------------------------------------------------------------------ *)

Module Slo.

Record EndpointSLO : Type := {
  p95 : Number;
  p99 : Number;
  errorRate : Number
}.

Definition DEFAULT_SLO_read : EndpointSLO :=
  {| p95 := B64.of_Z 500; p99 := B64.of_Z 1000; errorRate := B64.lit 1 100 |}.
Definition DEFAULT_SLO_write : EndpointSLO :=
  {| p95 := B64.of_Z 1000; p99 := B64.of_Z 2500; errorRate := B64.lit 2 100 |}.
Definition DEFAULT_SLO_critical : EndpointSLO :=
  {| p95 := B64.of_Z 200; p99 := B64.of_Z 500; errorRate := B64.lit 5 1000 |}.

Definition ENDPOINT_SLO_products_list : EndpointSLO :=
  {| p95 := B64.of_Z 300; p99 := B64.of_Z 800; errorRate := B64.lit 1 100 |}.

Definition ENDPOINT_SLO_auth_login : EndpointSLO :=
  {| p95 := B64.of_Z 300; p99 := B64.of_Z 800; errorRate := B64.lit 5 1000 |}.
Definition ENDPOINT_SLO_auth_logout : EndpointSLO :=
  {| p95 := B64.of_Z 200; p99 := B64.of_Z 500; errorRate := B64.lit 1 100 |}.
Definition ENDPOINT_SLO_users_list : EndpointSLO :=
  {| p95 := B64.of_Z 500; p99 := B64.of_Z 1000; errorRate := B64.lit 1 100 |}.
Definition ENDPOINT_SLO_users_details : EndpointSLO :=
  {| p95 := B64.of_Z 200; p99 := B64.of_Z 500; errorRate := B64.lit 1 100 |}.
Definition ENDPOINT_SLO_users_create : EndpointSLO :=
  {| p95 := B64.of_Z 1000; p99 := B64.of_Z 2000; errorRate := B64.lit 2 100 |}.
Definition ENDPOINT_SLO_users_update : EndpointSLO :=
  {| p95 := B64.of_Z 800; p99 := B64.of_Z 1500; errorRate := B64.lit 2 100 |}.
Definition ENDPOINT_SLO_users_delete : EndpointSLO :=
  {| p95 := B64.of_Z 500; p99 := B64.of_Z 1000; errorRate := B64.lit 2 100 |}.
Definition ENDPOINT_SLO_products_search : EndpointSLO :=
  {| p95 := B64.of_Z 500; p99 := B64.of_Z 1200; errorRate := B64.lit 1 100 |}.
Definition ENDPOINT_SLO_products_details : EndpointSLO :=
  {| p95 := B64.of_Z 150; p99 := B64.of_Z 400; errorRate := B64.lit 1 100 |}.

Section Slo.
Context {RT : Runtime}.

(** A k6 thresholds object: metric selectors with their expressions, in
    the order of the keys. *)
Definition Thresholds : Type := list (string * list string).

Definition generateThresholds (slo : EndpointSLO) : Thresholds :=
  [ ("http_req_duration",
     [ "p(95)<" ++ number_to_string (p95 slo);
       "p(99)<" ++ number_to_string (p99 slo) ]);
    ("http_req_failed", [ "rate<" ++ number_to_string (errorRate slo) ]);
    ("checks", [ "rate>0.95" ]) ].

Definition generateScenarioThresholds (slo : EndpointSLO) (testType : string)
  : Thresholds :=
  set_prop ("http_req_failed{test_type:" ++ testType ++ "}")
           [ "rate<" ++ number_to_string (errorRate slo) ]
    [ ("http_req_duration{test_type:" ++ testType ++ "}",
       [ "p(95)<" ++ number_to_string (p95 slo);
         "p(99)<" ++ number_to_string (p99 slo) ]) ].

(** The spread of the generated object, then the computed key
    [`${prefix}_duration`]. *)
Definition generateCustomThresholds (slo : EndpointSLO) (prefix : string)
  : Thresholds :=
  set_prop (prefix ++ "_duration")
           [ "p(95)<" ++ number_to_string (p95 slo);
             "p(99)<" ++ number_to_string (p99 slo) ]
    (generateThresholds slo).

End Slo.
End Slo.

(* ------------------------------------------------------------------ *)
(** ** helpers/common.js                                               *)
(* ------------------------------------------------------------------ *)

Module Common.
Section Common.
Context {RT : Runtime}.

Definition getUrl (path : string) : string :=
  to_string Env.CURRENT_HOST ++ path.

(** [([_, v]) => v !== null && v !== undefined] *)
Definition has_value (kv : string * Value) : bool :=
  negb (strict_eq (snd kv) VNull) && negb (strict_eq (snd kv) VUndefined).

(** [([k, v]) => `${encodeURIComponent(k)}=${encodeURIComponent(v)}`] *)
Definition encode_pair (kv : string * Value) : string :=
  encodeURIComponent (fst kv) ++ "=" ++ encodeURIComponent (to_string (snd kv)).

(** The query string both [getUrlWithParams] and [getWithParams] build:
    [Object.entries(params).filter(..).map(..).join('&')]. *)
Definition queryString (params : Value) : Result string :=
  match Object_entries params with
  | Ok entries => Ok (join "&" (map encode_pair (filter has_value entries)))
  | Throw e => Throw e
  end.

Definition getUrlWithParams (path : string) (params : Value) : Result string :=
  let params := default_param params (VObj []) in
  let url := getUrl path in
  match queryString params with
  | Ok queryString =>
      Ok (if truthy (VStr queryString) then url ++ "?" ++ queryString else url)
  | Throw e => Throw e
  end.

Definition getHeaders (role : string) : list (string * string) :=
  [ ("Accept", "application/json");
    ("Content-Type", "application/json");
    ("Authorization", "Bearer " ++ to_string (prop Env.TOKENS role)) ].

Definition logError (context message : string) : M unit :=
  console_error [ "ERROR [" ++ context ++ "]: " ++ message ].

Definition logRequestError (context : string) (response : Response) : M unit :=
  logError context
    ("Request failed with status " ++ to_string (VInt (status response)) ++ ": "
     ++ to_string
          (js_or (match body response with
                  | Some b => VStr (substring 0 200 b)
                  | None => VUndefined
                  end)
                 (VStr "No body"))).

(** [Math.floor(Math.random() * (max - min + 1)) + min] *)
Definition randomInt (min max : Number) : M Number :=
  r <- Math_random ;;
  ret (B64.floor (r * (max - min + Fin 1)) + min)%num.

(** [s.charAt(i)]: the code unit at the integer part of [i], or the empty
    string outside the string. *)
Definition charAt (s : string) (i : Number) : string :=
  match i with
  | Fin q =>
      let z := if Qle_bool 0 q then Qfloor q else Qceiling q in
      if z <? 0 then ""
      else match String.get (Z.to_nat z) s with
           | Some c => String c ""
           | None => ""
           end
  | NaN => match String.get 0 s with
           | Some c => String c ""
           | None => ""
           end
  | _ => ""
  end.

Definition alphabet : string :=
  "abcdefghijklmnopqrstuvwxyzABCDEFGHIJKLMNOPQRSTUVWXYZ0123456789".

(** The loop of [randomString], [length] rounds of it. *)
Fixpoint randomString_loop (length : nat) (result : string) : M string :=
  match length with
  | O => ret result
  | S n =>
      r <- Math_random ;;
      randomString_loop n
        (result ++ charAt alphabet
                     (B64.floor (r * B64.of_Z (Z.of_nat (String.length alphabet)))%num))
  end.

Definition randomString (length : nat) : M string := randomString_loop length "".

Definition sleepWithJitter (baseMs jitterMs : Number) : M Number :=
  jitter <- (if (Fin 0 <? jitterMs)%num
             then randomInt (Fin 0) jitterMs
             else ret (Fin 0)) ;;
  ret ((baseMs + jitter) / B64.of_Z 1000)%num.

Definition thinkTime : M Number :=
  sleepWithJitter (B64.of_Z 1000) (B64.of_Z 2000).

(** [createProductPayload()], called without overrides: the properties of
    the empty object [overrides] are what its prototype chain has. *)
Definition createProductPayload : M Value :=
  let overrides := VObj [] in
  name <- (if truthy (prop overrides "name") then ret (prop overrides "name")
           else s <- randomString 5 ;; ret (VStr ("Product " ++ s))) ;;
  price <- (if truthy (prop overrides "price") then ret (prop overrides "price")
            else n <- randomInt (B64.of_Z 10) (B64.of_Z 1000) ;; ret (VNum n)) ;;
  stock <- (if truthy (prop overrides "stock") then ret (prop overrides "stock")
            else n <- randomInt (B64.of_Z 0) (B64.of_Z 100) ;; ret (VNum n)) ;;
  let category := js_or (prop overrides "category") (VStr "general") in
  ret (VObj [ ("name", name); ("price", price); ("stock", stock);
              ("category", category) ]).

Definition getPublicHeaders : list (string * string) :=
  [ ("Accept", "application/json");
    ("Content-Type", "application/json") ].

(** [{ ...getHeaders(role), ...customHeaders }] *)
Definition getCustomHeaders (role : string) (customHeaders : Value)
  : list (string * Value) :=
  let customHeaders := default_param customHeaders (VObj []) in
  spread customHeaders (map (fun h => (fst h, VStr (snd h))) (getHeaders role)).

(** [array[Math.floor(Math.random() * array.length)]]: the draw comes
    before the length is read. *)
Definition randomItem (array : Value) : M Value :=
  r <- Math_random ;;
  length <- lift (get_prop array "length") ;;
  ret (prop array (to_string (VNum (B64.floor (r * to_number length)%num)))).

Definition randomEmail : M string :=
  s <- randomString 8 ;;
  ret ("test-" ++ s ++ "@example.com").

Definition paginationParams (pageNumber pageSize : Value) : Value :=
  let pageNumber := default_param pageNumber (VInt 1) in
  let pageSize := default_param pageSize (VInt 50) in
  VObj [ ("pageNumber", pageNumber); ("pageSize", pageSize) ].

Definition randomPaginationParams (maxPage maxSize : Value) : M Value :=
  let maxPage := default_param maxPage (VInt 10) in
  let maxSize := default_param maxSize (VInt 100) in
  pageNumber <- randomInt (Fin 1) (to_number maxPage) ;;
  pageSize <- randomItem
                (VArr (filter (fun s => (to_number s <=? to_number maxSize)%num)
                              [ VInt 10; VInt 25; VInt 50; VInt 100 ])) ;;
  ret (VObj [ ("pageNumber", VNum pageNumber); ("pageSize", pageSize) ]).

Definition listPayload (options : Value) : Result Value :=
  let options := default_param options (VObj []) in
  match get_prop options "pageNumber" with
  | Throw e => Throw e
  | Ok pageNumber =>
      Ok (VObj [ ("pageNumber", js_or pageNumber (VInt 1));
                 ("pageSize", js_or (prop options "pageSize") (VInt 50));
                 ("search", js_or (prop options "search") VNull);
                 ("sort", js_or (prop options "sort") VNull);
                 ("filters", js_or (prop options "filters") (VObj [])) ])
  end.

Definition createUserPayload (overrides : Value) : M Value :=
  let overrides := default_param overrides (VObj []) in
  given <- lift (get_prop overrides "name") ;;
  name <- (if truthy given then ret given
           else s <- randomString 5 ;; ret (VStr ("Test User " ++ s))) ;;
  email <- (if truthy (prop overrides "email") then ret (prop overrides "email")
            else s <- randomEmail ;; ret (VStr s)) ;;
  let role := js_or (prop overrides "role") (VStr "USER") in
  ret (VObj (spread overrides
               [ ("name", name); ("email", email); ("role", role) ])).

(** [data !== null && data !== undefined && data.items !== undefined
     && Array.isArray(data.items)] *)
Definition isValidListResponse (data : Value) : Result bool :=
  if strict_eq data VNull then Ok false
  else if strict_eq data VUndefined then Ok false
  else
    match get_prop data "items" with
    | Throw e => Throw e
    | Ok items => Ok (negb (strict_eq items VUndefined) && isArray items)
    end.

(** [isValidListResponse(data) && data.items.length > 0
     && data.items.length <= maxItems] *)
Definition hasValidItemCount (data maxItems : Value) : Result bool :=
  let maxItems := default_param maxItems (VInt 50) in
  match isValidListResponse data with
  | Throw e => Throw e
  | Ok false => Ok false
  | Ok true =>
      let length := to_number (prop (prop data "items") "length") in
      Ok ((Fin 0 <? length)%num && (length <=? to_number maxItems)%num)
  end.

End Common.
End Common.

(* ------------------------------------------------------------------ *)
(** ** utils/http-utils.js                                             *)
(* ------------------------------------------------------------------ *)

(** Every call in the repository leaves the last parameter, [options], at
    its default [{}]; the wrappers are modelled at that value. *)
Module HttpUtils.
Section HttpUtils.
Context {RT : Runtime}.

Definition log_if_error (context : string) (res : Response) : M unit :=
  if status res >=? 400 then Common.logRequestError context res else ret tt.

Definition get (path role context : string) : M Response :=
  let url := Common.getUrl path in
  let headers := Common.getHeaders role in
  res <- http_request {| method := "GET"; url := url; headers := headers;
                         req_body := None |} ;;
  log_if_error context res ;;
  ret res.

Definition getWithParams (path : string) (params : Value) (role context : string)
  : M Response :=
  let params := default_param params (VObj []) in
  queryString <- lift (Common.queryString params) ;;
  let fullPath :=
    if truthy (VStr queryString) then path ++ "?" ++ queryString else path in
  get fullPath role context.

Definition post (path : string) (payload : Value) (role context : string)
  : M Response :=
  let url := Common.getUrl path in
  let headers := Common.getHeaders role in
  let body := json_text payload in
  res <- http_request {| method := "POST"; url := url; headers := headers;
                         req_body := body |} ;;
  log_if_error context res ;;
  ret res.

Definition put (path : string) (payload : Value) (role context : string)
  : M Response :=
  let url := Common.getUrl path in
  let headers := Common.getHeaders role in
  let body := json_text payload in
  res <- http_request {| method := "PUT"; url := url; headers := headers;
                         req_body := body |} ;;
  log_if_error context res ;;
  ret res.

Definition del (path role context : string) : M Response :=
  let url := Common.getUrl path in
  let headers := Common.getHeaders role in
  res <- http_request {| method := "DELETE"; url := url; headers := headers;
                         req_body := None |} ;;
  log_if_error context res ;;
  ret res.

Definition safeJson (res : Response) (defaultValue : Value) : M Value :=
  try_catch (res_json res) (fun _ => ret defaultValue).

Definition extractId (res : Response) (idField : string) : M Value :=
  data <- safeJson res VNull ;;
  if truthy data then ret (prop data idField) else ret VNull.

Definition patch (path : string) (payload : Value) (role context : string)
  : M Response :=
  let url := Common.getUrl path in
  let headers := Common.getHeaders role in
  let body := json_text payload in
  res <- http_request {| method := "PATCH"; url := url; headers := headers;
                         req_body := body |} ;;
  log_if_error context res ;;
  ret res.

Definition delWithBody (path : string) (payload : Value) (role context : string)
  : M Response :=
  let url := Common.getUrl path in
  let headers := Common.getHeaders role in
  let body := json_text payload in
  res <- http_request {| method := "DELETE"; url := url; headers := headers;
                         req_body := body |} ;;
  log_if_error context res ;;
  ret res.

(** [data?.items || []] *)
Definition extractItems (res : Response) : M Value :=
  data <- safeJson res VNull ;;
  ret (js_or (get_opt data "items") (VArr [])).

Definition getRandomItem (res : Response) : M Value :=
  items <- extractItems res ;;
  if strict_eq (prop items "length") (VInt 0) then ret VNull
  else
    r <- Math_random ;;
    ret (prop items
           (to_string (VNum (B64.floor (r * to_number (prop items "length"))%num)))).

End HttpUtils.
End HttpUtils.

(* ------------------------------------------------------------------ *)
(** ** utils/checks.js                                                 *)
(* ------------------------------------------------------------------ *)

Module Checks.
Section Checks.
Context {RT : Runtime}.

(** A user-supplied validator: any function of one item. *)
Definition Validator : Type := Value -> M Value.

Definition status_is (expected : Z) (r : Response) : M Value :=
  ret (VBool (status r =? expected)).

Definition status_2xx (r : Response) : M Value :=
  ret (VBool ((status r >=? 200) && (status r <? 300))).

Definition checkStatus (res : Response) (expectedStatus : Z) : M bool :=
  check res [ ("status is " ++ to_string (VInt expectedStatus),
               status_is expectedStatus) ].

Definition checkSuccess (res : Response) : M bool :=
  check res [ ("status is 2xx", status_2xx) ].

(** [d.items !== undefined && Array.isArray(d.items)] *)
Definition has_items_array (d : Value) : M Value :=
  items <- lift (get_prop d "items") ;;
  ret (VBool (negb (strict_eq items VUndefined) && isArray items)).

(** [d.items && d.items.length > 0] *)
Definition items_not_empty (d : Value) : M Value :=
  items <- lift (get_prop d "items") ;;
  if truthy items
  then ret (VBool (Fin 0 <? to_number (prop items "length"))%num)
  else ret items.

(** [d.items && d.items.length <= 100] *)
Definition valid_page_size (d : Value) : M Value :=
  items <- lift (get_prop d "items") ;;
  if truthy items
  then ret (VBool (to_number (prop items "length") <=? B64.of_Z 100)%num)
  else ret items.

Definition checkListResponse (res : Response) (context : string) : M bool :=
  try_catch
    (data <- res_json res ;;
     check data [ (context ++ ": has items array", has_items_array);
                  (context ++ ": items not empty", items_not_empty);
                  (context ++ ": valid page size", valid_page_size) ])
    (fun e =>
       console_error [ "Failed to parse " ++ context ++ " response:"; e ] ;;
       ret false).

(** [d !== null && typeof d === 'object' && !Array.isArray(d)] *)
Definition response_is_object (d : Value) : M Value :=
  ret (VBool (negb (strict_eq d VNull)
              && String.eqb (typeof d) "object"
              && negb (isArray d))).

(** [d[field] !== undefined] *)
Definition has_field (field : Value) (d : Value) : M Value :=
  x <- lift (get_prop d (to_string field)) ;;
  ret (VBool (negb (strict_eq x VUndefined))).

Definition checkItemResponse (res : Response) (requiredFields : list Value)
           (context : string) : M bool :=
  try_catch
    (data <- res_json res ;;
     let checks := [ (context ++ ": response is object", response_is_object) ] in
     let checks :=
       fold_left
         (fun checks field =>
            set_prop (context ++ ": has " ++ to_string field) (has_field field) checks)
         requiredFields checks in
     check data checks)
    (fun e =>
       console_error [ "Failed to parse " ++ context ++ " response:"; e ] ;;
       ret false).

(** The predicate [checkFieldTypes] installs for one field. *)
Definition field_has_type (field : string) (expectedType : Value) (d : Value)
  : M Value :=
  value <- lift (get_prop d field) ;;
  if strict_eq expectedType (VStr "array")
  then ret (VBool (isArray value))
  else ret (VBool (strict_eq (VStr (typeof value)) expectedType)).

Definition checkFieldTypes (res : Response) (fieldTypes : Value) (context : string)
  : M bool :=
  try_catch
    (data <- res_json res ;;
     entries <- lift (Object_entries fieldTypes) ;;
     let checks :=
       fold_left
         (fun checks kv =>
            set_prop (context ++ ": " ++ fst kv ++ " is " ++ to_string (snd kv))
                     (field_has_type (fst kv) (snd kv)) checks)
         entries [] in
     check data checks)
    (fun e =>
       console_error [ "Failed to parse " ++ context ++ " response:"; e ] ;;
       ret false).

Definition checkListItemStructure (res : Response) (itemValidator : Validator)
           (context : string) : M bool :=
  try_catch
    (data <- res_json res ;;
     items <- lift (get_prop data "items") ;;
     if negb (truthy items) || negb (isArray items)
        || strict_eq (prop items "length") (VInt 0)
     then ret false
     else check (prop items (to_string (VInt 0)))
                [ (context ++ ": valid structure", fun item => itemValidator item) ])
    (fun e =>
       console_error [ "Failed to validate " ++ context ++ ":"; e ] ;;
       ret false).

Definition checkGetListEndpoint (res : Response) (itemValidator : option Validator)
           (context : string) : M bool :=
  let allPassed := true in
  s <- checkStatus res 200 ;;
  let allPassed := s && allPassed in
  if status res =? 200
  then
    l <- checkListResponse res context ;;
    let allPassed := l && allPassed in
    match itemValidator with
    | Some validator =>
        i <- checkListItemStructure res validator (context ++ "-item") ;;
        ret (i && allPassed)
    | None => ret allPassed
    end
  else ret allPassed.

Definition checkCreated (res : Response) : M bool := checkStatus res 201.

Definition checkNoContent (res : Response) : M bool := checkStatus res 204.

Definition checkGetItemEndpoint (res : Response) (requiredFields : list Value)
           (context : string) : M bool :=
  let allPassed := true in
  s <- checkStatus res 200 ;;
  let allPassed := s && allPassed in
  if status res =? 200
  then
    i <- checkItemResponse res requiredFields context ;;
    ret (i && allPassed)
  else ret allPassed.

(** [res.body] as a value: the text, or [null] when there is none. *)
Definition body_value (res : Response) : Value :=
  match body res with
  | Some b => VStr b
  | None => VNull
  end.

Definition checkPostEndpoint (res : Response) (requiredFields : list Value)
           (context : string) : M bool :=
  let allPassed := true in
  s <- check res [ (context ++ ": status is 2xx", status_2xx) ] ;;
  let allPassed := s && allPassed in
  if (status res >=? 200) && (status res <? 300) && truthy (body_value res)
  then
    i <- checkItemResponse res requiredFields context ;;
    ret (i && allPassed)
  else ret allPassed.

Definition checkDeleteEndpoint (res : Response) (context : string) : M bool :=
  check res [ (context ++ ": status is 2xx", status_2xx) ].

(** [d.message !== undefined || d.error !== undefined] *)
Definition has_error_message (d : Value) : M Value :=
  message <- lift (get_prop d "message") ;;
  if negb (strict_eq message VUndefined) then ret (VBool true)
  else
    error <- lift (get_prop d "error") ;;
    ret (VBool (negb (strict_eq error VUndefined))).

Definition checkErrorResponse (res : Response) (expectedStatus : Z)
           (context : string) : M bool :=
  allPassed <- checkStatus res expectedStatus ;;
  try_catch
    (data <- res_json res ;;
     c <- check data [ (context ++ ": has error message", has_error_message) ] ;;
     ret (c && allPassed))
    (fun _ => ret allPassed).

End Checks.
End Checks.

(* ------------------------------------------------------------------ *)
(** ** run-all.js                                                      *)
(* ------------------------------------------------------------------ *)

Module RunAll.
Section RunAll.
Context {RT : Runtime}.

Record Scenario : Type := {
  exec : string;
  executor : string;
  vus : Value;
  duration : Value;
  startTime : string;
  tags : list (string * string)
}.

Definition profile : Value := Env.getProfile.

(** [const { vus, duration } = profile;] *)
Definition profile_vus : Value := prop profile "vus".
Definition profile_duration : Value := prop profile "duration".

Definition get_list : Scenario :=
  {| exec := "getListScenario";
     executor := "constant-vus";
     vus := VNum (B64.ceil (to_number profile_vus * B64.lit 7 10)%num);
     duration := profile_duration;
     startTime := "0s";
     tags := [ ("test_type", "get-list"); ("operation", "read") ] |}.

Definition get_details : Scenario :=
  {| exec := "getDetailsScenario";
     executor := "constant-vus";
     vus := VNum (B64.ceil (to_number profile_vus * B64.lit 2 10)%num);
     duration := profile_duration;
     startTime := "0s";
     tags := [ ("test_type", "get-details"); ("operation", "read") ] |}.

Definition create : Scenario :=
  {| exec := "createScenario";
     executor := "constant-vus";
     vus := js_or (VNum (B64.ceil (to_number profile_vus * B64.lit 1 10)%num))
                  (VInt 1);
     duration := profile_duration;
     startTime := "10s";
     tags := [ ("test_type", "create"); ("operation", "write") ] |}.

(** [options.scenarios] *)
Definition scenarios : list (string * Scenario) :=
  [ ("get_list", get_list); ("get_details", get_details); ("create", create) ].

(** [options.thresholds] *)
Definition thresholds : Slo.Thresholds :=
  [ ("http_req_failed", [ "rate<0.05" ]);
    ("http_req_duration", [ "p(95)<2000" ]);
    ("checks", [ "rate>0.90" ]);
    ("http_req_duration{test_type:get-list}",
     [ "p(95)<" ++ number_to_string (Slo.p95 Slo.ENDPOINT_SLO_products_list);
       "p(99)<" ++ number_to_string (Slo.p99 Slo.ENDPOINT_SLO_products_list) ]);
    ("http_req_duration{test_type:get-details}",
     [ "p(95)<" ++ number_to_string (Slo.p95 Slo.ENDPOINT_SLO_products_details);
       "p(99)<" ++ number_to_string (Slo.p99 Slo.ENDPOINT_SLO_products_details) ]);
    ("http_req_duration{test_type:create}",
     [ "p(95)<" ++ number_to_string (Slo.p95 Slo.ENDPOINT_SLO_users_create);
       "p(99)<" ++ number_to_string (Slo.p99 Slo.ENDPOINT_SLO_users_create) ]);
    ("http_req_failed{operation:read}", [ "rate<0.02" ]);
    ("http_req_failed{operation:write}", [ "rate<0.05" ]) ].

End RunAll.
End RunAll.

(* ------------------------------------------------------------------ *)
(** ** tests/example/crud-operations.js                                *)
(* ------------------------------------------------------------------ *)

Module Crud.
Section Crud.
Context {RT : Runtime}.

(** The metrics of the test, by the names they are registered under. *)
Definition createDuration : string := "crud_create_duration".
Definition readDuration : string := "crud_read_duration".
Definition updateDuration : string := "crud_update_duration".
Definition deleteDuration : string := "crud_delete_duration".
Definition crudSuccessRate : string := "crud_success_rate".
Definition fullFlowSuccess : string := "crud_full_flow_success".
Definition fullFlowFailed : string := "crud_full_flow_failed".
Definition operationCounts_create : string := "crud_create_count".
Definition operationCounts_read : string := "crud_read_count".
Definition operationCounts_update : string := "crud_update_count".
Definition operationCounts_delete : string := "crud_delete_count".

(** What a step returns, [{ success, id, data }]; a property a step does
    not set reads [undefined]. *)
Record StepResult : Type := {
  success : bool;
  id : Value;
  data : Value
}.

Definition is_2xx (res : Response) : bool :=
  (status res >=? 200) && (status res <? 300).

Definition createResource : M StepResult :=
  emit (ECall "createResource") ;;
  payload <- Common.createProductPayload ;;
  startTime <- Date_now ;;
  res <- HttpUtils.post "/products" payload "ADMIN" "crud-create" ;;
  now <- Date_now ;;
  let duration := (now - startTime)%num in
  metric_add createDuration (VNum duration) ;;
  metric_add operationCounts_create (VInt 1) ;;
  let success := is_2xx res in
  id <- HttpUtils.extractId res "id" ;;
  data <- HttpUtils.safeJson res VNull ;;
  check res
    [ ("CREATE: status 2xx", Checks.status_2xx);
      ("CREATE: has id", fun _ => ret (VBool (negb (strict_eq id VNull))));
      ("CREATE: response time OK",
       fun _ => ret (VBool (duration <? Slo.p95 Slo.DEFAULT_SLO_write)%num)) ] ;;
  (if negb success
   then Common.logError "crud-create"
          ("Failed with status " ++ to_string (VInt (status res)))
   else ret tt) ;;
  metric_add crudSuccessRate (VBool success) ;;
  ret {| success := success; id := id; data := data |}.

Definition readResource (id : Value) : M StepResult :=
  emit (ECall "readResource") ;;
  if negb (truthy id)
  then
    Common.logError "crud-read" "No ID provided" ;;
    ret {| success := false; id := VUndefined; data := VNull |}
  else
    startTime <- Date_now ;;
    res <- HttpUtils.get ("/products/" ++ to_string id) "USER" "crud-read" ;;
    now <- Date_now ;;
    let duration := (now - startTime)%num in
    metric_add readDuration (VNum duration) ;;
    metric_add operationCounts_read (VInt 1) ;;
    let success := status res =? 200 in
    data <- HttpUtils.safeJson res VNull ;;
    check res
      [ ("READ: status 200", Checks.status_is 200);
        ("READ: has correct id",
         fun _ => ret (VBool (loose_eq (get_opt data "id") id)));
        ("READ: response time OK",
         fun _ => ret (VBool (duration <? Slo.p95 Slo.DEFAULT_SLO_read)%num)) ] ;;
    (if negb success
     then Common.logError "crud-read"
            ("Failed with status " ++ to_string (VInt (status res))
             ++ " for ID " ++ to_string id)
     else ret tt) ;;
    metric_add crudSuccessRate (VBool success) ;;
    ret {| success := success; id := VUndefined; data := data |}.

Definition updateResource (id originalData : Value) : M StepResult :=
  emit (ECall "updateResource") ;;
  if negb (truthy id)
  then
    Common.logError "crud-update" "No ID provided" ;;
    ret {| success := false; id := VUndefined; data := VNull |}
  else
    suffix <- Common.randomString 5 ;;
    price <- Common.randomInt (B64.of_Z 10) (B64.of_Z 500) ;;
    updatedAt <- Date_toISOString ;;
    let name := VStr ("Updated " ++ suffix) in
    let updatePayload :=
      VObj (set_prop "updatedAt" (VStr updatedAt)
              (set_prop "price" (VNum price)
                 (set_prop "name" name (own_entries originalData)))) in
    startTime <- Date_now ;;
    res <- HttpUtils.put ("/products/" ++ to_string id) updatePayload
                         "ADMIN" "crud-update" ;;
    now <- Date_now ;;
    let duration := (now - startTime)%num in
    metric_add updateDuration (VNum duration) ;;
    metric_add operationCounts_update (VInt 1) ;;
    let success := is_2xx res in
    data <- HttpUtils.safeJson res VNull ;;
    check res
      [ ("UPDATE: status 2xx", Checks.status_2xx);
        ("UPDATE: response time OK",
         fun _ => ret (VBool (duration <? Slo.p95 Slo.DEFAULT_SLO_write)%num)) ] ;;
    (if success && truthy data
     then
       check data
         [ ("UPDATE: name changed",
            fun d => ret (VBool (strict_eq (prop d "name") (prop updatePayload "name")
                                 || negb (strict_eq (prop d "name")
                                                    (get_opt originalData "name"))))) ] ;;
       ret tt
     else ret tt) ;;
    (if negb success
     then Common.logError "crud-update"
            ("Failed with status " ++ to_string (VInt (status res))
             ++ " for ID " ++ to_string id)
     else ret tt) ;;
    metric_add crudSuccessRate (VBool success) ;;
    ret {| success := success; id := VUndefined; data := data |}.

Definition deleteResource (id : Value) : M StepResult :=
  emit (ECall "deleteResource") ;;
  if negb (truthy id)
  then
    Common.logError "crud-delete" "No ID provided" ;;
    ret {| success := false; id := VUndefined; data := VUndefined |}
  else
    startTime <- Date_now ;;
    res <- HttpUtils.del ("/products/" ++ to_string id) "ADMIN" "crud-delete" ;;
    now <- Date_now ;;
    let duration := (now - startTime)%num in
    metric_add deleteDuration (VNum duration) ;;
    metric_add operationCounts_delete (VInt 1) ;;
    let success := is_2xx res in
    check res
      [ ("DELETE: status 2xx", Checks.status_2xx);
        ("DELETE: response time OK",
         fun _ => ret (VBool (duration <? Slo.p95 Slo.DEFAULT_SLO_write)%num)) ] ;;
    (if negb success
     then Common.logError "crud-delete"
            ("Failed with status " ++ to_string (VInt (status res))
             ++ " for ID " ++ to_string id)
     else ret tt) ;;
    metric_add crudSuccessRate (VBool success) ;;
    ret {| success := success; id := VUndefined; data := VUndefined |}.

Definition verifyDeleted (id : Value) : M bool :=
  emit (ECall "verifyDeleted") ;;
  res <- HttpUtils.get ("/products/" ++ to_string id) "USER" "crud-verify-deleted" ;;
  let isDeleted := status res =? 404 in
  check res [ ("VERIFY: resource is deleted (404)", Checks.status_is 404) ] ;;
  ret isDeleted.

(** The part of the iteration after a successful CREATE: steps 2 to 6 and
    the bookkeeping of the flow. *)
Definition after_create (createResult : StepResult) : M unit :=
  let flowSuccess := true in
  let createdId := id createResult in
  let resourceData := data createResult in
  sleep (B64.lit 5 10) ;;
  console_log [ "Step 2: READ" ] ;;
  readResult <- readResource createdId ;;
  let flowSuccess := if negb (success readResult) then false else flowSuccess in
  let resourceData := js_or (data readResult) resourceData in
  sleep (B64.lit 5 10) ;;
  console_log [ "Step 3: UPDATE" ] ;;
  updateResult <- updateResource createdId resourceData ;;
  let flowSuccess := if negb (success updateResult) then false else flowSuccess in
  sleep (B64.lit 5 10) ;;
  console_log [ "Step 4: READ (verify update)" ] ;;
  verifyUpdateResult <- readResource createdId ;;
  let flowSuccess :=
    if negb (success verifyUpdateResult) then false else flowSuccess in
  sleep (B64.lit 5 10) ;;
  console_log [ "Step 5: DELETE" ] ;;
  deleteResult <- deleteResource createdId ;;
  let flowSuccess := if negb (success deleteResult) then false else flowSuccess in
  sleep (B64.lit 5 10) ;;
  console_log [ "Step 6: VERIFY DELETED" ] ;;
  isDeleted <- verifyDeleted createdId ;;
  (if negb isDeleted
   then Common.logError "crud-flow"
          ("Resource " ++ to_string createdId ++ " still exists after delete")
   else ret tt) ;;
  let flowSuccess := if negb isDeleted then false else flowSuccess in
  (if flowSuccess
   then metric_add fullFlowSuccess (VInt 1)
   else metric_add fullFlowFailed (VInt 1)) ;;
  check tt [ ("CRUD flow completed successfully",
              fun _ => ret (VBool flowSuccess)) ] ;;
  t <- Common.thinkTime ;;
  sleep t.

(** The default function of the script: one iteration of the flow. *)
Definition default : M unit :=
  console_log [ "Step 1: CREATE" ] ;;
  createResult <- createResource ;;
  if negb (success createResult)
  then
    metric_add fullFlowFailed (VInt 1) ;;
    sleep (B64.of_Z 1)
  else after_create createResult.

(** [options.vus] of the CRUD test: [Math.ceil(profile.vus * 0.5)] *)
Definition options_vus : Number :=
  B64.ceil (to_number (prop Env.getProfile "vus") * B64.lit 5 10)%num.

(** [data?.existingIds?.[randomInt(0, (data?.existingIds?.length || 1) - 1)]
     || 1]: the index is computed only when there is a list to index. *)
Definition existing_id (data : Value) : M Value :=
  let existingIds := get_opt data "existingIds" in
  found <- (if nullish existingIds then ret VUndefined
            else
              let length := js_or (get_opt existingIds "length") (VInt 1) in
              i <- Common.randomInt (Fin 0) (to_number length - Fin 1)%num ;;
              ret (prop existingIds (to_string (VNum i)))) ;;
  ret (js_or found (VInt 1)).

Definition createOnly : M unit :=
  createResource ;;
  t <- Common.thinkTime ;;
  sleep t.

Definition readOnly (data : Value) : M unit :=
  id <- existing_id data ;;
  readResource id ;;
  t <- Common.thinkTime ;;
  sleep t.

Definition updateOnly (data : Value) : M unit :=
  id <- existing_id data ;;
  readResult <- readResource id ;;
  (if success readResult
   then updateResource id (Crud.data readResult) ;; ret tt
   else ret tt) ;;
  t <- Common.thinkTime ;;
  sleep t.

End Crud.
End Crud.

(* ------------------------------------------------------------------ *)
(** ** tests/example/post-endpoint.js                                  *)
(* ------------------------------------------------------------------ *)

Module PostEndpoint.
Section PostEndpoint.
Context {RT : Runtime}.

(** The metrics of the test, by the names they are registered under. *)
Definition createRequests : string := "post_create_requests".
Definition createErrors : string := "post_create_errors".
Definition createDuration : string := "post_create_duration".
Definition createdItems : string := "post_created_items".

Definition slo : Slo.EndpointSLO := Slo.ENDPOINT_SLO_users_create.

(** [options.vus]: [Math.ceil(profile.vus * 0.3)] *)
Definition options_vus : Number :=
  B64.ceil (to_number (prop Env.getProfile "vus") * B64.lit 3 10)%num.

(** [options.thresholds]: the generated object spread, then three keys. *)
Definition options_thresholds : Slo.Thresholds :=
  set_prop "checks" [ "rate>0.90" ]
    (set_prop "post_create_errors" [ "count<20" ]
       (set_prop "post_create_duration"
          [ "p(95)<" ++ number_to_string (Slo.p95 slo);
            "p(99)<" ++ number_to_string (Slo.p99 slo) ]
          (Slo.generateThresholds slo))).

Record PayloadType : Type := {
  type : string;
  generator : M Value
}.

Definition minimal : M Value :=
  s <- Common.randomString 5 ;;
  ret (VObj [ ("name", VStr ("Product " ++ s)) ]).

Definition complex : M Value :=
  base <- Common.createProductPayload ;;
  description <- Common.randomString 200 ;;
  weight <- Common.randomInt (B64.of_Z 1) (B64.of_Z 100) ;;
  ret (VObj (set_prop "attributes"
               (VObj [ ("color", VStr "red"); ("size", VStr "large");
                       ("weight", VNum weight) ])
               (set_prop "tags" (VArr [ VStr "tag1"; VStr "tag2"; VStr "tag3" ])
                  (set_prop "description" (VStr description)
                     (own_entries base))))).

Definition payloadTypes : list PayloadType :=
  [ {| type := "minimal"; generator := minimal |};
    {| type := "standard"; generator := Common.createProductPayload |};
    {| type := "complex"; generator := complex |} ].

Definition is_success (res : Response) : bool :=
  (status res >=? 200) && (status res <? 300).

(** [array.length - 1], the last index of an array literal *)
Definition last_index {A : Type} (l : list A) : Number :=
  (Fin (inject_Z (Z.of_nat (List.length l))) - Fin 1)%num.

Definition testCreateEndpoint : M Value :=
  emit (ECall "testCreateEndpoint") ;;
  i <- Common.randomInt (Fin 0) (last_index payloadTypes) ;;
  match item_at payloadTypes i with
  | None => throw "TypeError: Cannot read property 'generator' of undefined"
  | Some payloadType =>
      payload <- generator payloadType ;;
      startTime <- Date_now ;;
      res <- HttpUtils.post "/products" payload "ADMIN" "post-create" ;;
      now <- Date_now ;;
      let duration := (now - startTime)%num in
      metric_add createRequests (VInt 1) ;;
      metric_add createDuration (VNum duration) ;;
      let isSuccess := is_success res in
      (if negb isSuccess
       then
         metric_add createErrors (VInt 1) ;;
         Common.logError "post-create"
           ("Failed with status " ++ to_string (VInt (status res))
            ++ " for " ++ type payloadType ++ " payload")
       else metric_add createdItems (VInt 1)) ;;
      check res
        [ ("status is 2xx", Checks.status_2xx);
          (type payloadType ++ " payload accepted", Checks.status_2xx);
          ("response time acceptable",
           fun _ => ret (VBool (duration <? Slo.p95 slo)%num)) ] ;;
      (if isSuccess
       then
         Checks.checkPostEndpoint res [ VStr "id" ] "product-create" ;;
         createdId <- HttpUtils.extractId res "id" ;;
         if truthy createdId
         then
           check res
             [ ("created resource has valid id",
                fun _ => ret (VBool (negb (strict_eq createdId VNull)
                                     && negb (strict_eq createdId VUndefined)))) ] ;;
           ret tt
         else ret tt
       else ret tt) ;;
      HttpUtils.extractId res "id"
  end.

Record InvalidCase : Type := {
  payload : Value;
  description : string
}.

(** ['a'.repeat(n)] *)
Fixpoint repeat_a (n : nat) : string :=
  match n with
  | O => ""
  | S n' => String "a" (repeat_a n')
  end.

Definition invalidPayloads : list InvalidCase :=
  [ {| payload := VObj []; description := "empty payload" |};
    {| payload := VObj [ ("name", VStr "") ]; description := "empty name" |};
    {| payload := VObj [ ("name", VStr (repeat_a 1000)) ];
       description := "too long name" |} ].

(** The second predicate of [testInvalidPayload], with its own [try]. *)
Definition reports_error (r : Response) : M Value :=
  try_catch
    (data <- res_json r ;;
     message <- lift (get_prop data "message") ;;
     if negb (strict_eq message VUndefined) then ret (VBool true)
     else
       error <- lift (get_prop data "error") ;;
       if negb (strict_eq error VUndefined) then ret (VBool true)
       else
         errors <- lift (get_prop data "errors") ;;
         ret (VBool (negb (strict_eq errors VUndefined))))
    (fun _ => ret (VBool false)).

Definition testInvalidPayload : M unit :=
  emit (ECall "testInvalidPayload") ;;
  i <- Common.randomInt (Fin 0) (last_index invalidPayloads) ;;
  match item_at invalidPayloads i with
  | None => throw "TypeError: Cannot read property 'payload' of undefined"
  | Some testCase =>
      res <- HttpUtils.post "/products" (payload testCase) "ADMIN" "post-invalid" ;;
      check res
        [ (description testCase ++ ": returns 4xx",
           fun r => ret (VBool ((status r >=? 400) && (status r <? 500))));
          (description testCase ++ ": has error message", reports_error) ] ;;
      ret tt
  end.

Definition batchSizes : list Value := [ VInt 5; VInt 10; VInt 25 ].

(** The loop [for (let i = 0; i < batchSize; i++) items.push(...)], from
    the counter [i] on; [fuel] bounds the rounds left. *)
Fixpoint fill (fuel : nat) (i : Number) (batchSize : Value) (items : list Value)
  : M (list Value) :=
  match fuel with
  | O => ret items
  | S fuel' =>
      if (i <? to_number batchSize)%num
      then
        p <- Common.createProductPayload ;;
        fill fuel' (i + Fin 1)%num batchSize (items ++ [ p ])%list
      else ret items
  end.

Definition testBulkCreate : M unit :=
  emit (ECall "testBulkCreate") ;;
  i <- Common.randomInt (Fin 0) (last_index batchSizes) ;;
  let batchSize :=
    match item_at batchSizes i with
    | Some size => size
    | None => VUndefined
    end in
  items <- fill 25 (Fin 0) batchSize [] ;;
  startTime <- Date_now ;;
  res <- HttpUtils.post "/products/bulk" (VObj [ ("items", VArr items) ])
                        "ADMIN" "post-bulk" ;;
  now <- Date_now ;;
  let duration := (now - startTime)%num in
  check res
    [ ("bulk create status is 2xx", Checks.status_2xx);
      ("batch of " ++ to_string batchSize ++ " items processed", Checks.status_2xx);
      ("bulk response time acceptable",
       fun _ => ret (VBool (duration <? Slo.p99 slo * Fin 2)%num)) ] ;;
  ret tt.

(** The default function of the script: 80% creations, 15% invalid
    payloads, 5% bulk creations. *)
Definition default (data : Value) : M unit :=
  rand <- Math_random ;;
  (if (rand <? B64.lit 80 100)%num then testCreateEndpoint ;; ret tt
   else if (rand <? B64.lit 95 100)%num then testInvalidPayload
   else testBulkCreate) ;;
  t <- Common.thinkTime ;;
  sleep (t * Fin 2)%num.

Definition createTest : M unit :=
  testCreateEndpoint ;;
  t <- Common.thinkTime ;;
  sleep (t * Fin 2)%num.

Definition validationTest : M unit :=
  testInvalidPayload ;;
  sleep (B64.of_Z 1).

Definition bulkTest : M unit :=
  testBulkCreate ;;
  t <- Common.thinkTime ;;
  sleep (t * Fin 3)%num.

End PostEndpoint.
End PostEndpoint.

(* ------------------------------------------------------------------ *)
(** ** A sample runtime                                                *)
(* ------------------------------------------------------------------ *)

(** One concrete runtime, to run the model on examples: an engine on
    8-bit strings with the properties of [Object.prototype], and a server
    that answers the requests of an iteration from a fixed list. *)
Module Sample.

Definition digit (z : Z) : string :=
  String (ascii_of_nat (48 + Z.to_nat z)) "".

(** The decimal digits of a natural number. *)
Fixpoint digits (fuel : nat) (z : Z) : string :=
  match fuel with
  | O => ""
  | S fuel' =>
      if z <? 10 then digit z
      else digits fuel' (z / 10) ++ digit (z mod 10)
  end.

Definition nat_string (z : Z) : string := digits (S (Z.to_nat (Z.log2 z))) z.

(** [k] fractional digits of [q], [0 <= q < 1]. *)
Fixpoint fraction (k : nat) (q : Q) : string :=
  match k with
  | O => ""
  | S k' =>
      let d := Qfloor (q * 10) in
      digit d ++ fraction k' (q * 10 - inject_Z d)
  end.

(** The decimal with [k] fractional digits nearest to [q >= 0]. *)
Definition to_fixed (k : nat) (q : Q) : Q :=
  let scale := inject_Z (10 ^ Z.of_nat k) in
  Qred (inject_Z (B64.round_half_even (q * scale)) / scale).

(** The least number of fractional digits, up to [fuel] more than [k],
    whose decimal reads back as the binary64 [q]. *)
Fixpoint shortest (fuel k : nat) (q : Q) : nat :=
  match fuel with
  | O => k
  | S fuel' =>
      if Qeq_bool (B64.round (to_fixed k q)) q then k
      else shortest fuel' (S k) q
  end.

Definition positive_to_string (q : Q) : string :=
  let k := shortest 30 0 q in
  let r := to_fixed k q in
  let i := Qfloor r in
  match k with
  | O => nat_string i
  | _ => nat_string i ++ "." ++ fraction k (r - inject_Z i)
  end.

(** [Number::toString] in positional notation (magnitudes a script of
    this repository prints: at least [1e-6], below [1e21]). *)
Definition show_number (n : Number) : string :=
  match n with
  | Fin q =>
      if Qeq_bool q 0 then "0"
      else if Qle_bool 0 q then positive_to_string q
      else "-" ++ positive_to_string (- q)
  | PInf => "Infinity"
  | NInf => "-Infinity"
  | NaN => "NaN"
  end.

Definition is_digit (c : ascii) : bool :=
  let n := nat_of_ascii c in (48 <=? n)%nat && (n <=? 57)%nat.

Fixpoint parse_digits (s : string) (acc : Z) : option Z :=
  match s with
  | EmptyString => Some acc
  | String c tl =>
      if is_digit c
      then parse_digits tl (10 * acc + Z.of_nat (nat_of_ascii c - 48))
      else None
  end.

(** [StringToNumber] on unsigned decimal integers; the empty string is
    [0] and any other text is [NaN]. *)
Definition parse_number (s : string) : Number :=
  match parse_digits s 0 with
  | Some z => B64.of_Z z
  | None => NaN
  end.

(** The properties of [Object.prototype], which end the prototype chain
    of every value. *)
Definition Object_prototype : list (string * Value) :=
  [ ("constructor", VNative "Object");
    ("toString", VNative "toString");
    ("toLocaleString", VNative "toLocaleString");
    ("valueOf", VNative "valueOf");
    ("hasOwnProperty", VNative "hasOwnProperty");
    ("isPrototypeOf", VNative "isPrototypeOf");
    ("propertyIsEnumerable", VNative "propertyIsEnumerable") ].

Definition proto_member (v : Value) (k : string) : Value :=
  match assoc k Object_prototype with
  | Some x => x
  | None => VUndefined
  end.

Definition hex_digit (n : nat) : ascii :=
  if (n <? 10)%nat then ascii_of_nat (48 + n) else ascii_of_nat (55 + n).

Definition percent (n : nat) : string :=
  String "%" (String (hex_digit (n / 16)) (String (hex_digit (n mod 16)) "")).

(** The characters [encodeURIComponent] leaves as they are: letters,
    digits and [- _ . ! ~ * ' ( )]. *)
Definition unreserved (c : ascii) : bool :=
  let n := nat_of_ascii c in
  ((65 <=? n) && (n <=? 90) || (97 <=? n) && (n <=? 122)
   || (48 <=? n) && (n <=? 57)
   || existsb (Nat.eqb n) [45; 95; 46; 33; 126; 42; 39; 40; 41])%nat.

(** [encodeURIComponent]: the UTF-8 bytes of every other code unit,
    percent-escaped. *)
Fixpoint encode_component (s : string) : string :=
  match s with
  | EmptyString => ""
  | String c tl =>
      let n := nat_of_ascii c in
      (if unreserved c then String c ""
       else if (n <? 128)%nat then percent n
       else percent (192 + n / 64) ++ percent (128 + n mod 64))
      ++ encode_component tl
  end.

Definition quote : string := String (ascii_of_nat 34) "".

(** [JSON.stringify] on values without functions; strings are written
    between quotes as they are. *)
Fixpoint stringify (number : Number -> string) (v : Value) : string :=
  match v with
  | VUndefined | VNative _ => "null"
  | VNull => "null"
  | VBool true => "true"
  | VBool false => "false"
  | VNum n => match n with Fin _ => number n | _ => "null" end
  | VStr s => quote ++ s ++ quote
  | VArr l => "[" ++ join "," (map (stringify number) l) ++ "]"
  | VObj props =>
      "{" ++ join "," (map (fun kv => quote ++ fst kv ++ quote ++ ":"
                                      ++ stringify number (snd kv)) props)
          ++ "}"
  end.

Definition no_response : Response :=
  {| status := 0; body := None; json := Throw "GoError: the body is null" |}.

Definition response (code : Z) (raw : string) (parsed : Result Value) : Response :=
  {| status := code; body := Some raw; json := parsed |}.

Definition product : Value :=
  VObj [ ("id", VInt 7); ("name", VStr "Widget"); ("price", VInt 5) ].

(** A response whose body is the JSON text of a value. *)
Definition json_response (code : Z) (v : Value) : Response :=
  response code (stringify show_number v) (Ok v).

(** A server on which the whole flow succeeds. *)
Definition happy_path : list Response :=
  [ json_response 201 product;
    json_response 200 product;
    json_response 200 product;
    json_response 200 product;
    response 204 "" (Throw "SyntaxError: unexpected end of JSON input");
    response 404 "Not Found" (Throw "SyntaxError: invalid character 'N'") ].

(** A server that accepts the creation but returns no id, and still
    serves the resource after the delete. *)
Definition create_without_id : list Response :=
  [ json_response 201 (VObj []); json_response 200 product ].

(** A server that creates the resource and fails the first READ. *)
Definition read_failure : list Response :=
  [ json_response 201 product;
    response 500 "Internal Server Error" (Throw "SyntaxError: invalid character 'I'");
    json_response 200 product;
    json_response 200 product;
    response 204 "" (Throw "SyntaxError: unexpected end of JSON input");
    response 404 "Not Found" (Throw "SyntaxError: invalid character 'N'") ].

(** A server that rejects the creation. *)
Definition create_rejected : list Response :=
  [ response 500 "Internal Server Error"
             (Throw "SyntaxError: invalid character 'I'") ].

(** The runtime with variables [env], whose server answers the [n]-th
    request with the [n]-th element of [responses], whose clock advances
    by 10 ms at each reading and whose random generator yields 0.5. *)
Definition runtime (env : list (string * string)) (responses : list Response)
  : Runtime :=
  {| number_to_string := show_number;
     string_to_number := parse_number;
     inherited := proto_member;
     encodeURIComponent := encode_component;
     JSON_stringify := stringify show_number;
     ENV := fun name => assoc name env;
     http_send := fun n _ => nth n responses no_response;
     date_now := fun n => B64.of_Z (1700000000000 + 10 * Z.of_nat n);
     date_iso := fun _ => "2024-01-01T00:00:00.000Z";
     math_random := fun _ => B64.lit 5 10 |}.

(** The runtimes of the examples. *)
Definition plain : Runtime := runtime [] [].
Definition smoke : Runtime := runtime [ ("PROFILE", "SMOKE") ] [].
Definition heavy : Runtime := runtime [ ("PROFILE", "HEAVY") ] [].
Definition happy : Runtime := runtime [] happy_path.
Definition forgetful : Runtime := runtime [] create_without_id.
Definition rejecting : Runtime := runtime [] create_rejected.
Definition read_failing : Runtime := runtime [] read_failure.
Definition profile_toString : Runtime := runtime [ ("PROFILE", "toString") ] [].

(** What [createResource] returns on the servers that accept the creation. *)
Definition created : Crud.StepResult :=
  {| Crud.success := true; Crud.id := VInt 7; Crud.data := product |}.

Definition created_without_id : Crud.StepResult :=
  {| Crud.success := true; Crud.id := VUndefined; Crud.data := VObj [] |}.

End Sample.

(* ------------------------------------------------------------------ *)
(** ** Vocabulary of the specification                                 *)
(* ------------------------------------------------------------------ *)

(** The functions an event list went through, in order. *)
Definition calls (evs : list Event) : list string :=
  flat_map (fun e => match e with ECall f => [f] | _ => [] end) evs.

(** The sample an event adds to a metric, if any. *)
Definition sample_of (metric : string) (e : Event) : list Value :=
  match e with
  | EMetric m v => if String.eqb m metric then [v] else []
  | _ => []
  end.

(** The samples an event list added to a metric, in order. *)
Definition samples (metric : string) (evs : list Event) : list Value :=
  flat_map (sample_of metric) evs.

(** The requests an event list sent, in order. *)
Definition requests (evs : list Event) : list Request :=
  flat_map (fun e => match e with EHttp req _ => [req] | _ => [] end) evs.

(** The outcomes recorded for the check of a name, in order. *)
Definition check_results (name : string) (evs : list Event) : list bool :=
  flat_map (fun e => match e with
                     | ECheck n b => if String.eqb n name then [b] else []
                     | _ => []
                     end) evs.

(** An event that is no entry of a function and touches neither of the two
    flow counters nor the flow check. *)
Definition step_event (e : Event) : bool :=
  match e with
  | ECall _ => false
  | EMetric m _ =>
      negb (String.eqb m Crud.fullFlowSuccess) && negb (String.eqb m Crud.fullFlowFailed)
  | ECheck n _ => negb (String.eqb n "CRUD flow completed successfully")
  | _ => true
  end.

(** A computation that completes normally from every state. *)
Definition terminates {A : Type} (m : M A) : Prop :=
  forall t, exists a, result_of (m t) = Ok a.

(** A computation that completes normally from every state and emits
    only events that satisfy [P]. *)
Definition quiet (P : Event -> bool) {A : Type} (m : M A) : Prop :=
  forall t, exists a t' e, m t = (Ok a, t', e) /\ forallb P e = true.

(** A step: it completes normally, and its events are the entry of the
    function followed by step events. *)
Definition step {A : Type} (name : string) (m : M A) : Prop :=
  forall t, exists a t' e,
    m t = (Ok a, t', ECall name :: e) /\ forallb step_event e = true.

(** A computation that completes normally from every state and whose
    events, seen through [g], are [l], whatever the state. *)
Definition yields {B : Type} (g : Event -> list B) {A : Type} (m : M A)
           (l : list B) : Prop :=
  forall t, exists a t' e, m t = (Ok a, t', e) /\ flat_map g e = l.

(** The duration trends and the operation counters of the four operations. *)
Definition duration_metrics : list string :=
  [ Crud.createDuration; Crud.readDuration; Crud.updateDuration;
    Crud.deleteDuration ].

Definition count_metrics : list string :=
  [ Crud.operationCounts_create; Crud.operationCounts_read;
    Crud.operationCounts_update; Crud.operationCounts_delete ].

(** What an event adds to those metrics: a duration sample, whatever its
    value, or an increment of a counter. *)
Inductive Entry : Type :=
| Duration (metric : string)
| Increment (metric : string) (by_value : Value).

Definition metric_entry (e : Event) : list Entry :=
  match e with
  | EMetric m v =>
      if existsb (String.eqb m) duration_metrics then [ Duration m ]
      else if existsb (String.eqb m) count_metrics then [ Increment m v ]
      else []
  | _ => []
  end.

(** The duration samples and counter increments of an event list, in order. *)
Definition metric_log (evs : list Event) : list Entry := flat_map metric_entry evs.

(** What a step that sends its request adds to its metrics. *)
Definition step_entries (duration count : string) : list Entry :=
  [ Duration duration; Increment count (VInt 1) ].

(** Whether the flow is counted a success: every step after CREATE
    succeeded and the resource was found deleted. *)
Definition flow_outcome (r2 r3 r4 r5 : Crud.StepResult) (isDeleted : bool) : bool :=
  Crud.success r2 && Crud.success r3 && Crud.success r4 && Crud.success r5
  && isDeleted.

(** The names of the six steps of the flow, in the order of the script. *)
Definition six_steps : list string :=
  [ "createResource"; "readResource"; "updateResource"; "readResource";
    "deleteResource"; "verifyDeleted" ].

(** The profile names the runner accepts. *)
Definition valid_profiles : list string := [ "SMOKE"; "LIGHT"; "MEDIUM"; "HEAVY" ].

(** The role names [TOKENS] is defined for. *)
Definition known_roles : list string := [ "USER"; "ADMIN"; "SUPER_USER" ].

Section Vocabulary.
Context {RT : Runtime}.

(** The number of virtual users a scenario declares. *)
Definition vu_count (s : RunAll.Scenario) : Number := to_number (RunAll.vus s).

(** The virtual users the three weighted scenarios declare together, and
    the virtual users of the profile. *)
Definition allocated : Number :=
  (vu_count RunAll.get_list + vu_count RunAll.get_details
   + vu_count RunAll.create)%num.

Definition base_vus : Number := to_number RunAll.profile_vus.

(** [TOKENS[role]] *)
Definition token (role : string) : Value := prop Env.TOKENS role.

(** The set of three bounds the specification calls a ThresholdSet: the
    p95 and p99 bounds under one selector, the error-rate bound under
    another. *)
Definition ThresholdSet (duration_key failed_key : string) (slo : Slo.EndpointSLO)
  : Slo.Thresholds :=
  [ (duration_key, [ "p(95)<" ++ number_to_string (Slo.p95 slo);
                     "p(99)<" ++ number_to_string (Slo.p99 slo) ]);
    (failed_key, [ "rate<" ++ number_to_string (Slo.errorRate slo) ]) ].

(** A metric selector restricted to the requests tagged with a test type. *)
Definition tagged (metric testType : string) : string :=
  metric ++ "{test_type:" ++ testType ++ "}".

(** The pairs of a query string as the specification words them: a
    parameter that is [null] or [undefined] is left out, every other one
    gives [key=value] with both sides URI-encoded. *)
Fixpoint spec_pairs (entries : list (string * Value)) : list string :=
  match entries with
  | [] => []
  | (k, VNull) :: tl | (k, VUndefined) :: tl => spec_pairs tl
  | (k, v) :: tl =>
      (encodeURIComponent k ++ "=" ++ encodeURIComponent (to_string v))
      :: spec_pairs tl
  end.

(** The path of the request: the bare path when no pair is left, else the
    path, a question mark and the pairs joined with ampersands. *)
Definition spec_path (path : string) (params : Value) : string :=
  match spec_pairs (own_entries params) with
  | [] => path
  | pairs => path ++ "?" ++ join "&" pairs
  end.

(** The request [verifyDeleted] sends for a resource. *)
Definition verify_request (createdId : Value) : Request :=
  {| method := "GET";
     url := Common.getUrl ("/products/" ++ to_string createdId);
     headers := Common.getHeaders "USER";
     req_body := None |}.

(** The events of an iteration after a successful CREATE, given the
    events [e2] to [e6] of the five later steps, the events [e7] and the
    value [n] of the think time, and the outcome of the flow. *)
Definition flow_events (createdId : Value) (flow isDeleted : bool)
           (e2 e3 e4 e5 e6 e7 : list Event) (n : Number) : list Event :=
  (ESleep (B64.lit 5 10) :: EConsole "log" [ "Step 2: READ" ] :: e2
   ++ ESleep (B64.lit 5 10) :: EConsole "log" [ "Step 3: UPDATE" ] :: e3
   ++ ESleep (B64.lit 5 10) :: EConsole "log" [ "Step 4: READ (verify update)" ] :: e4
   ++ ESleep (B64.lit 5 10) :: EConsole "log" [ "Step 5: DELETE" ] :: e5
   ++ ESleep (B64.lit 5 10) :: EConsole "log" [ "Step 6: VERIFY DELETED" ] :: e6
   ++ (if isDeleted then []
       else [ EConsole "error"
                [ ("ERROR [crud-flow]: Resource " ++ to_string createdId
                   ++ " still exists after delete")%string ] ])
   ++ EMetric (if flow then Crud.fullFlowSuccess else Crud.fullFlowFailed) (VInt 1)
   :: ECheck "CRUD flow completed successfully" flow
   :: e7 ++ [ ESleep n ])%list.

End Vocabulary.

(** A draw of [Math.random()] as the language defines it: a binary64
    value, at least 0 and below 1. *)
Definition unit_draw (n : Number) : bool :=
  match n with
  | Fin r => Qeq_bool (B64.round r) r && Qle_bool 0 r && negb (Qle_bool 1 r)
  | _ => false
  end.

(** The state after [n] more draws of the random generator. *)
Definition advance (n : nat) (t : Ticks) : Ticks :=
  {| n_http := n_http t; n_date := n_date t; n_rand := n + n_rand t |}.


(** The lines written to the console at a level, in order. *)
Definition console_lines (level : string) (evs : list Event) : list (list string) :=
  flat_map (fun e => match e with
                     | EConsole l args => if String.eqb l level then [ args ] else []
                     | _ => []
                     end) evs.

(** The checks an event list recorded, with their outcomes, in order. *)
Definition recorded_checks (evs : list Event) : list (string * bool) :=
  flat_map (fun e => match e with ECheck n b => [ (n, b) ] | _ => [] end) evs.

(** The requests an event list sent with the responses they received. *)
Definition exchanges (evs : list Event) : list (Request * Response) :=
  flat_map (fun e => match e with EHttp req res => [ (req, res) ] | _ => [] end) evs.

(** The method and the URL of each request an event list sent, in order. *)
Definition routes (evs : list Event) : list (string * string) :=
  flat_map (fun e => match e with
                     | EHttp req _ => [ (method req, url req) ]
                     | _ => []
                     end) evs.

(** The last character of a string. *)
Fixpoint last_char (s : string) : option ascii :=
  match s with
  | EmptyString => None
  | String c EmptyString => Some c
  | String _ tl => last_char tl
  end.

(** The verdict of a predicate of [check] on a value: whether it returns
    a truthy value. *)
Definition verdict {T : Type} (val : T) (t : Ticks) (np : string * (T -> M Value))
  : bool :=
  match snd np val t with
  | (Ok v, _, _) => truthy v
  | _ => false
  end.

(** A predicate that reads its value and nothing else. *)
Definition pure_at {T : Type} (val : T) (p : T -> M Value) : Prop :=
  exists v, forall t, p val t = (Ok v, t, []).

(** A computation that emits only events that satisfy [P], whether it
    completes normally or throws. *)
Definition calm (P : Event -> bool) {A : Type} (m : M A) : Prop :=
  forall t, exists r t' e, m t = (r, t', e) /\ forallb P e = true.

(** An event that is no entry of a function. *)
Definition no_entry (e : Event) : bool :=
  match e with ECall _ => false | _ => true end.

Section MoreVocabulary.
Context {RT : Runtime}.

(** The property key of the index [i] of an array. *)
Definition index_key (i : nat) : string := to_string (VInt (Z.of_nat i)).

(** The first [n] indices have keys of their own, none of them the key
    ["length"], as the decimal numerals the engine writes are. *)
Definition sound_indices (n : nat) : bool :=
  forallb (fun i =>
             negb (String.eqb (index_key i) "length")
             && forallb (fun j => negb (String.eqb (index_key i) (index_key j))
                                  || Nat.eqb i j) (seq 0 n))
          (seq 0 n).

(** A plain object inherits none of the names. *)
Definition inherits_none (names : list string) : bool :=
  forallb (fun k => negb (truthy (inherited (VObj []) k))) names.

End MoreVocabulary.

(* ------------------------------------------------------------------ *)
(** ** Scenario weighting (run-all.js)                                 *)
(* ------------------------------------------------------------------ *)

Section Weighting.
Context {RT : Runtime}.

Lemma getProfile_valid (name : string) :
  In name valid_profiles -> ENV "PROFILE" = Some name ->
  Env.getProfile = prop Env.LOAD_PROFILES name.
Proof.
  intros Hin Henv. unfold Env.getProfile, Env.env. rewrite Henv.
  simpl in Hin.
  destruct Hin as [<- | [<- | [<- | [<- | []]]]]; reflexivity.
Qed.

(** C2, as amended.  For each valid profile name the create scenario
    declares at least one virtual user; for LIGHT, MEDIUM and HEAVY the
    three scenarios declare together exactly the virtual users of the
    profile (7+2+1, 21+6+3, 70+20+10); for SMOKE, whose profile has one
    virtual user, each scenario declares one, three in all. *)
Theorem vu_allocation (name : string) :
  In name valid_profiles -> ENV "PROFILE" = Some name ->
  (Fin 1 <=? vu_count RunAll.create)%num = true
  /\ (name <> "SMOKE" ->
      B64.eqb allocated base_vus = true /\ (allocated <=? base_vus)%num = true)
  /\ (name = "SMOKE" ->
      map (fun s => RunAll.vus (snd s)) RunAll.scenarios = [ VInt 1; VInt 1; VInt 1 ]
      /\ B64.eqb allocated (Fin 3) = true /\ B64.eqb base_vus (Fin 1) = true).
Proof.
  intros Hin Henv.
  pose proof (getProfile_valid name Hin Henv) as Hp.
  unfold allocated, base_vus, vu_count, RunAll.scenarios, RunAll.create,
    RunAll.get_list, RunAll.get_details, RunAll.profile_vus,
    RunAll.profile; simpl RunAll.vus; rewrite Hp.
  simpl in Hin.
  destruct Hin as [<- | [<- | [<- | [<- | []]]]];
    (split; [ vm_compute; reflexivity | split; intros Hn ]);
    try discriminate; try (exfalso; apply Hn; reflexivity);
    repeat split; vm_compute; reflexivity.
Qed.

End Weighting.

(** C2, as stated, fails: with the SMOKE profile (one virtual user) the
    three scenarios declare three virtual users, more than the profile has. *)
Lemma vu_allocation_exceeds_smoke :
  ~ (forall (RT : Runtime) (name : string),
        In name valid_profiles -> ENV "PROFILE" = Some name ->
        (allocated <=? base_vus)%num = true
        /\ (Fin 1 <=? vu_count RunAll.create)%num = true).
Proof.
  intros H.
  destruct (H Sample.smoke "SMOKE") as [Hsum _].
  - simpl. tauto.
  - reflexivity.
  - vm_compute in Hsum. discriminate.
Qed.

(* ------------------------------------------------------------------ *)
(** ** Threshold generators (config/slo.js)                            *)
(* ------------------------------------------------------------------ *)

Section ThresholdGenerators.
Context {RT : Runtime}.

(** Reading a generated object at its keys. *)
Lemma generateThresholds_keys (slo : Slo.EndpointSLO) :
  map fst (Slo.generateThresholds slo)
  = [ "http_req_duration"; "http_req_failed"; "checks" ].
Proof. reflexivity. Qed.

Lemma tagged_keys_differ (testType : string) :
  String.eqb (tagged "http_req_failed" testType)
             (tagged "http_req_duration" testType) = false.
Proof. reflexivity. Qed.

(** What the two generators return.  For every SLO record,
    [generateThresholds] returns the three bounds of the ThresholdSet
    (the p95 and p99 bounds on http_req_duration, the error-rate bound on
    http_req_failed) followed by a fourth, fixed bound ['rate>0.95'] on
    checks that no field of the record enters;
    [generateScenarioThresholds] returns exactly the three bounds, under
    the selectors tagged with [{test_type:<testType>}]. *)
Theorem thresholds_of_slo (slo : Slo.EndpointSLO) (testType : string) :
  Slo.generateThresholds slo
  = (ThresholdSet "http_req_duration" "http_req_failed" slo
     ++ [ ("checks", [ "rate>0.95" ]) ])%list
  /\ assoc "checks" (Slo.generateThresholds slo) = Some [ "rate>0.95" ]
  /\ Slo.generateScenarioThresholds slo testType
     = ThresholdSet (tagged "http_req_duration" testType)
                    (tagged "http_req_failed" testType) slo
  /\ assoc "checks" (Slo.generateScenarioThresholds slo testType) = None.
Proof.
  repeat split.
Qed.

End ThresholdGenerators.

(** The object [generateThresholds] returns is not the ThresholdSet
    alone: it has a bound on checks besides the three bounds. *)
Lemma generateThresholds_has_fourth_bound :
  ~ (forall (RT : Runtime) (slo : Slo.EndpointSLO),
        Slo.generateThresholds slo
        = ThresholdSet "http_req_duration" "http_req_failed" slo).
Proof.
  intros H.
  specialize (H Sample.plain Slo.ENDPOINT_SLO_products_list).
  assert (Hlen : (3 = 2)%nat) by exact (f_equal (@List.length _) H).
  discriminate Hlen.
Qed.

(* ------------------------------------------------------------------ *)
(** ** Role tokens and headers (config/env.js, helpers/common.js)      *)
(* ------------------------------------------------------------------ *)

Section Roles.
Context {RT : Runtime}.

Lemma token_not_own (role : string) :
  ~ In role known_roles -> own_property Env.TOKENS role = None.
Proof.
  intros Hn. simpl.
  destruct (String.eqb_spec role "USER") as [-> | _].
  { exfalso. apply Hn. simpl. tauto. }
  destruct (String.eqb_spec role "ADMIN") as [-> | _].
  { exfalso. apply Hn. simpl. tauto. }
  destruct (String.eqb_spec role "SUPER_USER") as [-> | _].
  { exfalso. apply Hn. simpl. tauto. }
  reflexivity.
Qed.

(** What [get] does, for every role: it sends one GET request with the
    headers of the role and returns the response of the server. *)
Lemma get_run (path role context : string) (t : Ticks) :
  let req := {| method := "GET"; url := Common.getUrl path;
                headers := Common.getHeaders role; req_body := None |} in
  result_of (HttpUtils.get path role context t) = Ok (http_send (n_http t) req)
  /\ requests (events_of (HttpUtils.get path role context t)) = [ req ].
Proof.
  unfold HttpUtils.get, HttpUtils.log_if_error, Common.logRequestError,
    Common.logError, console_error, bind, http_request, emit, ret.
  cbv zeta.
  destruct (status (http_send (n_http t) _) >=? 400); split; reflexivity.
Qed.

(** C9, as amended.  For every role name that is neither USER, ADMIN nor
    SUPER_USER and that names no property the object [TOKENS] inherits
    from its prototype, the token lookup yields [undefined], the
    Authorization header reads ["Bearer undefined"], and [get] sends the
    request with that header and returns the response.  Role names are
    not validated: [get] completes without an exception for every role. *)
Theorem unknown_role_unauthenticated (role path context : string) (t : Ticks) :
  ~ In role known_roles ->
  inherited Env.TOKENS role = VUndefined ->
  token role = VUndefined
  /\ assoc "Authorization" (Common.getHeaders role) = Some "Bearer undefined"
  /\ (exists req,
         requests (events_of (HttpUtils.get path role context t)) = [ req ]
         /\ assoc "Authorization" (headers req) = Some "Bearer undefined"
         /\ result_of (HttpUtils.get path role context t)
            = Ok (http_send (n_http t) req))
  /\ (forall anyRole, terminates (HttpUtils.get path anyRole context)).
Proof.
  intros Hn Hproto.
  assert (Htok : token role = VUndefined).
  { unfold token, prop. rewrite (token_not_own role Hn). exact Hproto. }
  assert (Hhdr : assoc "Authorization" (Common.getHeaders role)
                 = Some "Bearer undefined").
  { unfold Common.getHeaders. fold (token role). rewrite Htok. reflexivity. }
  split; [ exact Htok | split; [ exact Hhdr | split ] ].
  - destruct (get_run path role context t) as [Hres Hreq].
    eexists. split; [ exact Hreq | split; [ exact Hhdr | exact Hres ] ].
  - intros anyRole t'. eexists. apply (get_run path anyRole context t').
Qed.

End Roles.

(** C9, as stated, fails: the role name ["constructor"] is none of USER,
    ADMIN and SUPER_USER, and the lookup [TOKENS["constructor"]] yields the
    function every object inherits from [Object.prototype], not
    [undefined]. *)
Lemma inherited_role_is_no_undefined :
  ~ (forall (RT : Runtime) (role : string),
        ~ In role known_roles -> token role = VUndefined).
Proof.
  intros H.
  specialize (H Sample.plain "constructor").
  assert (Hn : ~ In "constructor" known_roles).
  { simpl. intros [E | [E | [E | []]]]; discriminate E. }
  specialize (H Hn). vm_compute in H. discriminate H.
Qed.

(* ------------------------------------------------------------------ *)
(** ** Query strings (utils/http-utils.js, helpers/common.js)          *)
(* ------------------------------------------------------------------ *)

Section QueryStrings.
Context {RT : Runtime}.

(** Filtering then mapping, as the source does, gives the pairs of the
    specification. *)
Lemma pairs_refine (entries : list (string * Value)) :
  map Common.encode_pair (filter Common.has_value entries) = spec_pairs entries.
Proof.
  induction entries as [| [k v] tl IH]; [ reflexivity |].
  destruct v; simpl; try rewrite IH; reflexivity.
Qed.

Lemma append_empty (a b : string) : a ++ b = "" -> a = "".
Proof. destruct a; [ reflexivity | discriminate ]. Qed.

Lemma join_empty (sep p : string) (ps : list string) :
  join sep (p :: ps) = "" -> p = "".
Proof.
  destruct ps as [| q qs]; simpl; [ tauto | apply append_empty ].
Qed.

(** Every pair holds an equals sign, so none is empty. *)
Lemma spec_pairs_nonempty (entries : list (string * Value)) :
  Forall (fun p => p <> "") (spec_pairs entries).
Proof.
  induction entries as [| [k v] tl IH]; [ constructor |].
  destruct v; simpl; try exact IH;
    (constructor;
     [ intros E; destruct (encodeURIComponent k); discriminate E | exact IH ]).
Qed.

(** The query string is empty exactly when no parameter is left. *)
Lemma query_truthy (entries : list (string * Value)) :
  truthy (VStr (join "&" (spec_pairs entries)))
  = match spec_pairs entries with [] => false | _ => true end.
Proof.
  pose proof (spec_pairs_nonempty entries) as Hne.
  destruct (spec_pairs entries) as [| p ps]; [ reflexivity |].
  unfold truthy.
  destruct (String.eqb_spec (join "&" (p :: ps)) "") as [E | _]; [| reflexivity ].
  apply join_empty in E. inversion Hne; subst. contradiction.
Qed.

Lemma entries_of_params (params : Value) :
  params <> VNull ->
  Object_entries (default_param params (VObj [])) = Ok (own_entries params).
Proof.
  intros Hn. destruct params; try reflexivity. contradiction.
Qed.

Lemma queryString_refines (params : Value) :
  params <> VNull ->
  Common.queryString (default_param params (VObj []))
  = Ok (join "&" (spec_pairs (own_entries params))).
Proof.
  intros Hn. unfold Common.queryString.
  rewrite (entries_of_params params Hn), pairs_refine. reflexivity.
Qed.

Lemma bind_lift_ok {A B : Type} (a : A) (f : A -> M B) (t : Ticks) :
  bind (lift (Ok a)) f t = f a t.
Proof.
  unfold bind, lift. destruct (f a t) as [[r t2] e2]. reflexivity.
Qed.

Lemma string_app_assoc (a b c : string) : (a ++ b) ++ c = a ++ (b ++ c).
Proof.
  induction a as [| x a IH]; simpl; [ reflexivity | rewrite IH; reflexivity ].
Qed.

(** C10.  For every path and every parameter object, [getWithParams]
    leaves out the parameters whose value is [null] or [undefined],
    URI-encodes the key and the value of each other one, joins the pairs
    with ['&'] and issues the GET on the path, a ['?'] and that query
    string; when no parameter is left the GET goes to the bare path.
    [getUrlWithParams] builds the same path behind the host. *)
Theorem getWithParams_query (path : string) (params : Value)
        (role context : string) (t : Ticks) :
  params <> VNull ->
  HttpUtils.getWithParams path params role context t
  = HttpUtils.get (spec_path path params) role context t
  /\ Common.getUrlWithParams path params
     = Ok (Common.getUrl (spec_path path params))
  /\ (spec_pairs (own_entries params) = [] -> spec_path path params = path).
Proof.
  intros Hn.
  assert (Hpath :
    (if truthy (VStr (join "&" (spec_pairs (own_entries params))))
     then path ++ "?" ++ join "&" (spec_pairs (own_entries params))
     else path) = spec_path path params).
  { rewrite query_truthy. unfold spec_path.
    destruct (spec_pairs (own_entries params)); reflexivity. }
  split; [| split ].
  - unfold HttpUtils.getWithParams.
    rewrite (queryString_refines params Hn), bind_lift_ok, Hpath. reflexivity.
  - unfold Common.getUrlWithParams.
    rewrite (queryString_refines params Hn), <- Hpath.
    unfold Common.getUrl.
    destruct (truthy _); [ rewrite string_app_assoc |]; reflexivity.
  - intros E. unfold spec_path. rewrite E. reflexivity.
Qed.

End QueryStrings.

(* ------------------------------------------------------------------ *)
(** ** Response validators (utils/checks.js)                           *)
(* ------------------------------------------------------------------ *)

Section Validators.
Context {RT : Runtime}.

(** C6.  For every response whose [json()] throws, each of
    [checkListResponse], [checkItemResponse], [checkFieldTypes] and
    [checkListItemStructure] returns [false] without an exception,
    whatever the context, the required fields, the field types and the
    item validator are; it records no check and logs one line. *)
Theorem validators_reject_invalid_json
        (res : Response) (msg context : string) (requiredFields : list Value)
        (fieldTypes : Value) (itemValidator : Checks.Validator) (t : Ticks) :
  json res = Throw msg ->
  Checks.checkListResponse res context t
  = (Ok false, t,
     [ EConsole "error" [ "Failed to parse " ++ context ++ " response:"; msg ] ])
  /\ Checks.checkItemResponse res requiredFields context t
     = (Ok false, t,
        [ EConsole "error" [ "Failed to parse " ++ context ++ " response:"; msg ] ])
  /\ Checks.checkFieldTypes res fieldTypes context t
     = (Ok false, t,
        [ EConsole "error" [ "Failed to parse " ++ context ++ " response:"; msg ] ])
  /\ Checks.checkListItemStructure res itemValidator context t
     = (Ok false, t,
        [ EConsole "error" [ "Failed to validate " ++ context ++ ":"; msg ] ]).
Proof.
  intros Hjson.
  unfold Checks.checkListResponse, Checks.checkItemResponse,
    Checks.checkFieldTypes, Checks.checkListItemStructure,
    try_catch, bind, res_json, lift.
  rewrite Hjson. repeat split.
Qed.

(** C7.  For a response with status 200 and body [{"items": []}],
    [checkGetListEndpoint] records the status check as passed, the check
    "items not empty" as failed (the two other structure checks pass) and
    returns [false], with or without an item validator. *)
Theorem empty_list_fails_structure_only
        (raw : option string) (itemValidator : option Checks.Validator)
        (context : string) (t : Ticks) :
  let res := {| status := 200; body := raw;
                json := Ok (VObj [ ("items", VArr []) ]) |} in
  Checks.checkGetListEndpoint res itemValidator context t
  = (Ok false, t,
     [ ECheck ("status is " ++ to_string (VInt 200)) true;
       ECheck (context ++ ": has items array") true;
       ECheck (context ++ ": items not empty") false;
       ECheck (context ++ ": valid page size") true ]).
Proof.
  destruct itemValidator; reflexivity.
Qed.

End Validators.

(* ------------------------------------------------------------------ *)
(** ** Reasoning about computations                                    *)
(* ------------------------------------------------------------------ *)

Section Effects.
Context {RT : Runtime}.

Lemma bind_run {A B : Type} (m : M A) (f : A -> M B) (t t1 : Ticks) (a : A)
      (e1 : list Event) :
  m t = (Ok a, t1, e1) ->
  bind m f t
  = (result_of (f a t1), ticks_of (f a t1), (e1 ++ events_of (f a t1))%list).
Proof.
  intros E. unfold bind. rewrite E. destruct (f a t1) as [[r t2] e2]. reflexivity.
Qed.

Lemma bind_emit {B : Type} (e : Event) (f : unit -> M B) (t : Ticks) :
  bind (emit e) f t = (result_of (f tt t), ticks_of (f tt t), e :: events_of (f tt t)).
Proof. unfold bind, emit. destruct (f tt t) as [[r t2] e2]. reflexivity. Qed.

Lemma calls_app (a b : list Event) : calls (a ++ b) = (calls a ++ calls b)%list.
Proof. apply flat_map_app. Qed.

Lemma samples_app (metric : string) (a b : list Event) :
  samples metric (a ++ b) = (samples metric a ++ samples metric b)%list.
Proof. apply flat_map_app. Qed.

Lemma requests_app (a b : list Event) :
  requests (a ++ b) = (requests a ++ requests b)%list.
Proof. apply flat_map_app. Qed.

Lemma check_results_app (name : string) (a b : list Event) :
  check_results name (a ++ b)
  = (check_results name a ++ check_results name b)%list.
Proof. apply flat_map_app. Qed.

(** Events that all map to nothing give nothing. *)
Lemma flat_map_nil {B : Type} (g : Event -> list B) (P : Event -> bool)
      (e : list Event) :
  (forall x, P x = true -> g x = []) ->
  forallb P e = true -> flat_map g e = [].
Proof.
  intros HP. induction e as [| x e IH]; [ reflexivity |].
  simpl. intros H. apply andb_prop in H as [Hx He].
  rewrite (HP x Hx), (IH He). reflexivity.
Qed.

(** Step events enter no function and leave the flow counters and the
    flow check alone. *)
Lemma step_events_calls (e : list Event) :
  forallb step_event e = true -> calls e = [].
Proof.
  apply flat_map_nil. intros [] H; try reflexivity. discriminate H.
Qed.

Lemma step_events_success (e : list Event) :
  forallb step_event e = true -> samples Crud.fullFlowSuccess e = [].
Proof.
  apply flat_map_nil. intros [] H; try reflexivity. simpl in *.
  destruct (String.eqb metric Crud.fullFlowSuccess); [ discriminate H | reflexivity ].
Qed.

Lemma step_events_failed (e : list Event) :
  forallb step_event e = true -> samples Crud.fullFlowFailed e = [].
Proof.
  apply flat_map_nil. intros [] H; try reflexivity. simpl in *.
  destruct (String.eqb metric Crud.fullFlowFailed);
    [ rewrite andb_false_r in H; discriminate H | reflexivity ].
Qed.

Lemma step_events_flow_check (e : list Event) :
  forallb step_event e = true ->
  check_results "CRUD flow completed successfully" e = [].
Proof.
  apply flat_map_nil. intros [] H; try reflexivity. simpl in *.
  destruct (String.eqb name "CRUD flow completed successfully");
    [ discriminate H | reflexivity ].
Qed.

Section Quiet.
Variable P : Event -> bool.

Lemma quiet_ret {A : Type} (a : A) : quiet P (ret a).
Proof. intros t. exists a, t, []. split; reflexivity. Qed.

Lemma quiet_emit (e : Event) : P e = true -> quiet P (emit e).
Proof.
  intros He t. exists tt, t, [ e ]. split; [ reflexivity |].
  simpl. rewrite He. reflexivity.
Qed.

Lemma quiet_bind {A B : Type} (m : M A) (f : A -> M B) :
  quiet P m -> (forall a, quiet P (f a)) -> quiet P (bind m f).
Proof.
  intros Hm Hf t.
  destruct (Hm t) as (a & t1 & e1 & Em & H1).
  destruct (Hf a t1) as (b & t2 & e2 & Ef & H2).
  exists b, t2, (e1 ++ e2)%list. unfold bind. rewrite Em, Ef.
  split; [ reflexivity |]. rewrite forallb_app, H1, H2. reflexivity.
Qed.

Lemma quiet_Date_now : quiet P Date_now.
Proof. intros t. eexists _, _, []. split; reflexivity. Qed.

Lemma quiet_Date_toISOString : quiet P Date_toISOString.
Proof. intros t. eexists _, _, []. split; reflexivity. Qed.

Lemma quiet_Math_random : quiet P Math_random.
Proof. intros t. eexists _, _, []. split; reflexivity. Qed.

Lemma quiet_http_request (req : Request) :
  (forall res, P (EHttp req res) = true) -> quiet P (http_request req).
Proof.
  intros H t. eexists _, _, [ _ ]. split; [ reflexivity |].
  simpl. rewrite H. reflexivity.
Qed.

Lemma quiet_safeJson (res : Response) (defaultValue : Value) :
  quiet P (HttpUtils.safeJson res defaultValue).
Proof.
  intros t. unfold HttpUtils.safeJson, try_catch, res_json, lift, ret.
  destruct (json res); eexists _, _, _; split; reflexivity.
Qed.

Lemma quiet_randomString_loop (length : nat) (result : string) :
  quiet P (Common.randomString_loop length result).
Proof.
  revert result. induction length as [| n IH]; intros result; simpl.
  - apply quiet_ret.
  - apply quiet_bind; [ apply quiet_Math_random | intros r; apply IH ].
Qed.

(** A handler is never entered by a computation that completes normally. *)
Lemma quiet_guarded {A : Type} (m : M A) (h : string -> M A) :
  quiet P m -> quiet P (try_catch m h).
Proof.
  intros Hm t. destruct (Hm t) as (a & t1 & e1 & Em & H1).
  exists a, t1, e1. unfold try_catch. rewrite Em. split; [ reflexivity | exact H1 ].
Qed.

Lemma quiet_check {T : Type} (val : T) (sets : list (string * (T -> M Value))) :
  Forall (fun np => (forall b, P (ECheck (fst np) b) = true)
                    /\ quiet P (snd np val)) sets ->
  quiet P (check val sets).
Proof.
  induction 1 as [| [name p] tl [Hname Hp] _ IH]; simpl.
  - apply quiet_ret.
  - apply quiet_bind; [ apply quiet_guarded; exact Hp | intros v ].
    apply quiet_bind; [ apply quiet_emit; apply Hname | intros _ ].
    apply quiet_bind; [ exact IH | intros rest ].
    apply quiet_ret.
Qed.

End Quiet.

Section Yields.
Context {B : Type}.
Variable g : Event -> list B.

Lemma yields_quiet {A : Type} (m : M A) :
  quiet (fun e => match g e with [] => true | _ => false end) m ->
  yields g m [].
Proof.
  intros H t. destruct (H t) as (a & t' & e & E & He).
  exists a, t', e. split; [ exact E |].
  revert He. apply flat_map_nil. intros x.
  destruct (g x); [ reflexivity | discriminate ].
Qed.

Lemma yields_emit (e : Event) (l : list B) : g e = l -> yields g (emit e) l.
Proof.
  intros <- t. exists tt, t, [ e ]. split; [ reflexivity |].
  simpl. apply app_nil_r.
Qed.

Lemma yields_bind {A C : Type} (m : M A) (f : A -> M C) (l l1 l2 : list B) :
  yields g m l1 -> (forall a, yields g (f a) l2) -> l = (l1 ++ l2)%list ->
  yields g (bind m f) l.
Proof.
  intros Hm Hf -> t.
  destruct (Hm t) as (a & t1 & e1 & Em & H1).
  destruct (Hf a t1) as (b & t2 & e2 & Ef & H2).
  exists b, t2, (e1 ++ e2)%list. unfold bind. rewrite Em, Ef.
  split; [ reflexivity |]. rewrite flat_map_app, H1, H2. reflexivity.
Qed.

Lemma yields_run {A : Type} (m : M A) (l : list B) (t t' : Ticks) (a : A)
      (e : list Event) :
  yields g m l -> m t = (Ok a, t', e) -> flat_map g e = l.
Proof.
  intros H E. destruct (H t) as (a' & t'' & e' & E' & Hl).
  rewrite E in E'. injection E' as _ _ <-. exact Hl.
Qed.

End Yields.

End Effects.

(** The head constant of an application. *)
Ltac head_of t :=
  lazymatch t with
  | ?f _ => head_of f
  | _ => t
  end.

(** One step of a proof that a computation is quiet: split a sequence, pick
    a branch, discharge a primitive, or unfold a function of the sources. *)
Ltac quiet_step :=
  lazymatch goal with
  | |- quiet _ (bind _ _) => apply quiet_bind; [| intros ? ]
  | |- quiet _ (ret _) => apply quiet_ret
  | |- quiet _ (emit _) => apply quiet_emit; reflexivity
  | |- quiet _ (if ?b then _ else _) => destruct b
  | |- quiet _ Date_now => apply quiet_Date_now
  | |- quiet _ Date_toISOString => apply quiet_Date_toISOString
  | |- quiet _ Math_random => apply quiet_Math_random
  | |- quiet _ (http_request _) => apply quiet_http_request; intros; reflexivity
  | |- quiet _ (HttpUtils.safeJson _ _) => apply quiet_safeJson
  | |- quiet _ (Common.randomString_loop _ _) => apply quiet_randomString_loop
  | |- quiet _ (check _ _) =>
      apply quiet_check;
      repeat first
        [ apply Forall_nil
        | apply Forall_cons; [ split; [ intros; reflexivity | cbn [snd] ] |] ]
  | |- quiet _ ?m => let h := head_of m in unfold h; cbv beta zeta
  end.

Ltac quiet_auto := cbv beta zeta; repeat quiet_step.

(** A proof that a computation yields a list of views: the whole of it when
    it yields nothing, else piece by piece. *)
Ltac yields_auto :=
  cbv beta zeta;
  first
    [ solve [ apply yields_quiet; quiet_auto ]
    | lazymatch goal with
      | |- yields _ (emit _) _ => apply yields_emit; lazy; reflexivity
      | |- yields _ (bind _ _) _ =>
          eapply yields_bind;
          [ yields_auto | intros ?; yields_auto | reflexivity ]
      | |- yields _ (if ?b then _ else _) _ => destruct b; yields_auto
      | |- yields _ ?m _ => let h := head_of m in unfold h; yields_auto
      end ].

(* ------------------------------------------------------------------ *)
(** ** The steps of the CRUD flow                                      *)
(* ------------------------------------------------------------------ *)

Section Steps.
Context {RT : Runtime}.

Lemma step_intro {A : Type} (name : string) (body : M A) :
  quiet step_event body -> step name (emit (ECall name) ;; body).
Proof.
  intros Hb t. destruct (Hb t) as (a & t' & e & Eb & He).
  exists a, t', e. unfold bind, emit. rewrite Eb. split; [ reflexivity | exact He ].
Qed.

Lemma createResource_step : step "createResource" Crud.createResource.
Proof. unfold Crud.createResource. apply step_intro. quiet_auto. Qed.

Lemma readResource_step (id : Value) : step "readResource" (Crud.readResource id).
Proof. unfold Crud.readResource. apply step_intro. quiet_auto. Qed.

Lemma updateResource_step (id originalData : Value) :
  step "updateResource" (Crud.updateResource id originalData).
Proof. unfold Crud.updateResource. apply step_intro. quiet_auto. Qed.

Lemma deleteResource_step (id : Value) :
  step "deleteResource" (Crud.deleteResource id).
Proof. unfold Crud.deleteResource. apply step_intro. quiet_auto. Qed.

Lemma verifyDeleted_step (id : Value) :
  step "verifyDeleted" (Crud.verifyDeleted id).
Proof. unfold Crud.verifyDeleted. apply step_intro. quiet_auto. Qed.

(** What each step adds to the duration trends and operation counters:
    its own pair of samples when it sends its request, nothing when it
    was given no usable id. *)
Lemma createResource_entries :
  yields metric_entry Crud.createResource
         (step_entries Crud.createDuration Crud.operationCounts_create).
Proof. unfold Crud.createResource. yields_auto. Qed.

Lemma readResource_entries (id : Value) :
  yields metric_entry (Crud.readResource id)
         (if truthy id
          then step_entries Crud.readDuration Crud.operationCounts_read
          else []).
Proof. unfold Crud.readResource. destruct (truthy id); cbn [negb]; yields_auto. Qed.

Lemma updateResource_entries (id originalData : Value) :
  yields metric_entry (Crud.updateResource id originalData)
         (if truthy id
          then step_entries Crud.updateDuration Crud.operationCounts_update
          else []).
Proof.
  unfold Crud.updateResource. destruct (truthy id); cbn [negb]; yields_auto.
Qed.

Lemma deleteResource_entries (id : Value) :
  yields metric_entry (Crud.deleteResource id)
         (if truthy id
          then step_entries Crud.deleteDuration Crud.operationCounts_delete
          else []).
Proof.
  unfold Crud.deleteResource. destruct (truthy id); cbn [negb]; yields_auto.
Qed.

Lemma verifyDeleted_entries (id : Value) :
  yields metric_entry (Crud.verifyDeleted id) [].
Proof. yields_auto. Qed.


End Steps.

(* ------------------------------------------------------------------ *)
(** ** The CRUD flow (tests/example/crud-operations.js)                 *)
(* ------------------------------------------------------------------ *)

Section Flow.
Context {RT : Runtime}.

(** The iteration after a successful CREATE, in terms of the runs of its
    steps. *)
Lemma after_create_run
      (r1 r2 r3 r4 r5 : Crud.StepResult) (b : bool) (n : Number)
      (t1 t2 t3 t4 t5 t6 t7 : Ticks) (e2 e3 e4 e5 e6 e7 : list Event) :
  Crud.readResource (Crud.id r1) t1 = (Ok r2, t2, e2) ->
  Crud.updateResource (Crud.id r1) (js_or (Crud.data r2) (Crud.data r1)) t2
  = (Ok r3, t3, e3) ->
  Crud.readResource (Crud.id r1) t3 = (Ok r4, t4, e4) ->
  Crud.deleteResource (Crud.id r1) t4 = (Ok r5, t5, e5) ->
  Crud.verifyDeleted (Crud.id r1) t5 = (Ok b, t6, e6) ->
  Common.thinkTime t6 = (Ok n, t7, e7) ->
  Crud.after_create r1 t1
  = (Ok tt, t7,
     flow_events (Crud.id r1) (flow_outcome r2 r3 r4 r5 b) b e2 e3 e4 e5 e6 e7 n).
Proof.
  intros H2 H3 H4 H5 H6 H7.
  unfold Crud.after_create, flow_events, flow_outcome. cbv zeta.
  unfold sleep, console_log, metric_add.
  repeat (rewrite bind_emit; cbn [result_of ticks_of events_of fst snd]).
  rewrite (bind_run _ _ _ _ _ _ H2); cbn [result_of ticks_of events_of fst snd].
  repeat (rewrite bind_emit; cbn [result_of ticks_of events_of fst snd]).
  rewrite (bind_run _ _ _ _ _ _ H3); cbn [result_of ticks_of events_of fst snd].
  repeat (rewrite bind_emit; cbn [result_of ticks_of events_of fst snd]).
  rewrite (bind_run _ _ _ _ _ _ H4); cbn [result_of ticks_of events_of fst snd].
  repeat (rewrite bind_emit; cbn [result_of ticks_of events_of fst snd]).
  rewrite (bind_run _ _ _ _ _ _ H5); cbn [result_of ticks_of events_of fst snd].
  repeat (rewrite bind_emit; cbn [result_of ticks_of events_of fst snd]).
  rewrite (bind_run _ _ _ _ _ _ H6); cbn [result_of ticks_of events_of fst snd].
  destruct b, (Crud.success r2), (Crud.success r3), (Crud.success r4),
    (Crud.success r5);
    cbv [negb andb check bind emit ret try_catch throw Common.logError
         console_error truthy result_of ticks_of events_of fst snd];
    rewrite H7; reflexivity.
Qed.

End Flow.

Section FlowRuns.
Context {RT : Runtime}.

(** The events of a run of a step start with its entry. *)
Lemma step_run {A : Type} (name : string) (m : M A) (t t' : Ticks) (a : A)
      (e : list Event) :
  step name m -> m t = (Ok a, t', e) ->
  exists e', e = ECall name :: e' /\ forallb step_event e' = true.
Proof.
  intros Hs E. destruct (Hs t) as (a' & t'' & e' & E' & He).
  rewrite E in E'. injection E' as _ _ ->. exists e'. split; [ reflexivity | exact He ].
Qed.

(** The think time emits nothing. *)
Lemma thinkTime_run (t : Ticks) :
  exists n t', Common.thinkTime t = (Ok n, t', []).
Proof.
  assert (H : quiet (fun _ => false) Common.thinkTime) by quiet_auto.
  destruct (H t) as (n & t' & e & E & He). exists n, t'.
  destruct e; [ exact E | discriminate He ].
Qed.

(** The iteration when CREATE fails. *)
Lemma default_abort (t t1 : Ticks) (r1 : Crud.StepResult) (e1 : list Event) :
  Crud.createResource t = (Ok r1, t1, e1) ->
  Crud.success r1 = false ->
  Crud.default t
  = (Ok tt, t1,
     (EConsole "log" [ "Step 1: CREATE" ] :: e1
      ++ [ EMetric Crud.fullFlowFailed (VInt 1); ESleep (B64.of_Z 1) ])%list).
Proof.
  intros H1 Hs. unfold Crud.default, console_log.
  rewrite bind_emit, (bind_run _ _ _ _ _ _ H1), Hs. reflexivity.
Qed.

(** The iteration when CREATE succeeds, in terms of the runs of the steps. *)
Lemma default_run
      (r1 r2 r3 r4 r5 : Crud.StepResult) (b : bool) (n : Number)
      (t t1 t2 t3 t4 t5 t6 t7 : Ticks) (e1 e2 e3 e4 e5 e6 e7 : list Event) :
  Crud.createResource t = (Ok r1, t1, e1) ->
  Crud.success r1 = true ->
  Crud.readResource (Crud.id r1) t1 = (Ok r2, t2, e2) ->
  Crud.updateResource (Crud.id r1) (js_or (Crud.data r2) (Crud.data r1)) t2
  = (Ok r3, t3, e3) ->
  Crud.readResource (Crud.id r1) t3 = (Ok r4, t4, e4) ->
  Crud.deleteResource (Crud.id r1) t4 = (Ok r5, t5, e5) ->
  Crud.verifyDeleted (Crud.id r1) t5 = (Ok b, t6, e6) ->
  Common.thinkTime t6 = (Ok n, t7, e7) ->
  Crud.default t
  = (Ok tt, t7,
     (EConsole "log" [ "Step 1: CREATE" ] :: e1
      ++ flow_events (Crud.id r1) (flow_outcome r2 r3 r4 r5 b) b
           e2 e3 e4 e5 e6 e7 n)%list).
Proof.
  intros H1 Hs H2 H3 H4 H5 H6 H7. unfold Crud.default, console_log.
  rewrite bind_emit, (bind_run _ _ _ _ _ _ H1), Hs.
  cbn [negb result_of ticks_of events_of fst snd].
  rewrite (after_create_run r1 r2 r3 r4 r5 b n t1 t2 t3 t4 t5 t6 t7
             e2 e3 e4 e5 e6 e7 H2 H3 H4 H5 H6 H7).
  reflexivity.
Qed.

(** What [verifyDeleted] does: one GET on the resource, and [true] exactly
    when the status of the response is 404. *)
Lemma verifyDeleted_run (createdId : Value) (t : Ticks) :
  let res := http_send (n_http t) (verify_request createdId) in
  exists t' post,
    Crud.verifyDeleted createdId t
    = (Ok (status res =? 404), t',
       ECall "verifyDeleted" :: EHttp (verify_request createdId) res :: post)
    /\ forallb step_event post = true /\ requests post = [].
Proof.
  unfold Crud.verifyDeleted, HttpUtils.get, HttpUtils.log_if_error,
    Common.logRequestError, Common.logError, console_error, verify_request.
  cbv [bind emit ret http_request check Checks.status_is].
  destruct (status (http_send (n_http t) _) >=? 400);
    eexists _, _; (split; [ reflexivity | split; reflexivity ]).
Qed.

End FlowRuns.

(* ------------------------------------------------------------------ *)
(** ** Properties of the CRUD flow                                     *)
(* ------------------------------------------------------------------ *)

Section Views.

Lemma calls_cons (x : Event) (l : list Event) :
  calls (x :: l) = ((match x with ECall f => [ f ] | _ => [] end) ++ calls l)%list.
Proof. reflexivity. Qed.

Lemma samples_cons (metric : string) (x : Event) (l : list Event) :
  samples metric (x :: l) = (sample_of metric x ++ samples metric l)%list.
Proof. reflexivity. Qed.

Lemma requests_cons (x : Event) (l : list Event) :
  requests (x :: l)
  = ((match x with EHttp req _ => [ req ] | _ => [] end) ++ requests l)%list.
Proof. reflexivity. Qed.

Lemma check_results_cons (name : string) (x : Event) (l : list Event) :
  check_results name (x :: l)
  = ((match x with
      | ECheck n b => if String.eqb n name then [ b ] else []
      | _ => []
      end) ++ check_results name l)%list.
Proof. reflexivity. Qed.

Lemma metric_log_cons (x : Event) (l : list Event) :
  metric_log (x :: l) = (metric_entry x ++ metric_log l)%list.
Proof. reflexivity. Qed.

Lemma metric_log_app (a b : list Event) :
  metric_log (a ++ b) = (metric_log a ++ metric_log b)%list.
Proof. apply flat_map_app. Qed.

End Views.

Create Rewrite HintDb views.

#[export] Hint Rewrite calls_cons @calls_app samples_cons @samples_app
  requests_cons @requests_app check_results_cons @check_results_app
  metric_log_cons metric_log_app : views.

(** Push the views of an event list through its structure, then use what is
    known of the events of each step. *)
Ltac views :=
  unfold flow_events;
  autorewrite with views;
  repeat match goal with
         | H : forallb step_event ?e = true |- _ =>
             rewrite ?(step_events_calls e H), ?(step_events_success e H),
               ?(step_events_failed e H), ?(step_events_flow_check e H);
             clear H
         end.

Section FlowProperties.
Context {RT : Runtime}.

(** C1.  In an iteration whose CREATE step fails ([createResource] returns
    [success = false]), [readResource], [updateResource], [deleteResource]
    and [verifyDeleted] are not invoked, and the flow is recorded as
    failed: [fullFlowFailed] is incremented once, [fullFlowSuccess] not
    at all. *)
Theorem create_failure_aborts_flow
        (t t1 : Ticks) (r1 : Crud.StepResult) (e1 : list Event) :
  Crud.createResource t = (Ok r1, t1, e1) ->
  Crud.success r1 = false ->
  result_of (Crud.default t) = Ok tt
  /\ calls (events_of (Crud.default t)) = [ "createResource" ]
  /\ samples Crud.fullFlowFailed (events_of (Crud.default t)) = [ VInt 1 ]
  /\ samples Crud.fullFlowSuccess (events_of (Crud.default t)) = [].
Proof.
  intros H1 Hs.
  rewrite (default_abort t t1 r1 e1 H1 Hs).
  destruct (step_run _ _ _ _ _ _ createResource_step H1) as (e1' & -> & He1).
  cbn [result_of events_of fst snd].
  repeat split; views; reflexivity.
Qed.

(** C5.  In an iteration in which CREATE, READ, UPDATE, the verification
    READ and DELETE return [success = true] and [verifyDeleted] returns
    [true], the flow is recorded as successful once: [fullFlowSuccess] is
    incremented by 1 exactly once and [fullFlowFailed] not at all. *)
Theorem full_success_counted_once
        (r1 r2 r3 r4 r5 : Crud.StepResult)
        (t t1 t2 t3 t4 t5 t6 : Ticks) (e1 e2 e3 e4 e5 e6 : list Event) :
  Crud.createResource t = (Ok r1, t1, e1) -> Crud.success r1 = true ->
  Crud.readResource (Crud.id r1) t1 = (Ok r2, t2, e2) -> Crud.success r2 = true ->
  Crud.updateResource (Crud.id r1) (js_or (Crud.data r2) (Crud.data r1)) t2
  = (Ok r3, t3, e3) -> Crud.success r3 = true ->
  Crud.readResource (Crud.id r1) t3 = (Ok r4, t4, e4) -> Crud.success r4 = true ->
  Crud.deleteResource (Crud.id r1) t4 = (Ok r5, t5, e5) -> Crud.success r5 = true ->
  Crud.verifyDeleted (Crud.id r1) t5 = (Ok true, t6, e6) ->
  result_of (Crud.default t) = Ok tt
  /\ samples Crud.fullFlowSuccess (events_of (Crud.default t)) = [ VInt 1 ]
  /\ samples Crud.fullFlowFailed (events_of (Crud.default t)) = []
  /\ check_results "CRUD flow completed successfully" (events_of (Crud.default t))
     = [ true ].
Proof.
  intros H1 S1 H2 S2 H3 S3 H4 S4 H5 S5 H6.
  destruct (thinkTime_run t6) as (n & t7 & H7).
  rewrite (default_run r1 r2 r3 r4 r5 true n t t1 t2 t3 t4 t5 t6 t7
             e1 e2 e3 e4 e5 e6 [] H1 S1 H2 H3 H4 H5 H6 H7).
  unfold flow_outcome. rewrite S2, S3, S4, S5.
  destruct (step_run _ _ _ _ _ _ createResource_step H1) as (e1' & -> & He1).
  destruct (step_run _ _ _ _ _ _ (readResource_step _) H2) as (e2' & -> & He2).
  destruct (step_run _ _ _ _ _ _ (updateResource_step _ _) H3) as (e3' & -> & He3).
  destruct (step_run _ _ _ _ _ _ (readResource_step _) H4) as (e4' & -> & He4).
  destruct (step_run _ _ _ _ _ _ (deleteResource_step _) H5) as (e5' & -> & He5).
  destruct (step_run _ _ _ _ _ _ (verifyDeleted_step _) H6) as (e6' & -> & He6).
  cbn [result_of events_of fst snd andb].
  repeat split; views; reflexivity.
Qed.

(** After a successful CREATE the five later steps run, whatever they
    return, and the iteration completes. *)
Lemma flow_runs (t t1 : Ticks) (r1 : Crud.StepResult) (e1 : list Event) :
  Crud.createResource t = (Ok r1, t1, e1) ->
  Crud.success r1 = true ->
  exists r2 r3 r4 r5 b n t2 t3 t4 t5 t6 t7 e2 e3 e4 e5 e6,
    Crud.readResource (Crud.id r1) t1 = (Ok r2, t2, e2)
    /\ Crud.updateResource (Crud.id r1) (js_or (Crud.data r2) (Crud.data r1)) t2
       = (Ok r3, t3, e3)
    /\ Crud.readResource (Crud.id r1) t3 = (Ok r4, t4, e4)
    /\ Crud.deleteResource (Crud.id r1) t4 = (Ok r5, t5, e5)
    /\ Crud.verifyDeleted (Crud.id r1) t5 = (Ok b, t6, e6)
    /\ Crud.default t
       = (Ok tt, t7,
          (EConsole "log" [ "Step 1: CREATE" ] :: e1
           ++ flow_events (Crud.id r1) (flow_outcome r2 r3 r4 r5 b) b
                e2 e3 e4 e5 e6 [] n)%list).
Proof.
  intros H1 S1.
  destruct (readResource_step (Crud.id r1) t1) as (r2 & t2 & e2 & H2 & _).
  destruct (updateResource_step (Crud.id r1) (js_or (Crud.data r2) (Crud.data r1)) t2)
    as (r3 & t3 & e3 & H3 & _).
  destruct (readResource_step (Crud.id r1) t3) as (r4 & t4 & e4 & H4 & _).
  destruct (deleteResource_step (Crud.id r1) t4) as (r5 & t5 & e5 & H5 & _).
  destruct (verifyDeleted_step (Crud.id r1) t5) as (b & t6 & e6 & H6 & _).
  destruct (thinkTime_run t6) as (n & t7 & H7).
  exists r2, r3, r4, r5, b, n, t2, t3, t4, t5, t6, t7.
  eexists _, _, _, _, _.
  repeat (split; [ eassumption |]).
  exact (default_run r1 r2 r3 r4 r5 b n t t1 t2 t3 t4 t5 t6 t7
           e1 _ _ _ _ _ [] H1 S1 H2 H3 H4 H5 H6 H7).
Qed.

Lemma status_2xx_not_404 (res : Response) :
  Crud.is_2xx res = true -> status res <> 404.
Proof.
  unfold Crud.is_2xx. intros H E. rewrite E in H. discriminate H.
Qed.

(** C3.  After a successful CREATE the iteration reaches [verifyDeleted]
    after the DELETE step; it sends one GET for the created resource, the
    last request of the iteration, and returns [true] exactly when the
    status of the response is 404.  When that status is not 404, and so
    when it is a 2xx, the flow is recorded as failed ([fullFlowFailed]
    incremented once, [fullFlowSuccess] not), whatever DELETE returned. *)
Theorem verify_deleted_decides_flow
        (t t1 : Ticks) (r1 : Crud.StepResult) (e1 : list Event) :
  Crud.createResource t = (Ok r1, t1, e1) ->
  Crud.success r1 = true ->
  exists t5 pre post,
    let res := http_send (n_http t5) (verify_request (Crud.id r1)) in
    events_of (Crud.default t)
    = (pre ++ ECall "verifyDeleted"
           :: EHttp (verify_request (Crud.id r1)) res :: post)%list
    /\ calls pre = [ "createResource"; "readResource"; "updateResource";
                     "readResource"; "deleteResource" ]
    /\ calls post = [] /\ requests post = []
    /\ result_of (Crud.verifyDeleted (Crud.id r1) t5) = Ok (status res =? 404)
    /\ (status res <> 404 ->
        samples Crud.fullFlowFailed (events_of (Crud.default t)) = [ VInt 1 ]
        /\ samples Crud.fullFlowSuccess (events_of (Crud.default t)) = [])
    /\ (Crud.is_2xx res = true -> status res <> 404).
Proof.
  intros H1 S1.
  destruct (flow_runs t t1 r1 e1 H1 S1)
    as (r2 & r3 & r4 & r5 & b & n & t2 & t3 & t4 & t5 & t6 & t7
        & e2 & e3 & e4 & e5 & e6 & H2 & H3 & H4 & H5 & H6 & Hd).
  destruct (verifyDeleted_run (Crud.id r1) t5) as (t6' & post & Hv & Hpost & Hreq).
  cbv zeta in Hv. rewrite Hv in H6. injection H6 as <- <- <-.
  destruct (step_run _ _ _ _ _ _ createResource_step H1) as (e1' & -> & He1).
  destruct (step_run _ _ _ _ _ _ (readResource_step _) H2) as (e2' & -> & He2).
  destruct (step_run _ _ _ _ _ _ (updateResource_step _ _) H3) as (e3' & -> & He3).
  destruct (step_run _ _ _ _ _ _ (readResource_step _) H4) as (e4' & -> & He4).
  destruct (step_run _ _ _ _ _ _ (deleteResource_step _) H5) as (e5' & -> & He5).
  rewrite Hd. cbn [result_of events_of fst snd].
  set (res := http_send (n_http t5) (verify_request (Crud.id r1))) in *.
  exists t5.
  exists (EConsole "log" [ "Step 1: CREATE" ]
          :: (ECall "createResource" :: e1')
          ++ ESleep (B64.lit 5 10) :: EConsole "log" [ "Step 2: READ" ]
          :: (ECall "readResource" :: e2')
          ++ ESleep (B64.lit 5 10) :: EConsole "log" [ "Step 3: UPDATE" ]
          :: (ECall "updateResource" :: e3')
          ++ ESleep (B64.lit 5 10)
          :: EConsole "log" [ "Step 4: READ (verify update)" ]
          :: (ECall "readResource" :: e4')
          ++ ESleep (B64.lit 5 10) :: EConsole "log" [ "Step 5: DELETE" ]
          :: (ECall "deleteResource" :: e5')
          ++ [ ESleep (B64.lit 5 10);
               EConsole "log" [ "Step 6: VERIFY DELETED" ] ])%list.
  exists (post
          ++ (if status res =? 404 then []
              else [ EConsole "error"
                       [ ("ERROR [crud-flow]: Resource " ++ to_string (Crud.id r1)
                          ++ " still exists after delete")%string ] ])
          ++ [ EMetric (if flow_outcome r2 r3 r4 r5 (status res =? 404)
                        then Crud.fullFlowSuccess else Crud.fullFlowFailed) (VInt 1);
               ECheck "CRUD flow completed successfully"
                      (flow_outcome r2 r3 r4 r5 (status res =? 404));
               ESleep n ])%list.
  fold res.
  split; [| split; [| split; [| split; [| split; [| split ]]]]].
  - unfold flow_events.
    repeat (progress cbn [app] || rewrite <- app_assoc). reflexivity.
  - views. reflexivity.
  - pose proof (step_events_calls post Hpost) as Hc.
    autorewrite with views. rewrite Hc.
    destruct (status res =? 404); reflexivity.
  - autorewrite with views. rewrite Hreq.
    destruct (status res =? 404); reflexivity.
  - rewrite Hv. reflexivity.
  - intros Hne. apply Z.eqb_neq in Hne. rewrite Hne.
    unfold flow_outcome. rewrite andb_false_r.
    split; views; reflexivity.
  - apply status_2xx_not_404.
Qed.

(** C4, as amended.  After a successful CREATE a failure of READ, UPDATE,
    the verification READ or DELETE does not abort the iteration: the six
    steps are all invoked, the flow is a success only if each of them
    succeeded, and it is recorded as failed otherwise.  CREATE always adds
    a sample to its duration trend and 1 to its counter; READ, UPDATE, the
    verification READ and DELETE do so, whether they succeed or fail,
    when the created id is usable (truthy).  When it is not, each of
    them only logs 'No ID provided' and returns [success = false]: it
    sends no request and adds nothing to its metrics, and the flow is
    recorded as failed. *)
Theorem flow_continues_after_failures
        (t t1 : Ticks) (r1 : Crud.StepResult) (e1 : list Event) :
  Crud.createResource t = (Ok r1, t1, e1) ->
  Crud.success r1 = true ->
  exists r2 r3 r4 r5 b t2 t3 t4 t5 t6 e2 e3 e4 e5 e6,
    Crud.readResource (Crud.id r1) t1 = (Ok r2, t2, e2)
    /\ Crud.updateResource (Crud.id r1) (js_or (Crud.data r2) (Crud.data r1)) t2
       = (Ok r3, t3, e3)
    /\ Crud.readResource (Crud.id r1) t3 = (Ok r4, t4, e4)
    /\ Crud.deleteResource (Crud.id r1) t4 = (Ok r5, t5, e5)
    /\ Crud.verifyDeleted (Crud.id r1) t5 = (Ok b, t6, e6)
    /\ result_of (Crud.default t) = Ok tt
    /\ calls (events_of (Crud.default t)) = six_steps
    /\ check_results "CRUD flow completed successfully" (events_of (Crud.default t))
       = [ flow_outcome r2 r3 r4 r5 b ]
    /\ samples Crud.fullFlowFailed (events_of (Crud.default t))
       = (if flow_outcome r2 r3 r4 r5 b then [] else [ VInt 1 ])
    /\ samples Crud.fullFlowSuccess (events_of (Crud.default t))
       = (if flow_outcome r2 r3 r4 r5 b then [ VInt 1 ] else [])
    /\ metric_log (events_of (Crud.default t))
       = (step_entries Crud.createDuration Crud.operationCounts_create
          ++ (if truthy (Crud.id r1)
              then step_entries Crud.readDuration Crud.operationCounts_read
                   ++ step_entries Crud.updateDuration Crud.operationCounts_update
                   ++ step_entries Crud.readDuration Crud.operationCounts_read
                   ++ step_entries Crud.deleteDuration Crud.operationCounts_delete
              else []))%list
    /\ (truthy (Crud.id r1) = false ->
        let skipped (name context : string) : list Event :=
          [ ECall name;
            EConsole "error" [ "ERROR [" ++ context ++ "]: No ID provided" ] ] in
        e2 = skipped "readResource" "crud-read"
        /\ e3 = skipped "updateResource" "crud-update"
        /\ e4 = skipped "readResource" "crud-read"
        /\ e5 = skipped "deleteResource" "crud-delete"
        /\ Crud.success r2 = false /\ Crud.success r3 = false
        /\ Crud.success r4 = false /\ Crud.success r5 = false
        /\ requests e2 = [] /\ requests e3 = []
        /\ requests e4 = [] /\ requests e5 = []
        /\ flow_outcome r2 r3 r4 r5 b = false).
Proof.
  intros H1 S1.
  destruct (flow_runs t t1 r1 e1 H1 S1)
    as (r2 & r3 & r4 & r5 & b & n & t2 & t3 & t4 & t5 & t6 & t7
        & e2 & e3 & e4 & e5 & e6 & H2 & H3 & H4 & H5 & H6 & Hd).
  exists r2, r3, r4, r5, b, t2, t3, t4, t5, t6, e2, e3, e4, e5, e6.
  assert (Hskip :
    truthy (Crud.id r1) = false ->
    let skipped (name context : string) : list Event :=
      [ ECall name;
        EConsole "error" [ "ERROR [" ++ context ++ "]: No ID provided" ] ] in
    e2 = skipped "readResource" "crud-read"
    /\ e3 = skipped "updateResource" "crud-update"
    /\ e4 = skipped "readResource" "crud-read"
    /\ e5 = skipped "deleteResource" "crud-delete"
    /\ Crud.success r2 = false /\ Crud.success r3 = false
    /\ Crud.success r4 = false /\ Crud.success r5 = false
    /\ requests e2 = [] /\ requests e3 = []
    /\ requests e4 = [] /\ requests e5 = []
    /\ flow_outcome r2 r3 r4 r5 b = false).
  { intros Hid. cbv zeta.
    unfold Crud.readResource in H2, H4. unfold Crud.updateResource in H3.
    unfold Crud.deleteResource in H5.
    rewrite Hid in H2, H3, H4, H5.
    cbv [negb bind emit ret Common.logError console_error app] in H2, H3, H4, H5.
    injection H2 as <- <- <-. injection H3 as <- <- <-.
    injection H4 as <- <- <-. injection H5 as <- <- <-.
    repeat split. }
  repeat (split; [ assumption |]).
  pose proof (yields_run _ _ _ _ _ _ _ createResource_entries H1) as M1.
  pose proof (yields_run _ _ _ _ _ _ _ (readResource_entries _) H2) as M2.
  pose proof (yields_run _ _ _ _ _ _ _ (updateResource_entries _ _) H3) as M3.
  pose proof (yields_run _ _ _ _ _ _ _ (readResource_entries _) H4) as M4.
  pose proof (yields_run _ _ _ _ _ _ _ (deleteResource_entries _) H5) as M5.
  pose proof (yields_run _ _ _ _ _ _ _ (verifyDeleted_entries _) H6) as M6.
  fold (metric_log e1) in M1. fold (metric_log e2) in M2.
  fold (metric_log e3) in M3. fold (metric_log e4) in M4.
  fold (metric_log e5) in M5. fold (metric_log e6) in M6.
  rewrite Hd. cbn [result_of events_of fst snd].
  split; [ reflexivity |].
  assert (Hlog :
    metric_log (EConsole "log" [ "Step 1: CREATE" ] :: e1
                ++ flow_events (Crud.id r1) (flow_outcome r2 r3 r4 r5 b) b
                     e2 e3 e4 e5 e6 [] n)
    = (step_entries Crud.createDuration Crud.operationCounts_create
       ++ (if truthy (Crud.id r1)
           then step_entries Crud.readDuration Crud.operationCounts_read
                ++ step_entries Crud.updateDuration Crud.operationCounts_update
                ++ step_entries Crud.readDuration Crud.operationCounts_read
                ++ step_entries Crud.deleteDuration Crud.operationCounts_delete
           else []))%list).
  { unfold flow_events. autorewrite with views.
    rewrite M1, M2, M3, M4, M5, M6.
    destruct (truthy (Crud.id r1)), b, (flow_outcome r2 r3 r4 r5 _); reflexivity. }
  destruct (step_run _ _ _ _ _ _ createResource_step H1) as (e1' & -> & He1).
  destruct (step_run _ _ _ _ _ _ (readResource_step _) H2) as (e2' & -> & He2).
  destruct (step_run _ _ _ _ _ _ (updateResource_step _ _) H3) as (e3' & -> & He3).
  destruct (step_run _ _ _ _ _ _ (readResource_step _) H4) as (e4' & -> & He4).
  destruct (step_run _ _ _ _ _ _ (deleteResource_step _) H5) as (e5' & -> & He5).
  destruct (step_run _ _ _ _ _ _ (verifyDeleted_step _) H6) as (e6' & -> & He6).
  split; [| split; [| split; [| split; [| split; [ exact Hlog | exact Hskip ] ]]]];
    views; destruct b, (flow_outcome r2 r3 r4 r5 _); reflexivity.
Qed.

End FlowProperties.

(* ------------------------------------------------------------------ *)
(** ** Binary64 arithmetic                                             *)
(* ------------------------------------------------------------------ *)

Section Floats.

Lemma two_neq_0 : ~ (2 == 0)%Q.
Proof. discriminate. Qed.

Lemma pow2_pos (k : Z) : (0 < 2 ^ k)%Q.
Proof. apply Qpower_0_lt. reflexivity. Qed.

Lemma pow2_succ (k : Z) : (2 ^ (k + 1) == 2 * 2 ^ k)%Q.
Proof. rewrite Qpower_plus by exact two_neq_0. rewrite Qpower_1_r. ring. Qed.

Lemma pow2_Z (k : Z) : 0 <= k -> (inject_Z (2 ^ k) == 2 ^ k)%Q.
Proof. intros H. rewrite Zpower_Qpower by exact H. reflexivity. Qed.

Lemma pow2_cancel (a b : Z) : (2 ^ a * 2 ^ b == 2 ^ (a + b))%Q.
Proof. rewrite Qpower_plus by exact two_neq_0. reflexivity. Qed.

Lemma pow2_lt_inv (a b : Z) : (2 ^ a < 2 ^ b)%Q -> a < b.
Proof. intros H. apply (Qpower_lt_compat_l_inv 2); [ exact H | reflexivity ]. Qed.

Lemma pow2_le (a b : Z) : a <= b -> (2 ^ a <= 2 ^ b)%Q.
Proof. intros H. apply Qpower_le_compat_l; [ exact H | discriminate ]. Qed.

(** [ilog2] finds the binade of a rational that is not zero. *)
Lemma ilog2_spec (q : Q) :
  ~ (q == 0)%Q ->
  (2 ^ B64.ilog2 q <= Qabs q)%Q /\ (Qabs q < 2 ^ (B64.ilog2 q + 1))%Q.
Proof.
  intros Hq. destruct q as [n d]. unfold B64.ilog2, Qabs. cbn [Qnum Qden].
  assert (Hn : 0 < Z.abs n).
  { destruct (Z.eq_dec n 0) as [-> | Hn0]; [ exfalso; apply Hq; reflexivity | lia ]. }
  pose proof (Z.log2_spec _ Hn) as [Ha1 Ha2].
  pose proof (Z.log2_spec (Z.pos d) eq_refl) as [Hb1 Hb2].
  pose proof (Z.log2_nonneg (Z.abs n)) as Ha0.
  pose proof (Z.log2_nonneg (Z.pos d)) as Hb0.
  set (a := Z.log2 (Z.abs n)) in *. set (b := Z.log2 (Z.pos d)) in *.
  set (x := (Z.abs n # d)%Q).
  assert (Hx : (x * inject_Z (Z.pos d) == inject_Z (Z.abs n))%Q).
  { unfold x. rewrite Qmake_Qdiv. field. discriminate. }
  assert (HA : (2 ^ a <= inject_Z (Z.abs n))%Q).
  { rewrite <- pow2_Z by exact Ha0. rewrite <- Zle_Qle. exact Ha1. }
  assert (HA' : (inject_Z (Z.abs n) < 2 * 2 ^ a)%Q).
  { rewrite <- pow2_succ, <- pow2_Z by lia. rewrite <- Zlt_Qlt. exact Ha2. }
  assert (HB : (2 ^ b <= inject_Z (Z.pos d))%Q).
  { rewrite <- pow2_Z by exact Hb0. rewrite <- Zle_Qle. exact Hb1. }
  assert (HB' : (inject_Z (Z.pos d) < 2 * 2 ^ b)%Q).
  { rewrite <- pow2_succ, <- pow2_Z by lia. rewrite <- Zlt_Qlt. exact Hb2. }
  assert (Hk : (2 ^ (a - b) * 2 ^ b == 2 ^ a)%Q).
  { rewrite pow2_cancel. replace (a - b + b) with a by lia. reflexivity. }
  pose proof (pow2_pos a) as Pa. pose proof (pow2_pos b) as Pb.
  pose proof (pow2_pos (a - b)) as Pk.
  assert (Hx0 : (0 < x)%Q) by (unfold x, Qlt; simpl; lia).
  set (A := (2 ^ a)%Q) in *. set (B := (2 ^ b)%Q) in *.
  set (K := (2 ^ (a - b))%Q) in *.
  set (N := inject_Z (Z.abs n)) in *. set (D := inject_Z (Z.pos d)) in *.
  assert (Hup : (x < 2 * K)%Q).
  { assert (H1 : (x * B < 2 * K * B)%Q) by nra.
    nra. }
  assert (Hlo : (K < 2 * x)%Q).
  { assert (H1 : (K * B < 2 * x * B)%Q) by nra.
    nra. }
  destruct (Qle_bool K x) eqn:E.
  - apply Qle_bool_iff in E. split; [ exact E |].
    rewrite pow2_succ. exact Hup.
  - assert (E' : (x < K)%Q).
    { apply Qnot_le_lt. intros H. apply Qle_bool_iff in H. congruence. }
    replace (a - b - 1 + 1) with (a - b) by lia. split; [| exact E' ].
    assert (H2 : (2 * 2 ^ (a - b - 1) == K)%Q).
    { unfold K. rewrite <- pow2_succ. replace (a - b - 1 + 1) with (a - b) by lia.
      reflexivity. }
    nra.
Qed.


Lemma Qred_inject_Z (z : Z) : Qred (inject_Z z) = inject_Z z.
Proof.
  unfold Qred, inject_Z. cbn [Qnum Qden].
  pose proof (Z.ggcd_correct_divisors z 1) as H.
  pose proof (Z.ggcd_gcd z 1) as Hg.
  destruct (Z.ggcd z 1) as [g [aa bb]]. cbn [fst snd] in *.
  rewrite Z.gcd_1_r in Hg. subst g. destruct H as [H1 H2].
  rewrite Z.mul_1_l in H1, H2. subst aa bb. reflexivity.
Qed.

(** A rational equal to an integer reduces to it. *)
Lemma Qred_int (q : Q) (z : Z) : (q == inject_Z z)%Q -> Qred q = inject_Z z.
Proof.
  intros H. rewrite (Qred_complete _ _ H). apply Qred_inject_Z.
Qed.

Lemma round_half_even_bounds (q : Q) :
  Qfloor q <= B64.round_half_even q <= Qfloor q + 1.
Proof.
  unfold B64.round_half_even.
  destruct (Qcompare _ _); [ destruct (Z.even _) | |]; lia.
Qed.

Lemma round_half_even_int (q : Q) (z : Z) :
  (q == inject_Z z)%Q -> B64.round_half_even q = z.
Proof.
  intros H. unfold B64.round_half_even.
  rewrite (Qfloor_comp _ _ H), Qfloor_Z.
  assert (E : (q - inject_Z z ?= 1 # 2)%Q = Lt).
  { apply Qlt_alt. rewrite H. unfold Qminus. rewrite Qplus_opp_r. reflexivity. }
  rewrite E. reflexivity.
Qed.

(** Rounding stays below an integer the rational misses by more than a half. *)
Lemma round_half_even_below (q : Q) (k : Z) :
  (q < inject_Z k - (1 # 2))%Q -> B64.round_half_even q <= k - 1.
Proof.
  intros H. unfold B64.round_half_even.
  pose proof (Qfloor_le q) as Hf.
  assert (Hfk : Qfloor q < k).
  { rewrite Zlt_Qlt. lra. }
  destruct (Qcompare_spec (q - inject_Z (Qfloor q)) (1 # 2)) as [E | E | E].
  - assert (Hf2 : Qfloor q + 1 < k).
    { rewrite Zlt_Qlt, inject_Z_plus. change (inject_Z 1) with 1%Q. lra. }
    destruct (Z.even _); lia.
  - lia.
  - assert (Hf2 : Qfloor q + 1 < k).
    { rewrite Zlt_Qlt, inject_Z_plus. change (inject_Z 1) with 1%Q. lra. }
    lia.
Qed.

Lemma Qabs_int (q : Q) (z : Z) : (q == inject_Z z)%Q -> (Qabs q == inject_Z (Z.abs z))%Q.
Proof.
  intros H. rewrite H. unfold Qabs, inject_Z. reflexivity.
Qed.

(** An integer below [2^53] in magnitude is a binary64 value. *)
Lemma round_int (q : Q) (z : Z) :
  (q == inject_Z z)%Q -> Z.abs z < 2 ^ 53 -> B64.round q = inject_Z z.
Proof.
  intros H Hz. unfold B64.round.
  destruct (Qeq_bool q 0) eqn:E0.
  - apply Qeq_bool_eq in E0. rewrite H in E0.
    apply (inject_Z_injective z 0) in E0. subst z. reflexivity.
  - apply Qeq_bool_neq in E0.
    destruct (ilog2_spec q E0) as [Hlo Hhi].
    rewrite (Qabs_int q z H) in Hlo, Hhi.
    assert (Hz0 : 1 <= Z.abs z).
    { destruct (Z.eq_dec z 0) as [-> | ]; [ exfalso; apply E0; exact H | lia ]. }
    set (e0 := B64.ilog2 q) in *.
    assert (He0 : 0 <= e0).
    { assert (H1 : (2 ^ 0 < 2 ^ (e0 + 1))%Q).
      { eapply Qle_lt_trans; [| exact Hhi ]. rewrite Qpower_0_r.
        change 1%Q with (inject_Z 1). rewrite <- Zle_Qle. exact Hz0. }
      apply pow2_lt_inv in H1. lia. }
    assert (He52 : e0 <= 52).
    { assert (H1 : (2 ^ e0 < 2 ^ 53)%Q).
      { eapply Qle_lt_trans; [ exact Hlo |]. rewrite <- (pow2_Z 53) by lia.
        rewrite <- Zlt_Qlt. exact Hz. }
      apply pow2_lt_inv in H1. lia. }
    rewrite Z.max_l by lia.
    assert (Hy : (q * 2 ^ (52 - e0) == inject_Z (z * 2 ^ (52 - e0)))%Q).
    { rewrite inject_Z_mult, pow2_Z by lia. rewrite H. reflexivity. }
    rewrite (round_half_even_int _ _ Hy).
    apply Qred_int.
    rewrite inject_Z_mult, pow2_Z by lia.
    rewrite <- Qmult_assoc, pow2_cancel.
    replace (52 - e0 + (e0 - 52)) with 0 by lia. rewrite Qpower_0_r. ring.
Qed.

Lemma pow2_1024_big (z : Z) : Z.abs z < 2 ^ 53 ->
  Qle_bool (2 ^ 1024) (inject_Z z) = false
  /\ Qle_bool (inject_Z z) (- 2 ^ 1024) = false.
Proof.
  intros Hz.
  assert (H1 : (inject_Z (2 ^ 53) < 2 ^ 1024)%Q).
  { rewrite (pow2_Z 53) by lia. apply Qpower_lt_compat_l; [ lia | reflexivity ]. }
  assert (H2 : (inject_Z z < inject_Z (2 ^ 53))%Q) by (rewrite <- Zlt_Qlt; lia).
  assert (H3 : (inject_Z (- 2 ^ 53) < inject_Z z)%Q) by (rewrite <- Zlt_Qlt; lia).
  rewrite inject_Z_opp in H3.
  split.
  - destruct (Qle_bool (2 ^ 1024) (inject_Z z)) eqn:E; [| reflexivity ].
    apply Qle_bool_iff in E. lra.
  - destruct (Qle_bool (inject_Z z) (- 2 ^ 1024)) eqn:E; [| reflexivity ].
    apply Qle_bool_iff in E. lra.
Qed.

Lemma of_Q_int (q : Q) (z : Z) :
  (q == inject_Z z)%Q -> Z.abs z < 2 ^ 53 -> B64.of_Q q = Fin (inject_Z z).
Proof.
  intros H Hz. unfold B64.of_Q. cbv zeta. rewrite (round_int q z H Hz).
  destruct (pow2_1024_big z Hz) as [-> ->]. reflexivity.
Qed.


Lemma Qabs_nonneg_eq (q : Q) : (0 <= q)%Q -> (Qabs q == q)%Q.
Proof. intros H. apply Qabs_pos. exact H. Qed.

(** The scaled significand of a positive rational and what [round] makes of it. *)
Lemma round_pos_form (x : Q) :
  (0 < x)%Q ->
  let e := Z.max (B64.ilog2 x) (-1022) in
  (B64.round x == inject_Z (B64.round_half_even (x * 2 ^ (52 - e))) * 2 ^ (e - 52))%Q
  /\ (x * 2 ^ (52 - e) < 2 ^ 53)%Q
  /\ ((2 ^ e <= x)%Q \/ e = -1022).
Proof.
  intros Hx e.
  assert (Hx0 : ~ (x == 0)%Q) by lra.
  destruct (ilog2_spec x Hx0) as [Hlo Hhi].
  rewrite (Qabs_nonneg_eq x) in Hlo, Hhi by lra.
  split; [| split ].
  - unfold B64.round.
    destruct (Qeq_bool x 0) eqn:E0; [ apply Qeq_bool_eq in E0; contradiction |].
    fold e. apply Qred_correct.
  - assert (H1 : (2 ^ (B64.ilog2 x + 1) <= 2 ^ (e + 1))%Q) by (apply pow2_le; lia).
    assert (H2 : (2 ^ (e + 1) * 2 ^ (52 - e) == 2 ^ 53)%Q).
    { rewrite pow2_cancel. replace (e + 1 + (52 - e)) with 53 by lia. reflexivity. }
    pose proof (pow2_pos (52 - e)) as P.
    set (S := (2 ^ (52 - e))%Q) in *. nra.
  - destruct (Z.max_spec (B64.ilog2 x) (-1022)) as [[_ E] | [_ E]]; fold e in E.
    + right. exact E.
    + left. rewrite E. exact Hlo.
Qed.

(** A product of a factor in [0, 1 - 2^-53] and a positive integer below
    [2^53] rounds to a value below the integer. *)
Lemma round_scaled (r : Q) (n : Z) :
  (0 <= r)%Q -> (r <= 1 - (1 # 9007199254740992))%Q -> 1 <= n < 2 ^ 53 ->
  (0 <= B64.round (r * inject_Z n))%Q /\ (B64.round (r * inject_Z n) < inject_Z n)%Q.
Proof.
  intros Hr0 Hr1 Hn.
  assert (Hn1 : (1 <= inject_Z n)%Q).
  { change 1%Q with (inject_Z 1). rewrite <- Zle_Qle. lia. }
  set (x := (r * inject_Z n)%Q).
  assert (Hx0 : (0 <= x)%Q) by (unfold x; nra).
  assert (Hxn : (x <= inject_Z n - inject_Z n * (1 # 9007199254740992))%Q) by (unfold x; nra).
  assert (Hxlt : (x < inject_Z n)%Q) by lra.
  destruct (Qeq_bool x 0) eqn:E0.
  - unfold B64.round. rewrite E0. split; lra.
  - apply Qeq_bool_neq in E0.
    assert (Hx : (0 < x)%Q) by lra.
    destruct (round_pos_form x Hx) as (Hform & Hy53 & He).
    set (e := Z.max (B64.ilog2 x) (-1022)) in *.
    set (y := (x * 2 ^ (52 - e))%Q) in *.
    assert (He52 : e <= 52).
    { destruct He as [He | He]; [| lia ].
      assert (H1 : (2 ^ e < 2 ^ 53)%Q).
      { eapply Qle_lt_trans; [ exact He |].
        eapply Qlt_trans; [ exact Hxlt |].
        rewrite <- (pow2_Z 53) by lia. rewrite <- Zlt_Qlt. lia. }
      apply pow2_lt_inv in H1. lia. }
    assert (Hne : (2 ^ e < inject_Z n)%Q).
    { destruct He as [He | He].
      - nra.
      - rewrite He. eapply Qlt_le_trans; [| exact Hn1 ].
        rewrite <- (Qpower_0_r 2). apply Qpower_lt_compat_l; [ lia | reflexivity ]. }
    pose proof (pow2_pos (52 - e)) as PS. pose proof (pow2_pos (e - 52)) as PT.
    assert (HST : (2 ^ (52 - e) * 2 ^ (e - 52) == 1)%Q).
    { rewrite pow2_cancel. replace (52 - e + (e - 52)) with 0 by lia.
      apply Qpower_0_r. }
    assert (HeS : (2 ^ e * 2 ^ (52 - e) == inject_Z (2 ^ 52))%Q).
    { rewrite pow2_cancel. replace (e + (52 - e)) with 52 by lia.
      rewrite (pow2_Z 52) by lia. reflexivity. }
    assert (HN : (inject_Z n * 2 ^ (52 - e) == inject_Z (n * 2 ^ (52 - e)))%Q).
    { rewrite inject_Z_mult, pow2_Z by lia. reflexivity. }
    set (N := n * 2 ^ (52 - e)) in *.
    set (S := (2 ^ (52 - e))%Q) in *. set (T := (2 ^ (e - 52))%Q) in *.
    assert (Hy0 : (0 <= y)%Q) by (unfold y; nra).
    assert (HyN : (y < inject_Z N - (1 # 2))%Q).
    { assert (H1 : (y <= inject_Z N - inject_Z N * (1 # 9007199254740992))%Q).
      { unfold y. rewrite <- HN. nra. }
      assert (H2 : (inject_Z (2 ^ 52) < inject_Z N)%Q).
      { rewrite <- HN, <- HeS. nra. }
      change (inject_Z (2 ^ 52)) with (4503599627370496 # 1)%Q in H2.
      lra. }
    pose proof (round_half_even_below y N HyN) as Hm.
    pose proof (round_half_even_bounds y) as [Hm0 _].
    assert (Hf0 : 0 <= Qfloor y).
    { rewrite <- (Qfloor_Z 0). apply Qfloor_resp_le. exact Hy0. }
    set (m := B64.round_half_even y) in *.
    assert (Hm0' : (0 <= inject_Z m)%Q).
    { change 0%Q with (inject_Z 0). rewrite <- Zle_Qle. lia. }
    assert (Hm' : (inject_Z m <= inject_Z N - 1)%Q).
    { assert (H4 : (inject_Z m <= inject_Z (N + -1))%Q) by (rewrite <- Zle_Qle; lia).
      rewrite inject_Z_plus in H4. change (inject_Z (-1)) with (-1 # 1)%Q in H4. lra. }
    rewrite Hform. split; [ nra |].
    assert (H3 : (inject_Z N * T == inject_Z n)%Q).
    { rewrite <- HN. rewrite <- Qmult_assoc, HST. ring. }
    nra.
Qed.


(** A binary64 value in [0, 1) is at most [1 - 2^-53]. *)
Lemma binary64_below_one (r : Q) :
  (B64.round r == r)%Q -> (0 <= r)%Q -> (r < 1)%Q ->
  (r <= 1 - (1 # 9007199254740992))%Q.
Proof.
  intros Hb Hr0 Hr1.
  destruct (Qeq_bool r 0) eqn:E0.
  { apply Qeq_bool_eq in E0. rewrite E0. discriminate. }
  apply Qeq_bool_neq in E0.
  assert (Hr : (0 < r)%Q) by lra.
  destruct (round_pos_form r Hr) as (Hform & Hy53 & He).
  set (e := Z.max (B64.ilog2 r) (-1022)) in *.
  set (y := (r * 2 ^ (52 - e))%Q) in *.
  assert (He1 : e <= -1).
  { destruct He as [He | He]; [| lia ].
    assert (H1 : (2 ^ e < 2 ^ 0)%Q) by (rewrite Qpower_0_r; lra).
    apply pow2_lt_inv in H1. lia. }
  pose proof (round_half_even_bounds y) as [Hm0 Hm1].
  assert (Hy0 : (0 <= y)%Q).
  { pose proof (pow2_pos (52 - e)). unfold y. nra. }
  assert (Hf0 : 0 <= Qfloor y).
  { rewrite <- (Qfloor_Z 0). apply Qfloor_resp_le. exact Hy0. }
  assert (Hf1 : Qfloor y < 2 ^ 53).
  { rewrite Zlt_Qlt. eapply Qle_lt_trans; [ apply Qfloor_le |].
    rewrite (pow2_Z 53) by lia. exact Hy53. }
  set (m := B64.round_half_even y) in *.
  rewrite Hb in Hform.
  pose proof (pow2_pos (e - 52)) as PT.
  assert (HT : (2 ^ (e - 52) <= 1 # 9007199254740992)%Q).
  { assert (H1 : (2 ^ (e - 52) <= 2 ^ (-53))%Q) by (apply pow2_le; lia).
    assert (H2 : (2 ^ (-53) == 1 # 9007199254740992)%Q) by reflexivity.
    lra. }
  destruct (Z.eq_dec m (2 ^ 53)) as [Em | Nm].
  - assert (H1 : (r == 2 ^ (e + 1))%Q).
    { rewrite Hform, Em. rewrite (pow2_Z 53) by lia. rewrite pow2_cancel.
      replace (53 + (e - 52)) with (e + 1) by lia. reflexivity. }
    assert (H2 : (2 ^ (e + 1) < 2 ^ 0)%Q) by (rewrite Qpower_0_r; lra).
    apply pow2_lt_inv in H2.
    assert (H3 : (2 ^ (e + 1) <= 2 ^ (-1))%Q) by (apply pow2_le; lia).
    assert (H4 : (2 ^ (-1) == 1 # 2)%Q) by reflexivity.
    lra.
  - assert (Hm' : (inject_Z m <= inject_Z (2 ^ 53 - 1))%Q) by (rewrite <- Zle_Qle; lia).
    assert (Hm0' : (0 <= inject_Z m)%Q).
    { change 0%Q with (inject_Z 0). rewrite <- Zle_Qle. lia. }
    change (inject_Z (2 ^ 53 - 1)) with (9007199254740991 # 1)%Q in Hm'.
    set (T := (2 ^ (e - 52))%Q) in *. nra.
Qed.

(** The product of a draw and a positive integer below [2^53], floored,
    is a natural number below the integer. *)
Lemma scaled_draw (n : Number) (len : Z) :
  unit_draw n = true -> 1 <= len < 2 ^ 53 ->
  exists k, 0 <= k < len
            /\ B64.floor (n * Fin (inject_Z len))%num = Fin (inject_Z k).
Proof.
  intros Hu Hlen. destruct n as [r | | |]; try discriminate Hu.
  cbn [unit_draw] in Hu.
  apply andb_prop in Hu as [Hu H1]. apply andb_prop in Hu as [Hb H0].
  apply Qeq_bool_eq in Hb. apply Qle_bool_iff in H0.
  assert (Hr1 : (r < 1)%Q).
  { apply Qnot_le_lt. intros H. apply Qle_bool_iff in H. rewrite H in H1.
    discriminate H1. }
  pose proof (binary64_below_one r Hb H0 Hr1) as Hr.
  destruct (round_scaled r len H0 Hr Hlen) as [Hx0 Hx1].
  cbn [B64.mul]. unfold B64.of_Q. cbv zeta.
  set (x := B64.round (r * inject_Z len)) in *.
  assert (Hbig : (inject_Z len < 2 ^ 1024)%Q).
  { eapply Qlt_trans; [ rewrite <- Zlt_Qlt; exact (proj2 Hlen) |].
    rewrite (pow2_Z 53) by lia. apply Qpower_lt_compat_l; [ lia | reflexivity ]. }
  pose proof (pow2_pos 1024) as Hpos.
  assert (E1 : Qle_bool (2 ^ 1024) x = false).
  { destruct (Qle_bool (2 ^ 1024) x) eqn:E; [| reflexivity ].
    apply Qle_bool_iff in E. lra. }
  assert (E2 : Qle_bool x (- 2 ^ 1024) = false).
  { destruct (Qle_bool x (- 2 ^ 1024)) eqn:E; [| reflexivity ].
    apply Qle_bool_iff in E. lra. }
  rewrite E1, E2. cbn [B64.floor]. exists (Qfloor x). split; [| reflexivity ].
  split.
  - rewrite <- (Qfloor_Z 0). apply Qfloor_resp_le. exact Hx0.
  - rewrite Zlt_Qlt. eapply Qle_lt_trans; [ apply Qfloor_le | exact Hx1 ].
Qed.

(** Sums and differences of integers below [2^53] in magnitude are exact. *)
Lemma add_int (a b : Z) :
  Z.abs (a + b) < 2 ^ 53 ->
  (Fin (inject_Z a) + Fin (inject_Z b))%num = Fin (inject_Z (a + b)).
Proof.
  intros H. cbn [B64.add]. apply of_Q_int; [| exact H ].
  rewrite inject_Z_plus. reflexivity.
Qed.

Lemma sub_int (a b : Z) :
  Z.abs (a - b) < 2 ^ 53 ->
  (Fin (inject_Z a) - Fin (inject_Z b))%num = Fin (inject_Z (a - b)).
Proof.
  intros H. unfold B64.sub. cbn [B64.neg B64.add]. apply of_Q_int; [| exact H ].
  rewrite Qred_correct. unfold Z.sub. rewrite inject_Z_plus, inject_Z_opp.
  reflexivity.
Qed.

End Floats.

(* ------------------------------------------------------------------ *)
(** ** Random data (helpers/common.js)                                 *)
(* ------------------------------------------------------------------ *)

Section Random.
Context {RT : Runtime}.




Lemma append_length (a b : string) :
  String.length (a ++ b) = (String.length a + String.length b)%nat.
Proof. induction a as [| c a IH]; simpl; [| rewrite IH ]; reflexivity. Qed.


(** An element of an array is found under the key of its index. *)
Lemma index_of_key_nth (n k : nat) (l : list Value) (i : nat) :
  sound_indices n = true -> (i <= k)%nat -> (k < i + List.length l)%nat ->
  (i + List.length l <= n)%nat ->
  index_of_key (index_key k) l i = Some (nth (k - i) l VUndefined).
Proof.
  intros Hs. revert i. induction l as [| x l IH]; intros i Hik Hk Hn.
  - simpl in Hk. lia.
  - cbn [index_of_key]. fold (index_key i).
    destruct (String.eqb_spec (index_key k) (index_key i)) as [E | E].
    + unfold sound_indices in Hs. rewrite forallb_forall in Hs.
      assert (Hkn : In k (seq 0 n)) by (apply in_seq; simpl in *; lia).
      specialize (Hs k Hkn). apply andb_prop in Hs as [_ Hs].
      rewrite forallb_forall in Hs.
      assert (Hi : In i (seq 0 n)) by (apply in_seq; simpl in *; lia).
      specialize (Hs i Hi). rewrite E, String.eqb_refl in Hs. simpl in Hs.
      apply Nat.eqb_eq in Hs. subst k. rewrite Nat.sub_diag. reflexivity.
    + assert (Hne : k <> i) by (intros ->; apply E; reflexivity).
      rewrite (IH (S i)) by (simpl in *; lia).
      replace (k - i)%nat with (S (k - S i)) by lia. reflexivity.
Qed.

Lemma array_index (l : list Value) (k : nat) :
  sound_indices (List.length l) = true -> (k < List.length l)%nat ->
  prop (VArr l) (index_key k) = nth k l VUndefined.
Proof.
  intros Hs Hk. unfold prop. cbn [own_property].
  assert (Hlen : String.eqb (index_key k) "length" = false).
  { unfold sound_indices in Hs. rewrite forallb_forall in Hs.
    assert (Hkn : In k (seq 0 (List.length l))) by (apply in_seq; lia).
    specialize (Hs k Hkn). apply andb_prop in Hs as [Hs _].
    apply negb_true_iff in Hs. exact Hs. }
  rewrite Hlen.
  rewrite (index_of_key_nth (List.length l) k l 0 Hs) by lia.
  rewrite Nat.sub_0_r. reflexivity.
Qed.

Hypothesis fair : forall i, unit_draw (math_random i) = true.

(** What [randomInt] computes on integers: an integer of the range, out
    of one draw. *)
Lemma randomInt_run (a b : Z) (t : Ticks) :
  a <= b -> Z.abs a < 2 ^ 53 -> Z.abs b < 2 ^ 53 -> b - a + 1 < 2 ^ 53 ->
  exists k, a <= k <= b
    /\ Common.randomInt (Fin (inject_Z a)) (Fin (inject_Z b)) t
       = (Ok (Fin (inject_Z k)), advance 1 t, []).
Proof.
  intros Hab Ha Hb Hn.
  unfold Common.randomInt, bind, Math_random, ret.
  rewrite (sub_int b a) by lia.
  change (Fin 1) with (Fin (inject_Z 1)). rewrite (add_int (b - a) 1) by lia.
  destruct (scaled_draw _ (b - a + 1) (fair (n_rand t)) ltac:(lia)) as (k & Hk & ->).
  rewrite (add_int k a) by lia.
  exists (k + a). split; [ lia | reflexivity ].
Qed.



(** What [randomItem] returns on an array that is not empty: the element
    at an index below the length, out of one draw. *)
Lemma randomItem_run (l : list Value) (t : Ticks) :
  l <> [] -> Z.of_nat (List.length l) < 2 ^ 53 ->
  sound_indices (List.length l) = true ->
  exists k, (k < List.length l)%nat
    /\ Common.randomItem (VArr l) t = (Ok (nth k l VUndefined), advance 1 t, []).
Proof.
  intros Hne Hlen Hs.
  assert (Hpos : 1 <= Z.of_nat (List.length l)).
  { destruct l; [ contradiction | simpl; lia ]. }
  unfold Common.randomItem, bind, Math_random, lift, ret.
  cbn [get_prop nullish own_property prop String.eqb Ascii.eqb Bool.eqb
       to_number fst snd].
  unfold VInt at 1. cbn [to_number].
  destruct (scaled_draw _ _ (fair (n_rand t)) (conj Hpos Hlen)) as (k & Hk & ->).
  exists (Z.to_nat k). split; [ lia |].
  rewrite <- (array_index l (Z.to_nat k) Hs) by lia.
  unfold index_key. rewrite Z2Nat.id by lia. reflexivity.
Qed.

(** The think time: a second and up to two thousand milliseconds more,
    out of one draw. *)
Lemma thinkTime_run_ms (t : Ticks) :
  exists k, 0 <= k <= 2000
    /\ Common.thinkTime t
       = (Ok (Fin (inject_Z (1000 + k)) / Fin (inject_Z 1000))%num, advance 1 t, []).
Proof.
  unfold Common.thinkTime, Common.sleepWithJitter.
  assert (E1 : B64.of_Z 1000 = Fin (inject_Z 1000)) by (vm_compute; reflexivity).
  assert (E2 : B64.of_Z 2000 = Fin (inject_Z 2000)) by (vm_compute; reflexivity).
  rewrite E2.
  assert (E3 : (Fin 0 <? Fin (inject_Z 2000))%num = true) by reflexivity.
  rewrite E3. change (Fin 0) with (Fin (inject_Z 0)).
  destruct (randomInt_run 0 2000 t) as (k & Hk & Hrun); [ lia | lia | lia | lia |].
  unfold bind. rewrite Hrun. unfold ret.
  rewrite E1, (add_int 1000 k) by lia.
  exists k. split; [ exact Hk | reflexivity ].
Qed.

(** A property of the milliseconds that holds of each of the 2001 values. *)
Lemma each_ms (P : Z -> bool) :
  forallb (fun i => P (Z.of_nat i)) (seq 0 2001) = true ->
  forall k, 0 <= k <= 2000 -> P k = true.
Proof.
  intros H k Hk. rewrite forallb_forall in H. specialize (H (Z.to_nat k)).
  rewrite Z2Nat.id in H by lia. apply H. apply in_seq. lia.
Qed.

End Random.

(* ------------------------------------------------------------------ *)
(** ** Property lists                                                  *)
(* ------------------------------------------------------------------ *)

Section PropertyLists.
Context {A : Type}.

Lemma assoc_set_prop (k k' : string) (x : A) (l : list (string * A)) :
  assoc k (set_prop k' x l) = if String.eqb k k' then Some x else assoc k l.
Proof.
  induction l as [| [k0 y] tl IH]; [ reflexivity |].
  cbn [set_prop]. destruct (String.eqb_spec k' k0) as [<- | Hn]; cbn [assoc].
  - destruct (String.eqb k k'); reflexivity.
  - rewrite IH. destruct (String.eqb_spec k k0) as [-> | _]; [| reflexivity ].
    destruct (String.eqb_spec k0 k') as [E | _]; [| reflexivity ].
    exfalso. apply Hn. symmetry. exact E.
Qed.

Lemma assoc_app (k : string) (l1 l2 : list (string * A)) :
  assoc k (l1 ++ l2)
  = match assoc k l1 with Some x => Some x | None => assoc k l2 end.
Proof.
  induction l1 as [| [k0 y] tl IH]; [ reflexivity |].
  cbn [app assoc]. destruct (String.eqb k k0); [ reflexivity | exact IH ].
Qed.

Lemma assoc_none (k : string) (l : list (string * A)) :
  assoc k l = None <-> ~ In k (map fst l).
Proof.
  induction l as [| [k0 y] tl IH]; [ simpl; tauto |].
  cbn [assoc map fst In]. destruct (String.eqb_spec k k0) as [-> | Hn].
  - split; [ discriminate | intros H; exfalso; apply H; left; reflexivity ].
  - rewrite IH. split; [ intros H [E | H']; [ apply Hn; symmetry; exact E | tauto ] | tauto ].
Qed.

(** In a list that names each key once, the last entry of a key is the
    first. *)
Lemma assoc_rev (k : string) (l : list (string * A)) :
  NoDup (map fst l) -> assoc k (rev l) = assoc k l.
Proof.
  induction l as [| [k0 y] tl IH]; [ reflexivity |].
  cbn [map fst rev]. intros Hd. inversion Hd as [| ? ? Hnin Hd']; subst.
  rewrite assoc_app, (IH Hd'). cbn [assoc].
  destruct (String.eqb_spec k k0) as [-> | _].
  - apply assoc_none in Hnin. rewrite Hnin. reflexivity.
  - destruct (assoc k tl); reflexivity.
Qed.

Lemma set_prop_length (k : string) (x : A) (l : list (string * A)) :
  List.length (set_prop k x l)
  = match assoc k l with Some _ => List.length l | None => S (List.length l) end.
Proof.
  induction l as [| [k0 y] tl IH]; [ reflexivity |].
  cbn [set_prop assoc]. destruct (String.eqb k k0); [ reflexivity |].
  cbn [List.length]. rewrite IH. destruct (assoc k tl); reflexivity.
Qed.

End PropertyLists.

Section Spread.
Context {RT : Runtime}.

(** A spread sets the properties in order: the last entry of a key wins,
    and a key the spread value does not name keeps what the base has. *)
Lemma assoc_fold_set_prop (k : string) (entries base : list (string * Value)) :
  assoc k (fold_left (fun acc kv => set_prop (fst kv) (snd kv) acc) entries base)
  = match assoc k (rev entries) with
    | Some x => Some x
    | None => assoc k base
    end.
Proof.
  revert base. induction entries as [| [k0 y] tl IH]; intros base; [ reflexivity |].
  cbn [fold_left fst snd rev]. rewrite IH, assoc_app, assoc_set_prop.
  cbn [assoc]. destruct (assoc k (rev tl)); [ reflexivity |].
  destruct (String.eqb k k0); reflexivity.
Qed.

Lemma assoc_spread (k : string) (v : Value) (base : list (string * Value)) :
  assoc k (spread v base)
  = match assoc k (rev (own_entries v)) with
    | Some x => Some x
    | None => assoc k base
    end.
Proof. apply assoc_fold_set_prop. Qed.

End Spread.

(* ------------------------------------------------------------------ *)
(** ** Environment (config/env.js)                                     *)
(* ------------------------------------------------------------------ *)

Section Environment.
Context {RT : Runtime}.

(** X1.  The active host.  Without [HOST], or with an empty one, it is
    the DEV host; with the name of a host of [HOSTS] it is that host; with
    any other text (that the object [HOSTS] inherits nothing for) it is
    the text itself, so a full URL can be given, and [getUrl] appends the
    path to it. *)
Theorem current_host_resolution :
  (ENV "HOST" = None \/ ENV "HOST" = Some "" ->
   Env.CURRENT_HOST = VStr "https://api-dev.example.com")
  /\ (forall name v,
         ENV "HOST" = Some name -> own_property Env.HOSTS name = Some v ->
         Env.CURRENT_HOST = v)
  /\ (forall h,
         ENV "HOST" = Some h -> h <> "" -> own_property Env.HOSTS h = None ->
         inherited Env.HOSTS h = VUndefined ->
         Env.CURRENT_HOST = VStr h
         /\ forall path, Common.getUrl path = h ++ path).
Proof.
  split; [| split ].
  - intros [E | E]; unfold Env.CURRENT_HOST, Env.env; rewrite E; reflexivity.
  - intros name v E Hown. unfold Env.CURRENT_HOST, Env.env. rewrite E.
    cbn [to_string]. unfold prop. rewrite Hown.
    revert Hown. cbn [own_property Env.HOSTS assoc].
    destruct (String.eqb_spec name "PROD") as [-> | _];
      [ intros Hown; injection Hown as <-; reflexivity |].
    destruct (String.eqb_spec name "DEV") as [-> | _];
      [ intros Hown; injection Hown as <-; reflexivity |].
    destruct (String.eqb_spec name "STAGING") as [-> | _];
      [ intros Hown; injection Hown as <-; reflexivity |].
    destruct (String.eqb_spec name "LOCAL") as [-> | _];
      [ intros Hown; injection Hown as <-; reflexivity |].
    intros Hown. discriminate Hown.
  - intros h E Hne Hown Hin.
    assert (Hh : Env.CURRENT_HOST = VStr h).
    { unfold Env.CURRENT_HOST, Env.env. rewrite E. cbn [to_string truthy].
      destruct (String.eqb_spec h "") as [-> | _]; [ contradiction |].
      cbn [negb]. unfold prop. rewrite Hown, Hin. reflexivity. }
    split; [ exact Hh |].
    intros path. unfold Common.getUrl. rewrite Hh. reflexivity.
Qed.

(** X2.  The load profile.  [getProfile] never returns a falsy value:
    without [PROFILE], or with an empty one, it returns the LIGHT
    profile, ten virtual users for sixty seconds.  With a name that is
    no profile it returns what the object [LOAD_PROFILES] inherits under
    that name when that is truthy (a built-in function for [toString] or
    [constructor], no profile), and the LIGHT profile when it inherits
    nothing truthy under it. *)
Theorem getProfile_falls_back_to_light :
  truthy Env.getProfile = true
  /\ Env.DEFAULT_PROFILE
     = VObj [ ("vus", VInt 10); ("duration", VStr "60s");
              ("description", VStr "Daily CI/CD, quick validation") ]
  /\ (ENV "PROFILE" = None \/ ENV "PROFILE" = Some "" ->
      Env.getProfile = Env.DEFAULT_PROFILE)
  /\ (forall name,
         ENV "PROFILE" = Some name -> name <> "" -> ~ In name valid_profiles ->
         Env.getProfile
         = if truthy (inherited Env.LOAD_PROFILES name)
           then inherited Env.LOAD_PROFILES name
           else Env.DEFAULT_PROFILE).
Proof.
  split; [| split; [ reflexivity | split ] ].
  - unfold Env.getProfile, js_or.
    destruct (truthy (prop Env.LOAD_PROFILES _)) eqn:E; [ exact E | reflexivity ].
  - intros [E | E]; unfold Env.getProfile, Env.env; rewrite E; reflexivity.
  - intros name E Hne Hn. unfold Env.getProfile, Env.env. rewrite E.
    assert (Ht : truthy (VStr name) = true).
    { cbn [truthy]. destruct (String.eqb_spec name ""); [ contradiction | reflexivity ]. }
    unfold js_or at 2. rewrite Ht. cbn [to_string].
    assert (Hown : own_property Env.LOAD_PROFILES name = None).
    { cbn [own_property Env.LOAD_PROFILES assoc].
      destruct (String.eqb_spec name "SMOKE") as [-> | _];
        [ exfalso; apply Hn; simpl; tauto |].
      destruct (String.eqb_spec name "LIGHT") as [-> | _];
        [ exfalso; apply Hn; simpl; tauto |].
      destruct (String.eqb_spec name "MEDIUM") as [-> | _];
        [ exfalso; apply Hn; simpl; tauto |].
      destruct (String.eqb_spec name "HEAVY") as [-> | _];
        [ exfalso; apply Hn; simpl; tauto |].
      reflexivity. }
    unfold prop at 1. rewrite Hown. reflexivity.
Qed.

End Environment.

(* ------------------------------------------------------------------ *)
(** ** Custom thresholds (config/slo.js)                               *)
(* ------------------------------------------------------------------ *)

Section CustomThresholds.
Context {RT : Runtime}.

Lemma last_char_append (a b : string) :
  b <> "" -> last_char (a ++ b) = last_char b.
Proof.
  intros Hb. induction a as [| c a IH]; [ reflexivity |].
  cbn [append last_char]. rewrite IH.
  destruct (a ++ b) eqn:E; [| reflexivity ].
  destruct a; [ cbn in E; contradiction | discriminate E ].
Qed.

Lemma append_cancel_r (a b c : string) : a ++ c = b ++ c -> a = b.
Proof.
  intros E.
  assert (Hlen : String.length a = String.length b).
  { apply (f_equal String.length) in E. rewrite !append_length in E. lia. }
  revert b E Hlen. induction a as [| x a IH]; intros [| y b] E Hlen;
    try discriminate Hlen; [ reflexivity |].
  cbn [append] in E. injection E as -> E. f_equal. apply IH; [ exact E |].
  simpl in Hlen. lia.
Qed.

(** X3.  [generateCustomThresholds] extends the generated object by one
    key, [<prefix>_duration], which carries the two duration bounds of
    [http_req_duration]; every other key reads as in the object
    [generateThresholds] returns.  The object has four keys, or three when
    the prefix is [http_req] and the new key falls on an old one. *)
Theorem custom_thresholds_extend (slo : Slo.EndpointSLO) (prefix : string) :
  assoc (prefix ++ "_duration") (Slo.generateCustomThresholds slo prefix)
  = assoc "http_req_duration" (Slo.generateThresholds slo)
  /\ (forall k, k <> prefix ++ "_duration" ->
                assoc k (Slo.generateCustomThresholds slo prefix)
                = assoc k (Slo.generateThresholds slo))
  /\ List.length (Slo.generateCustomThresholds slo prefix)
     = (if String.eqb prefix "http_req" then 3 else 4)%nat.
Proof.
  unfold Slo.generateCustomThresholds. split; [| split ].
  - rewrite assoc_set_prop, String.eqb_refl. reflexivity.
  - intros k Hk. rewrite assoc_set_prop.
    destruct (String.eqb_spec k (prefix ++ "_duration")); [ contradiction | reflexivity ].
  - rewrite set_prop_length.
    destruct (String.eqb_spec prefix "http_req") as [-> | Hn]; [ reflexivity |].
    assert (Hk : assoc (prefix ++ "_duration") (Slo.generateThresholds slo) = None).
    { apply assoc_none. cbn [Slo.generateThresholds map fst In].
      intros [E | [E | [E | []]]].
      - apply Hn. symmetry. apply (append_cancel_r _ _ "_duration"). exact E.
      - apply (f_equal last_char) in E.
        rewrite last_char_append in E by discriminate. discriminate E.
      - apply (f_equal last_char) in E.
        rewrite last_char_append in E by discriminate. discriminate E. }
    rewrite Hk. reflexivity.
Qed.

End CustomThresholds.

(* ------------------------------------------------------------------ *)
(** ** Headers, payloads and validators (helpers/common.js)            *)
(* ------------------------------------------------------------------ *)

Section CommonHelpers.
Context {RT : Runtime}.

Lemma assoc_map_VStr (k : string) (l : list (string * string)) :
  assoc k (map (fun h => (fst h, VStr (snd h))) l) = option_map VStr (assoc k l).
Proof.
  induction l as [| [k0 y] tl IH]; [ reflexivity |].
  cbn [map assoc fst snd]. destruct (String.eqb k k0); [ reflexivity | exact IH ].
Qed.

Lemma assoc_rev_none (k : string) (l : list (string * Value)) :
  assoc k l = None -> assoc k (rev l) = None.
Proof.
  rewrite !assoc_none, map_rev. intros H Hin. apply H. apply in_rev. exact Hin.
Qed.

(** X4.  [getCustomHeaders] merges the custom headers over the headers of
    the role: a header the custom object names reads as the custom object
    has it (the Authorization header included), every other header as
    [getHeaders] sets it, and without custom headers the result is the
    three headers of the role. *)
Theorem custom_headers_override
        (role : string) (customHeaders : Value) (k : string) :
  (forall props v,
      customHeaders = VObj props -> NoDup (map fst props) ->
      assoc k props = Some v ->
      assoc k (Common.getCustomHeaders role customHeaders) = Some v)
  /\ (assoc k (own_entries customHeaders) = None ->
      assoc k (Common.getCustomHeaders role customHeaders)
      = option_map VStr (assoc k (Common.getHeaders role)))
  /\ Common.getCustomHeaders role VUndefined
     = map (fun h => (fst h, VStr (snd h))) (Common.getHeaders role).
Proof.
  split; [| split ].
  - intros props v -> Hd Hk. unfold Common.getCustomHeaders. cbn [default_param].
    rewrite assoc_spread. cbn [own_entries]. rewrite (assoc_rev k props Hd), Hk.
    reflexivity.
  - intros Hk. unfold Common.getCustomHeaders. rewrite assoc_spread.
    assert (Hk' : assoc k (own_entries (default_param customHeaders (VObj [])))
                  = None).
    { destruct customHeaders; try exact Hk; reflexivity. }
    rewrite (assoc_rev_none _ _ Hk'). apply assoc_map_VStr.
  - reflexivity.
Qed.

(** X5.  [listPayload], on options other than [null], sets each of
    [pageNumber], [pageSize], [search], [sort] and [filters] to the value
    the options have under that name when that value is truthy, and to
    its default otherwise: 1, 50, [null], [null] and an empty object.  So
    a page number or a page size of zero is replaced too, and
    [pageNumber], [pageSize] and [filters] are never falsy.  Called
    without options (on an engine whose plain objects inherit nothing
    truthy under the five names) it returns the five defaults; called
    with [null] it throws. *)
Theorem listPayload_defaults (options : Value) :
  options <> VNull ->
  let o := default_param options (VObj []) in
  let field (k : string) (d : Value) : string * Value :=
    (k, if truthy (prop o k) then prop o k else d) in
  Common.listPayload options
  = Ok (VObj [ field "pageNumber" (VInt 1); field "pageSize" (VInt 50);
               field "search" VNull; field "sort" VNull;
               field "filters" (VObj []) ])
  /\ truthy (snd (field "pageNumber" (VInt 1))) = true
  /\ truthy (snd (field "pageSize" (VInt 50))) = true
  /\ truthy (snd (field "filters" (VObj []))) = true
  /\ (forall k v d, own_property options k = Some v ->
                    field k d = (k, if truthy v then v else d))
  /\ (inherits_none [ "pageNumber"; "pageSize"; "search"; "sort"; "filters" ] = true ->
      Common.listPayload VUndefined
      = Ok (VObj [ ("pageNumber", VInt 1); ("pageSize", VInt 50);
                   ("search", VNull); ("sort", VNull); ("filters", VObj []) ]))
  /\ (exists e, Common.listPayload VNull = Throw e).
Proof.
  intros Hn. cbv zeta.
  assert (Hor : forall a d, truthy d = true ->
                            truthy (if truthy a then a else d) = true).
  { intros a d Hd. destruct (truthy a) eqn:E; assumption. }
  assert (Hown : forall o k n,
             own_property o k = Some n ->
             own_property (default_param o (VObj [])) k = Some n).
  { intros o k n H. destruct o; exact H. }
  split; [| split; [| split; [| split; [| split; [| split ] ] ] ] ].
  - unfold Common.listPayload. cbv zeta.
    assert (Hg : get_prop (default_param options (VObj [])) "pageNumber"
                 = Ok (prop (default_param options (VObj [])) "pageNumber")).
    { destruct options; try reflexivity. contradiction. }
    rewrite Hg. reflexivity.
  - apply Hor. reflexivity.
  - apply Hor. reflexivity.
  - apply Hor. reflexivity.
  - intros k v d H. unfold prop. rewrite (Hown _ _ _ H). reflexivity.
  - intros Hi. unfold inherits_none in Hi. cbn [forallb] in Hi.
    apply andb_prop in Hi as [H1 Hi]. apply andb_prop in Hi as [H2 Hi].
    apply andb_prop in Hi as [H3 Hi]. apply andb_prop in Hi as [H4 Hi].
    apply andb_prop in Hi as [H5 _].
    apply negb_true_iff in H1, H2, H3, H4, H5.
    unfold Common.listPayload, get_prop. cbn [default_param nullish].
    assert (Hp : forall k, prop (VObj []) k = inherited (VObj []) k) by reflexivity.
    unfold js_or. rewrite !Hp, H1, H2, H3, H4, H5. reflexivity.
  - eexists. reflexivity.
Qed.

Lemma Qle_bool_inject_Z (a b : Z) : Qle_bool (inject_Z a) (inject_Z b) = (a <=? b).
Proof. unfold Qle_bool, inject_Z. cbn [Qnum Qden]. rewrite !Z.mul_1_r. reflexivity. Qed.

(** X6.  The two response validators of the helpers never throw, whatever
    the data: [isValidListResponse] holds exactly of a value, neither
    [null] nor [undefined], whose [items] is an array, and
    [hasValidItemCount] exactly when that array has at least one and at
    most [maxItems] elements, fifty when no maximum is given. *)
Theorem list_validators_decide (data : Value) (maxItems : Z) :
  (exists b,
      Common.isValidListResponse data = Ok b
      /\ (b = true <-> nullish data = false /\ isArray (prop data "items") = true))
  /\ (exists b,
         Common.hasValidItemCount data (VInt maxItems) = Ok b
         /\ (b = true <->
             exists items,
               nullish data = false /\ prop data "items" = VArr items
               /\ 1 <= Z.of_nat (List.length items) <= maxItems))
  /\ Common.hasValidItemCount data VUndefined
     = Common.hasValidItemCount data (VInt 50).
Proof.
  assert (Hv : Common.isValidListResponse data
               = Ok (negb (nullish data) && isArray (prop data "items"))).
  { unfold Common.isValidListResponse, get_prop.
    destruct data; cbn [strict_eq nullish negb andb]; try reflexivity;
      destruct (prop _ "items"); reflexivity. }
  split; [| split ].
  - eexists. split; [ exact Hv |].
    rewrite andb_true_iff, negb_true_iff. tauto.
  - unfold Common.hasValidItemCount. cbv zeta. rewrite Hv.
    cbn [default_param VInt to_number].
    destruct (nullish data) eqn:En; cbn [negb andb].
    { exists false. split; [ reflexivity |].
      split; [ discriminate | intros (items & H & _); discriminate H ]. }
    destruct (prop data "items") eqn:Ei; cbn [isArray];
      try (exists false; split; [ reflexivity |];
           split; [ discriminate | intros (l & _ & H & _); discriminate H ]).
    eexists. split; [ reflexivity |].
    unfold prop at 1 2. cbn [own_property String.eqb Ascii.eqb Bool.eqb].
    cbn [VInt to_number B64.ltb B64.leb].
    change 0%Q with (inject_Z 0). rewrite !Qle_bool_inject_Z.
    rewrite andb_true_iff, negb_true_iff, Z.leb_gt, Z.leb_le.
    split.
    + intros [H1 H2]. exists items. repeat split; try reflexivity; lia.
    + intros (l & _ & E & H). injection E as <-. lia.
  - reflexivity.
Qed.

Lemma substring_0_length (n : nat) (s : string) :
  (String.length (substring 0 n s) <= n)%nat.
Proof.
  revert s. induction n as [| n IH]; intros [| c s]; cbn [substring String.length];
    try lia. specialize (IH s). lia.
Qed.

Lemma substring_0_prefix (n : nat) (s : string) :
  prefix (substring 0 n s) s = true.
Proof.
  revert s. induction n as [| n IH]; intros [| c s]; cbn [substring prefix];
    try reflexivity.
  destruct (ascii_dec c c) as [_ | Hn]; [ apply IH | contradiction ].
Qed.

(** X7.  [logRequestError] writes one error line and nothing else: the
    context, the status and an excerpt of the body, which is the first
    200 characters of the body, or ['No body'] when the response has no
    body or an empty one. *)
Theorem logRequestError_excerpt
        (context : string) (response : Response) (t : Ticks) :
  exists excerpt,
    Common.logRequestError context response t
    = (Ok tt, t,
       [ EConsole "error"
           [ "ERROR [" ++ context ++ "]: Request failed with status "
             ++ to_string (VInt (status response)) ++ ": " ++ excerpt ] ])
    /\ (String.length excerpt <= 200)%nat
    /\ match body response with
       | None | Some "" => excerpt = "No body"
       | Some b => excerpt = substring 0 200 b /\ prefix excerpt b = true
       end.
Proof.
  unfold Common.logRequestError, Common.logError, console_error, emit.
  destruct (body response) as [[| c b] |].
  - exists "No body". repeat split. cbn. lia.
  - exists (substring 0 200 (String c b)). split; [ reflexivity |].
    split; [ apply substring_0_length |].
    split; [ reflexivity | apply substring_0_prefix ].
  - exists "No body". repeat split. cbn. lia.
Qed.

End CommonHelpers.

(* ------------------------------------------------------------------ *)
(** ** The thresholds of the runner (run-all.js)                       *)
(* ------------------------------------------------------------------ *)

Section RunnerThresholds.
Context {RT : Runtime}.

(** X8.  Every scenario of the runner is covered by its thresholds: the
    [test_type] tag of each scenario has a tagged duration threshold, its
    [operation] tag a tagged failure threshold, and the duration bounds
    written for the three test types are the ones
    [generateScenarioThresholds] derives from the SLO of the endpoint. *)
Theorem scenario_tags_have_thresholds :
  Forall (fun ns =>
            exists ty op,
              assoc "test_type" (RunAll.tags (snd ns)) = Some ty
              /\ assoc "operation" (RunAll.tags (snd ns)) = Some op
              /\ assoc (tagged "http_req_duration" ty) RunAll.thresholds <> None
              /\ assoc ("http_req_failed{operation:" ++ op ++ "}")
                       RunAll.thresholds <> None)
         RunAll.scenarios
  /\ Forall (fun ts =>
               assoc (tagged "http_req_duration" (fst ts)) RunAll.thresholds
               = assoc (tagged "http_req_duration" (fst ts))
                       (Slo.generateScenarioThresholds (snd ts) (fst ts)))
            [ ("get-list", Slo.ENDPOINT_SLO_products_list);
              ("get-details", Slo.ENDPOINT_SLO_products_details);
              ("create", Slo.ENDPOINT_SLO_users_create) ].
Proof.
  split.
  - repeat constructor;
      (eexists _, _; split; [ reflexivity |]; split; [ reflexivity |];
       split; discriminate).
  - repeat constructor.
Qed.

End RunnerThresholds.

Section RandomData.
Context {RT : Runtime}.
Hypothesis fair : forall i, unit_draw (math_random i) = true.

(** X9.  [randomInt(min, max)], on integers [min <= max], returns an
    integer between [min] and [max], both included, out of one draw of
    [Math.random()] and without any other effect. *)
Theorem randomInt_in_range (min max : Z) (t : Ticks) :
  min <= max -> Z.abs min < 2 ^ 53 -> Z.abs max < 2 ^ 53 ->
  max - min + 1 < 2 ^ 53 ->
  exists n,
    Common.randomInt (Fin (inject_Z min)) (Fin (inject_Z max)) t
    = (Ok n, advance 1 t, [])
    /\ B64.floor n = n
    /\ (Fin (inject_Z min) <=? n)%num = true
    /\ (n <=? Fin (inject_Z max))%num = true.
Proof.
  intros Hmm Hmin Hmax Hn.
  destruct (randomInt_run fair min max t Hmm Hmin Hmax Hn) as (k & Hk & Hrun).
  exists (Fin (inject_Z k)). split; [ exact Hrun |].
  cbn [B64.floor B64.leb]. rewrite Qfloor_Z, !Qle_bool_inject_Z.
  repeat split; lia.
Qed.


(** X11.  [randomItem(array)], on an array that is not empty, returns
    one of the elements of the array, out of one draw. *)
Theorem randomItem_member (array : list Value) (t : Ticks) :
  array <> [] -> Z.of_nat (List.length array) < 2 ^ 53 ->
  sound_indices (List.length array) = true ->
  exists item,
    In item array
    /\ Common.randomItem (VArr array) t = (Ok item, advance 1 t, []).
Proof.
  intros Hne Hlen Hs.
  destruct (randomItem_run fair array t Hne Hlen Hs) as (k & Hk & Hrun).
  exists (nth k array VUndefined). split; [ apply nth_In; exact Hk | exact Hrun ].
Qed.

(** X12.  [thinkTime()] returns between one and three seconds, out of one
    draw; [sleepWithJitter] with a jitter that is not positive draws
    nothing and returns the base time in seconds. *)
Theorem thinkTime_between_one_and_three (t : Ticks) :
  (exists seconds,
      Common.thinkTime t = (Ok seconds, advance 1 t, [])
      /\ (Fin 1 <=? seconds)%num = true /\ (seconds <=? Fin 3)%num = true)
  /\ (forall baseMs jitterMs,
         (Fin 0 <? jitterMs)%num = false ->
         Common.sleepWithJitter baseMs jitterMs t
         = (Ok ((baseMs + Fin 0) / B64.of_Z 1000)%num, t, [])).
Proof.
  split.
  - destruct (thinkTime_run_ms fair t) as (k & Hk & Hrun).
    eexists. split; [ exact Hrun |].
    pose proof (each_ms
                  (fun k => let s := (Fin (inject_Z (1000 + k))
                                      / Fin (inject_Z 1000))%num in
                            (Fin 1 <=? s)%num && (s <=? Fin 3)%num)
                  ltac:(vm_compute; reflexivity) k Hk) as H.
    cbv beta zeta in H. apply andb_prop in H. exact H.
  - intros baseMs jitterMs Hj. unfold Common.sleepWithJitter. rewrite Hj.
    reflexivity.
Qed.


End RandomData.

Section UserPayload.
Context {RT : Runtime}.

Lemma silent_run {A : Type} (m : M A) (t : Ticks) :
  quiet (fun _ => false) m -> exists a t', m t = (Ok a, t', []).
Proof.
  intros H. destruct (H t) as (a & t' & e & E & He). exists a, t'.
  destruct e; [ exact E | discriminate He ].
Qed.

(** X14.  [createUserPayload(overrides)] always sets [name], [email] and
    [role], and every property of the overrides reads in the payload as
    the overrides have it, a falsy one included.  It records nothing,
    and called with [null] it throws. *)
Theorem createUserPayload_overrides_win (overrides : Value) (t : Ticks) :
  overrides <> VNull ->
  (exists payload t',
      Common.createUserPayload overrides t = (Ok (VObj payload), t', [])
      /\ assoc "name" payload <> None /\ assoc "email" payload <> None
      /\ assoc "role" payload <> None
      /\ (forall props k v,
             overrides = VObj props -> NoDup (map fst props) ->
             assoc k props = Some v -> assoc k payload = Some v))
  /\ (exists e t', Common.createUserPayload VNull t = (Throw e, t', [])).
Proof.
  intros Hn. split; [| eexists _, _; reflexivity ].
  unfold Common.createUserPayload. cbv zeta.
  set (o := default_param overrides (VObj [])).
  assert (Hg : get_prop o "name" = Ok (prop o "name")).
  { unfold o. destruct overrides; try reflexivity. contradiction. }
  rewrite Hg. unfold bind at 1. unfold lift at 1.
  assert (Hname : exists name t1,
             (if truthy (prop o "name") then ret (prop o "name")
              else s <- Common.randomString 5 ;; ret (VStr ("Test User " ++ s))) t
             = (Ok name, t1, [])).
  { apply silent_run. quiet_auto. }
  destruct Hname as (name & t1 & Hname).
  assert (Hemail : exists email t2,
             (if truthy (prop o "email") then ret (prop o "email")
              else s <- Common.randomEmail ;; ret (VStr s)) t1
             = (Ok email, t2, [])).
  { apply silent_run. quiet_auto. }
  destruct Hemail as (email & t2 & Hemail).
  unfold bind at 1. rewrite Hname.
  unfold bind at 1. rewrite Hemail. unfold ret at 1.
  eexists _, _. split; [ reflexivity |].
  assert (Hkey : forall k,
             In k [ "name"; "email"; "role" ] ->
             assoc k (spread o [ ("name", name); ("email", email);
                                 ("role", js_or (prop o "role") (VStr "USER")) ])
             <> None).
  { intros k Hk. rewrite assoc_spread.
    destruct (assoc k (rev (own_entries o))); [ discriminate |].
    simpl in Hk. destruct Hk as [<- | [<- | [<- | []]]]; discriminate. }
  split; [ apply Hkey; simpl; tauto |].
  split; [ apply Hkey; simpl; tauto |].
  split; [ apply Hkey; simpl; tauto |].
  intros props k v -> Hd Hk. rewrite assoc_spread. unfold o.
  cbn [default_param own_entries]. rewrite (assoc_rev k props Hd), Hk.
  reflexivity.
Qed.

End UserPayload.

(* ------------------------------------------------------------------ *)
(** ** Request wrappers and response helpers (utils/http-utils.js)     *)
(* ------------------------------------------------------------------ *)

Section Wrappers.
Context {RT : Runtime}.

(** What a wrapper does with the response of its request. *)
Lemma wrapper_run (req : Request) (context : string) (t : Ticks) :
  let res := http_send (n_http t) req in
  let run := (res <- http_request req ;;
              HttpUtils.log_if_error context res ;;
              ret res) t in
  result_of run = Ok res
  /\ requests (events_of run) = [ req ]
  /\ exchanges (events_of run) = [ (req, res) ]
  /\ console_lines "log" (events_of run) = []
  /\ List.length (console_lines "error" (events_of run))
     = (if status res >=? 400 then 1 else 0)%nat.
Proof.
  unfold HttpUtils.log_if_error, Common.logRequestError, Common.logError,
    console_error, bind, http_request, emit, ret.
  cbv zeta.
  destruct (status (http_send (n_http t) req) >=? 400); repeat split.
Qed.

(** X15.  The six request wrappers, called without the [options]
    argument (as every call in the repository calls them), never throw on
    an error status: each sends exactly one request, with its method, the
    URL of the path and the headers of the role; POST, PUT, PATCH and
    DELETE with a body send what [JSON.stringify] makes of the payload,
    which is its JSON text, and no body at all when the payload is
    [undefined] or a function.  The wrapper returns the response of the
    server whatever its status, and writes one error line exactly when
    the status is 400 or more (so not for the status 0 of a failed
    connection). *)
Theorem wrappers_return_every_response
        (path : string) (payload : Value) (role context : string) (t : Ticks) :
  let sent (verb : string) (content : option string) : Request :=
    {| method := verb; url := Common.getUrl path;
       headers := Common.getHeaders role; req_body := content |} in
  let outcome (run : M Response) (req : Request) : Prop :=
    let res := http_send (n_http t) req in
    result_of (run t) = Ok res
    /\ requests (events_of (run t)) = [ req ]
    /\ exchanges (events_of (run t)) = [ (req, res) ]
    /\ console_lines "log" (events_of (run t)) = []
    /\ List.length (console_lines "error" (events_of (run t)))
       = (if status res >=? 400 then 1 else 0)%nat in
  outcome (HttpUtils.get path role context) (sent "GET" None)
  /\ outcome (HttpUtils.post path payload role context)
             (sent "POST" (json_text payload))
  /\ outcome (HttpUtils.put path payload role context)
             (sent "PUT" (json_text payload))
  /\ outcome (HttpUtils.patch path payload role context)
             (sent "PATCH" (json_text payload))
  /\ outcome (HttpUtils.del path role context) (sent "DELETE" None)
  /\ outcome (HttpUtils.delWithBody path payload role context)
             (sent "DELETE" (json_text payload))
  /\ json_text VUndefined = None
  /\ (forall name, json_text (VNative name) = None)
  /\ (payload <> VUndefined -> (forall name, payload <> VNative name) ->
      json_text payload = Some (JSON_stringify payload)).
Proof.
  cbv zeta.
  do 6 (split; [ repeat split; apply wrapper_run |]).
  split; [ reflexivity | split; [ reflexivity |] ].
  intros Hu Hn. destruct payload; try reflexivity.
  - contradiction.
  - exfalso. exact (Hn _ eq_refl).
Qed.

(** X16.  The response helpers never throw and record nothing: [safeJson]
    returns the parsed body, or the default when the body is no JSON;
    [extractId] the field of a truthy parsed body, else [null];
    [extractItems] the [items] of the parsed body when that is truthy,
    else an empty array, so its result is always truthy. *)
Theorem response_helpers_fall_back
        (res : Response) (defaultValue : Value) (idField : string) (t : Ticks) :
  HttpUtils.safeJson res defaultValue t
  = (Ok match json res with Ok data => data | Throw _ => defaultValue end, t, [])
  /\ HttpUtils.extractId res idField t
     = (Ok match json res with
           | Ok data => if truthy data then prop data idField else VNull
           | Throw _ => VNull
           end, t, [])
  /\ (exists items,
         HttpUtils.extractItems res t = (Ok items, t, [])
         /\ truthy items = true
         /\ items = match json res with
                    | Ok data => js_or (get_opt data "items") (VArr [])
                    | Throw _ => VArr []
                    end).
Proof.
  unfold HttpUtils.extractItems, HttpUtils.extractId, HttpUtils.safeJson,
    try_catch, res_json, lift, bind, ret.
  destruct (json res) as [data | msg].
  - split; [ reflexivity | split ].
    + destruct (truthy data); reflexivity.
    + eexists. split; [ reflexivity | split; [| reflexivity ] ].
      unfold js_or. destruct (truthy (get_opt data "items")) eqn:E;
        [ exact E | reflexivity ].
  - split; [ reflexivity | split; [ reflexivity |] ].
    eexists. repeat split.
Qed.

Lemma extractItems_run (res : Response) (t : Ticks) :
  HttpUtils.extractItems res t
  = (Ok match json res with
        | Ok data => js_or (get_opt data "items") (VArr [])
        | Throw _ => VArr []
        end, t, []).
Proof.
  unfold HttpUtils.extractItems, HttpUtils.safeJson, try_catch, res_json, lift,
    bind, ret.
  destruct (json res); reflexivity.
Qed.

Hypothesis fair : forall i, unit_draw (math_random i) = true.

(** X17.  [getRandomItem] returns [null], without a draw, when the body
    is no JSON, has no items or has an empty list of items; when the
    body has a list of items that is not empty it returns one of its
    elements, out of one draw. *)
Theorem getRandomItem_picks_an_item (res : Response) (t : Ticks) :
  (forall msg, json res = Throw msg ->
               HttpUtils.getRandomItem res t = (Ok VNull, t, []))
  /\ (forall data,
         json res = Ok data ->
         truthy (get_opt data "items") = false \/ get_opt data "items" = VArr [] ->
         HttpUtils.getRandomItem res t = (Ok VNull, t, []))
  /\ (forall data items,
         json res = Ok data -> get_opt data "items" = VArr items ->
         items <> [] -> Z.of_nat (List.length items) < 2 ^ 53 ->
         sound_indices (List.length items) = true ->
         exists item, In item items
                      /\ HttpUtils.getRandomItem res t = (Ok item, advance 1 t, [])).
Proof.
  split; [| split ].
  - intros msg E. unfold HttpUtils.getRandomItem, bind.
    rewrite extractItems_run, E. reflexivity.
  - intros data E Hi. unfold HttpUtils.getRandomItem, bind.
    rewrite extractItems_run, E. unfold js_or.
    destruct Hi as [Hi | Hi]; rewrite Hi; reflexivity.
  - intros data items E Hi Hne Hlen Hs.
    destruct (randomItem_run fair items t Hne Hlen Hs) as (k & Hk & Hrun).
    exists (nth k items VUndefined). split; [ apply nth_In; exact Hk |].
    unfold HttpUtils.getRandomItem, bind.
    rewrite extractItems_run, E, Hi. unfold js_or. cbn [truthy].
    assert (Hl : prop (VArr items) "length" = VInt (Z.of_nat (List.length items)))
      by reflexivity.
    rewrite Hl.
    assert (Hz : strict_eq (VInt (Z.of_nat (List.length items))) (VInt 0) = false).
    { destruct items; [ contradiction | reflexivity ]. }
    rewrite Hz. revert Hrun.
    unfold Common.randomItem, bind, Math_random, lift, ret.
    cbn [get_prop nullish]. rewrite Hl. intros Hrun. injection Hrun as Hrun.
    rewrite <- Hrun. reflexivity.
Qed.

End Wrappers.

(* ------------------------------------------------------------------ *)
(** ** Checks on responses (utils/checks.js)                           *)
(* ------------------------------------------------------------------ *)

Section CheckRuns.
Context {RT : Runtime}.

(** [check] on predicates that only read the value: all are evaluated,
    each verdict is recorded under its name, and the result is their
    conjunction. *)
Lemma check_pure {T : Type} (val : T) (sets : list (string * (T -> M Value)))
      (t : Ticks) :
  Forall (fun np => pure_at val (snd np)) sets ->
  check val sets t
  = (Ok (forallb (verdict val t) sets), t,
     map (fun np => ECheck (fst np) (verdict val t np)) sets).
Proof.
  induction 1 as [| [name p] tl [v Hv] _ IH]; [ reflexivity |].
  cbn [snd] in Hv. cbn [check map forallb fst].
  unfold verdict at 1 3. cbn [snd]. unfold bind, try_catch, emit, ret.
  rewrite Hv, IH. cbn [app]. rewrite app_nil_r. reflexivity.
Qed.

Lemma pure_ret {T : Type} (val : T) (f : T -> Value) :
  pure_at val (fun x => ret (f x)).
Proof. exists (f val). reflexivity. Qed.

(** The checks recorded by pure predicates write nothing to the console. *)
Lemma checks_write_nothing {T : Type} (level : string) (g : string * T -> bool)
      (sets : list (string * T)) :
  console_lines level (map (fun np => ECheck (fst np) (g np)) sets) = [].
Proof. induction sets as [| np tl IH]; [ reflexivity | exact IH ]. Qed.

Lemma Qeq_bool_inject_Z (a b : Z) : Qeq_bool (inject_Z a) (inject_Z b) = (a =? b).
Proof.
  unfold Qeq_bool, inject_Z. cbn [Qnum Qden]. rewrite !Z.mul_1_r. reflexivity.
Qed.

Lemma index_of_key_first (first : Value) (others : list Value) :
  sound_indices 1 = true ->
  prop (VArr (first :: others)) (to_string (VInt 0)) = first.
Proof.
  intros Hs. unfold sound_indices in Hs. cbn [seq forallb] in Hs.
  apply andb_prop in Hs as [Hs _]. apply andb_prop in Hs as [Hs _].
  apply negb_true_iff in Hs. unfold index_key in Hs. cbn [Z.of_nat] in Hs.
  unfold prop. cbn [own_property index_of_key Z.of_nat]. rewrite Hs.
  rewrite String.eqb_refl. reflexivity.
Qed.

Lemma array_length (l : list Value) :
  to_number (prop (VArr l) "length") = Fin (inject_Z (Z.of_nat (List.length l))).
Proof. reflexivity. Qed.

(** X18.  [checkListResponse] on a body whose [items] is an array passes
    exactly when the array has between 1 and 100 elements: it records
    the three checks, the first as passed, and writes nothing to the
    console. *)
Theorem checkListResponse_bounds
        (res : Response) (context : string) (data : Value) (items : list Value)
        (t : Ticks) :
  json res = Ok data -> nullish data = false -> prop data "items" = VArr items ->
  let n := Z.of_nat (List.length items) in
  Checks.checkListResponse res context t
  = (Ok ((0 <? n) && (n <=? 100)), t,
     [ ECheck (context ++ ": has items array") true;
       ECheck (context ++ ": items not empty") (0 <? n);
       ECheck (context ++ ": valid page size") (n <=? 100) ]).
Proof.
  intros Hj Hd Hi n.
  unfold Checks.checkListResponse, try_catch, bind at 1, res_json, lift.
  rewrite Hj.
  assert (Hg : get_prop data "items" = Ok (VArr items)).
  { unfold get_prop. rewrite Hd, Hi. reflexivity. }
  assert (E100 : B64.of_Z 100 = Fin (inject_Z 100)) by (vm_compute; reflexivity).
  cbn [check]. unfold Checks.has_items_array, Checks.items_not_empty,
    Checks.valid_page_size, try_catch, bind, lift, emit, ret.
  rewrite Hg. cbn [truthy strict_eq isArray negb andb].
  rewrite array_length, E100. cbn [B64.ltb B64.leb truthy].
  change 0%Q with (inject_Z 0). rewrite !Qle_bool_inject_Z.
  fold n. replace (negb (n <=? 0)) with (0 <? n) by (rewrite Z.ltb_antisym; reflexivity).
  rewrite andb_true_r. reflexivity.
Qed.

(** X19.  A body that is the JSON text [null] parses, and is still
    reported as a parse failure.  The first predicate that reads a
    property of the body throws inside [check], which records that check
    as failed before the exception reaches the [catch]: so
    [checkListResponse] records its first check as failed, and
    [checkItemResponse] with a required field the object check and the
    check of the field; [checkListItemStructure] throws before any
    check.  Each writes one error line and returns [false].  So does
    [checkFieldTypes], without a check, when it is given no field types,
    whatever the body. *)
Theorem null_body_is_reported_as_parse_failure
        (res : Response) (context : string) (field : Value)
        (itemValidator : Checks.Validator) (t : Ticks) :
  json res = Ok VNull ->
  (exists msg,
      Checks.checkListResponse res context t
      = (Ok false, t,
         [ ECheck (context ++ ": has items array") false;
           EConsole "error" [ "Failed to parse " ++ context ++ " response:"; msg ] ]))
  /\ (exists msg,
         Checks.checkListItemStructure res itemValidator context t
         = (Ok false, t,
            [ EConsole "error" [ "Failed to validate " ++ context ++ ":"; msg ] ]))
  /\ (exists msg,
         Checks.checkItemResponse res [ field ] context t
         = (Ok false, t,
            [ ECheck (context ++ ": response is object") false;
              ECheck (context ++ ": has " ++ to_string field) false;
              EConsole "error"
                [ "Failed to parse " ++ context ++ " response:"; msg ] ]))
  /\ (exists msg,
         Checks.checkFieldTypes res VUndefined context t
         = (Ok false, t,
            [ EConsole "error"
                [ "Failed to parse " ++ context ++ " response:"; msg ] ])).
Proof.
  intros Hj.
  unfold Checks.checkListResponse, Checks.checkListItemStructure,
    Checks.checkItemResponse, Checks.checkFieldTypes.
  repeat split.
  - eexists. unfold try_catch, bind at 1, res_json, lift. rewrite Hj. reflexivity.
  - eexists. unfold try_catch, bind at 1, res_json, lift. rewrite Hj. reflexivity.
  - eexists. unfold try_catch, bind at 1, res_json, lift. rewrite Hj.
    cbn [fold_left set_prop].
    assert (Hk : String.eqb (context ++ ": has " ++ to_string field)
                            (context ++ ": response is object") = false).
    { apply String.eqb_neq. intros E.
      apply (f_equal (fun s => substring (String.length context) 3 s)) in E.
      revert E. clear. induction context as [| c s IH]; [ discriminate | exact IH ]. }
    rewrite Hk. reflexivity.
  - eexists. unfold try_catch, bind at 1, res_json, lift. rewrite Hj. reflexivity.
Qed.


Lemma forallb_set_prop {X : Type} (g : string * X -> bool) (k : string) (x : X)
      (l : list (string * X)) :
  (forall y, In (k, y) l -> g (k, y) = g (k, x)) ->
  forallb g (set_prop k x l) = forallb g l && g (k, x).
Proof.
  induction l as [| [k0 y] tl IH]; intros H.
  - cbn. apply andb_comm.
  - cbn [set_prop forallb]. destruct (String.eqb_spec k k0) as [<- | Hn].
    + cbn [forallb]. rewrite (H y) by (left; reflexivity).
      destruct (g (k, x)), (forallb g tl); reflexivity.
    + cbn [forallb]. rewrite IH by (intros z Hz; apply H; right; exact Hz).
      rewrite andb_assoc. reflexivity.
Qed.

Lemma append_cancel_l (a b c : string) : a ++ b = a ++ c -> b = c.
Proof.
  induction a as [| x a IH]; [ tauto |].
  cbn [append]. intros E. injection E as E. exact (IH E).
Qed.

(** The predicate of a required field reads the value only, when the
    value is neither [null] nor [undefined]. *)
Lemma has_field_pure (field data : Value) :
  nullish data = false ->
  forall t, Checks.has_field field data t
            = (Ok (VBool (negb (strict_eq (prop data (to_string field)) VUndefined))),
               t, []).
Proof.
  intros Hd t. unfold Checks.has_field, bind, lift, ret, get_prop.
  rewrite Hd. reflexivity.
Qed.

(** The checks [checkItemResponse] builds: the object check, then one
    check per required field, a repeated field counted once. *)
Lemma item_checks (context : string) (data : Value) (t : Ticks)
      (fields : list Value) :
  nullish data = false ->
  forall acc,
    Forall (fun np => pure_at data (snd np)) acc ->
    (forall n p, In (n, p) acc ->
                 (n, p) = (context ++ ": response is object", Checks.response_is_object)
                 \/ exists f, (n, p) = (context ++ ": has " ++ to_string f,
                                       Checks.has_field f)) ->
    let checks :=
      fold_left (fun checks field =>
                   set_prop (context ++ ": has " ++ to_string field)
                            (Checks.has_field field) checks) fields acc in
    Forall (fun np => pure_at data (snd np)) checks
    /\ forallb (verdict data t) checks
       = forallb (verdict data t) acc
         && forallb (fun f => negb (strict_eq (prop data (to_string f)) VUndefined))
                    fields.
Proof.
  intros Hd. induction fields as [| f fields IH]; intros acc Hp Hform.
  - cbn. split; [ exact Hp | rewrite andb_true_r; reflexivity ].
  - cbn [fold_left forallb].
    set (acc' := set_prop (context ++ ": has " ++ to_string f)
                          (Checks.has_field f) acc).
    assert (Hv : verdict data t (context ++ ": has " ++ to_string f,
                                 Checks.has_field f)
                 = negb (strict_eq (prop data (to_string f)) VUndefined)).
    { unfold verdict. cbn [snd]. rewrite (has_field_pure f data Hd). reflexivity. }
    assert (Hin : forall n p, In (n, p) acc' ->
                              In (n, p) acc
                              \/ (n, p) = (context ++ ": has " ++ to_string f,
                                           Checks.has_field f)).
    { unfold acc'. clear. induction acc as [| [k0 y] tl IHa]; intros n p.
      - cbn. intros [E | []]. right. symmetry. exact E.
      - cbn [set_prop]. destruct (String.eqb _ k0).
        + intros [E | H]; [ right; symmetry; exact E | left; right; exact H ].
        + intros [E | H]; [ left; left; exact E |].
          destruct (IHa n p H) as [H' | H']; [ left; right; exact H' | right; exact H' ]. }
    destruct (IH acc') as [Hp' Hall].
    + apply Forall_forall. intros [n p] Hnp. cbn [snd].
      destruct (Hin n p Hnp) as [H | H].
      * rewrite Forall_forall in Hp. exact (Hp (n, p) H).
      * injection H as _ ->. eexists. apply (has_field_pure f data Hd).
    + intros n p Hnp. destruct (Hin n p Hnp) as [H | H].
      * apply Hform. exact H.
      * right. exists f. exact H.
    + split; [ exact Hp' |]. rewrite Hall. unfold acc'.
      rewrite forallb_set_prop.
      * rewrite Hv, andb_assoc. reflexivity.
      * intros y Hy. destruct (Hform _ _ Hy) as [E | [f' E]].
        -- exfalso. injection E as E _.
           apply append_cancel_l in E. discriminate E.
        -- injection E as E ->. apply append_cancel_l in E.
           change (": has " ++ to_string f) with (": has " ++ to_string f) in E.
           apply (append_cancel_l ": has ") in E.
           unfold verdict. cbn [snd].
           rewrite (has_field_pure f' data Hd), (has_field_pure f data Hd), E.
           reflexivity.
Qed.

(** X20.  [checkItemResponse] on a parsed body that is not [null] passes
    exactly when the body is an object, no array, and every required
    field is defined in it; it never throws, and it records checks only,
    no console line. *)
Theorem checkItemResponse_decides
        (res : Response) (requiredFields : list Value) (context : string)
        (data : Value) (t : Ticks) :
  json res = Ok data -> nullish data = false ->
  exists e,
    Checks.checkItemResponse res requiredFields context t
    = (Ok (negb (strict_eq data VNull) && String.eqb (typeof data) "object"
           && negb (isArray data)
           && forallb (fun f => negb (strict_eq (prop data (to_string f)) VUndefined))
                      requiredFields),
       t, e)
    /\ Forall (fun ev => exists name pass, ev = ECheck name pass) e
    /\ console_lines "error" e = [].
Proof.
  intros Hj Hd.
  set (base := [ (context ++ ": response is object", Checks.response_is_object) ]).
  destruct (item_checks context data t requiredFields Hd base) as [Hp Hall].
  { constructor; [| constructor ]. eexists. intros t'. reflexivity. }
  { intros n p [E | []]. left. symmetry. exact E. }
  set (checks := fold_left _ requiredFields base) in *.
  exists (map (fun np => ECheck (fst np) (verdict data t np)) checks).
  split; [| split; [| apply checks_write_nothing ] ].
  - unfold Checks.checkItemResponse, try_catch, bind at 1, res_json, lift.
    rewrite Hj. fold base. fold checks. rewrite (check_pure data checks t Hp), Hall.
    assert (Hb : forallb (verdict data t) base
                 = negb (strict_eq data VNull) && String.eqb (typeof data) "object"
                   && negb (isArray data)).
    { unfold base, verdict, Checks.response_is_object, ret.
      cbn [forallb snd truthy]. apply andb_true_r. }
    rewrite Hb. reflexivity.
  - apply Forall_forall. intros ev Hev. apply in_map_iff in Hev as (np & <- & _).
    eexists _, _. reflexivity.
Qed.

(** X21.  [checkListItemStructure] validates the first item of the list
    and no other: on a body whose [items] is an array that is not empty
    it calls the validator on the first element, records its verdict and
    returns it, whatever the other elements are; an exception of the
    validator is recorded by [check] as a failed check, then caught,
    written as one error line, and gives [false].  On an empty list it
    returns [false] and records nothing. *)
Theorem checkListItemStructure_first_item
        (res : Response) (itemValidator : Checks.Validator) (context : string)
        (data first : Value) (others : list Value) (t : Ticks) :
  json res = Ok data -> nullish data = false ->
  sound_indices 1 = true ->
  (prop data "items" = VArr (first :: others) ->
   Checks.checkListItemStructure res itemValidator context t
   = match itemValidator first t with
     | (Ok v, t', e) =>
         (Ok (truthy v), t',
          (e ++ [ ECheck (context ++ ": valid structure")%string (truthy v) ])%list)
     | (Throw msg, t', e) =>
         (Ok false, t',
          (e ++ [ ECheck (context ++ ": valid structure")%string false;
                  EConsole "error"
                    [ ("Failed to validate " ++ context ++ ":")%string; msg ] ])%list)
     end)
  /\ (prop data "items" = VArr [] ->
      Checks.checkListItemStructure res itemValidator context t = (Ok false, t, [])).
Proof.
  intros Hj Hd Hs.
  assert (Hg : get_prop data "items" = Ok (prop data "items")).
  { unfold get_prop. rewrite Hd. reflexivity. }
  split; intros Hi.
  - assert (H0 : prop (VArr (first :: others)) (to_string (VInt 0)) = first).
    { apply (index_of_key_first). exact Hs. }
    unfold Checks.checkListItemStructure, try_catch, bind at 1, res_json, lift.
    rewrite Hj. unfold bind at 1. rewrite Hg, Hi.
    cbn [truthy isArray negb orb].
    assert (Hl : strict_eq (prop (VArr (first :: others)) "length") (VInt 0) = false)
      by reflexivity.
    rewrite Hl, H0. cbn [check].
    unfold console_error, try_catch, bind, emit, ret, throw.
    destruct (itemValidator first t) as [[[v | msg] t'] e].
    + rewrite andb_true_r, app_nil_r. reflexivity.
    + cbn [app]. rewrite <- app_assoc. reflexivity.
  - unfold Checks.checkListItemStructure, try_catch, bind at 1, res_json, lift.
    rewrite Hj. unfold bind at 1. rewrite Hg, Hi. reflexivity.
Qed.


(** X22.  The composite checks look at the body only after the status:
    for a response whose status is not 200, [checkGetListEndpoint] and
    [checkGetItemEndpoint] record the failed status check alone and
    return [false], whatever the body, the validator and the required
    fields; so does [checkPostEndpoint] for a status outside 200..299. *)
Theorem failed_status_skips_structure
        (res : Response) (itemValidator : option Checks.Validator)
        (requiredFields : list Value) (context : string) (t : Ticks) :
  status res <> 200 ->
  Checks.checkGetListEndpoint res itemValidator context t
  = (Ok false, t, [ ECheck ("status is " ++ to_string (VInt 200)) false ])
  /\ Checks.checkGetItemEndpoint res requiredFields context t
     = (Ok false, t, [ ECheck ("status is " ++ to_string (VInt 200)) false ])
  /\ ((status res >=? 200) && (status res <? 300) = false ->
      Checks.checkPostEndpoint res requiredFields context t
      = (Ok false, t, [ ECheck (context ++ ": status is 2xx") false ])).
Proof.
  intros Hs. apply Z.eqb_neq in Hs.
  unfold Checks.checkGetListEndpoint, Checks.checkGetItemEndpoint,
    Checks.checkPostEndpoint, Checks.checkStatus, Checks.status_is,
    Checks.status_2xx.
  cbv zeta. cbn [check]. unfold bind, emit, ret. rewrite Hs.
  split; [ reflexivity | split; [ reflexivity |] ].
  intros H. rewrite H. reflexivity.
Qed.

(** X23.  [checkPostEndpoint] accepts a successful response without a
    body: for a status in 200..299 and a body that is absent or empty it
    records the status check alone and returns [true], without parsing;
    [checkDeleteEndpoint] records one check and returns whether the
    status is in 200..299. *)
Theorem post_and_delete_accept_empty_body
        (res : Response) (requiredFields : list Value) (context : string)
        (t : Ticks) :
  (status res >=? 200) && (status res <? 300) = true ->
  body res = None \/ body res = Some "" ->
  Checks.checkPostEndpoint res requiredFields context t
  = (Ok true, t, [ ECheck (context ++ ": status is 2xx") true ])
  /\ Checks.checkDeleteEndpoint res context t
     = (Ok true, t, [ ECheck (context ++ ": status is 2xx") true ]).
Proof.
  intros Hs Hb.
  unfold Checks.checkPostEndpoint, Checks.checkDeleteEndpoint, Checks.status_2xx,
    Checks.body_value.
  cbv zeta. cbn [check]. unfold bind, emit, ret. rewrite Hs.
  destruct Hb as [-> | ->]; split; reflexivity.
Qed.

(** X24.  [checkErrorResponse] never throws and writes nothing to the
    console.  It records the status check; when the body is no JSON that
    check is the only one, and it decides the result.  When the body is
    the JSON text [null] the predicate throws inside [check], which
    records the error-message check as failed, and the result is still
    the status check alone.  When the body parses to another value, the
    result also requires a [message] or an [error] in it, recorded as a
    second check. *)
Theorem checkErrorResponse_tolerates_any_body
        (res : Response) (expectedStatus : Z) (context : string) (t : Ticks) :
  let matched := status res =? expectedStatus in
  let first := ECheck ("status is " ++ to_string (VInt expectedStatus)) matched in
  Checks.checkErrorResponse res expectedStatus context t
  = match json res with
    | Throw _ => (Ok matched, t, [ first ])
    | Ok data =>
        if nullish data
        then (Ok matched, t,
              [ first; ECheck (context ++ ": has error message") false ])
        else
          let described :=
            negb (strict_eq (prop data "message") VUndefined)
            || negb (strict_eq (prop data "error") VUndefined) in
          (Ok (described && matched), t,
           [ first; ECheck (context ++ ": has error message") described ])
    end.
Proof.
  cbv zeta.
  unfold Checks.checkErrorResponse, Checks.checkStatus, Checks.status_is,
    Checks.has_error_message, res_json.
  cbn [check]. unfold try_catch, bind, emit, ret, throw, lift, get_prop.
  rewrite andb_true_r.
  destruct (json res) as [data | msg]; [| reflexivity ].
  destruct (nullish data) eqn:Hd.
  - reflexivity.
  - destruct (strict_eq (prop data "message") VUndefined);
      cbn [negb orb truthy andb]; rewrite ?andb_true_r; reflexivity.
Qed.

End CheckRuns.

(* ------------------------------------------------------------------ *)
(** ** Computations that may throw                                     *)
(* ------------------------------------------------------------------ *)

Section Calm.
Context {RT : Runtime}.
Variable P : Event -> bool.

Lemma calm_quiet {A : Type} (m : M A) : quiet P m -> calm P m.
Proof.
  intros H t. destruct (H t) as (a & t' & e & E & He).
  exists (Ok a), t', e. split; assumption.
Qed.

Lemma calm_lift {A : Type} (r : Result A) : calm P (lift r).
Proof. intros t. exists r, t, []. split; reflexivity. Qed.

Lemma calm_bind {A B : Type} (m : M A) (f : A -> M B) :
  calm P m -> (forall a, calm P (f a)) -> calm P (bind m f).
Proof.
  intros Hm Hf t. destruct (Hm t) as (r & t1 & e1 & Em & H1).
  unfold bind. rewrite Em. destruct r as [a | msg].
  - destruct (Hf a t1) as (r2 & t2 & e2 & Ef & H2). rewrite Ef.
    eexists _, _, _. split; [ reflexivity |].
    rewrite forallb_app, H1, H2. reflexivity.
  - eexists _, _, _. split; [ reflexivity | exact H1 ].
Qed.

Lemma calm_try_catch {A : Type} (m : M A) (h : string -> M A) :
  calm P m -> (forall msg, calm P (h msg)) -> calm P (try_catch m h).
Proof.
  intros Hm Hh t. destruct (Hm t) as (r & t1 & e1 & Em & H1).
  unfold try_catch. rewrite Em. destruct r as [a | msg].
  - eexists _, _, _. split; [ reflexivity | exact H1 ].
  - destruct (Hh msg t1) as (r2 & t2 & e2 & Eh & H2). rewrite Eh.
    eexists _, _, _. split; [ reflexivity |].
    rewrite forallb_app, H1, H2. reflexivity.
Qed.

Lemma calm_check {T : Type} (val : T) (sets : list (string * (T -> M Value))) :
  Forall (fun np => (forall b, P (ECheck (fst np) b) = true)
                    /\ calm P (snd np val)) sets ->
  calm P (check val sets).
Proof.
  induction 1 as [| [name p] tl [Hname Hp] _ IH]; cbn [check].
  - apply calm_quiet, quiet_ret.
  - apply calm_bind; [| intros v ].
    { apply calm_try_catch; [ exact Hp | intros err ].
      apply calm_bind; [ apply calm_quiet, quiet_emit, Hname | intros _ ].
      apply (calm_lift (Throw err)). }
    apply calm_bind; [ apply calm_quiet, quiet_emit, Hname | intros _ ].
    apply calm_bind; [ exact IH | intros rest ].
    apply calm_quiet, quiet_ret.
Qed.

(** A [try] whose handler completes normally completes normally. *)
Lemma quiet_try_catch {A : Type} (m : M A) (h : string -> M A) :
  calm P m -> (forall msg, quiet P (h msg)) -> quiet P (try_catch m h).
Proof.
  intros Hm Hh t. destruct (Hm t) as (r & t1 & e1 & Em & H1).
  unfold try_catch. rewrite Em. destruct r as [a | msg].
  - eexists _, _, _. split; [ reflexivity | exact H1 ].
  - destruct (Hh msg t1) as (a & t2 & e2 & Eh & H2). rewrite Eh.
    eexists _, _, _. split; [ reflexivity |].
    rewrite forallb_app, H1, H2. reflexivity.
Qed.

Lemma set_prop_Forall {X : Type} (Q : string * X -> Prop) (k : string) (x : X)
      (l : list (string * X)) :
  Q (k, x) -> Forall Q l -> Forall Q (set_prop k x l).
Proof.
  intros Hx. induction 1 as [| [k0 y] tl Hy Htl IH]; cbn [set_prop].
  - constructor; [ exact Hx | constructor ].
  - destruct (String.eqb k k0); constructor; assumption.
Qed.

Hypothesis P_check : forall name pass, P (ECheck name pass) = true.
Hypothesis P_console : forall level args, P (EConsole level args) = true.

(** The validators and composite checks complete normally and only
    record checks and console lines. *)
Lemma quiet_checkItemResponse (res : Response) (requiredFields : list Value)
      (context : string) :
  quiet P (Checks.checkItemResponse res requiredFields context).
Proof.
  unfold Checks.checkItemResponse. apply quiet_try_catch.
  - apply calm_bind; [ apply calm_lift | intros data ].
    apply calm_check.
    assert (H : forall acc,
               Forall (fun np : string * (Value -> M Value) =>
                         (forall b, P (ECheck (fst np) b) = true)
                         /\ calm P (snd np data)) acc ->
               Forall (fun np : string * (Value -> M Value) =>
                         (forall b, P (ECheck (fst np) b) = true)
                         /\ calm P (snd np data))
                      (fold_left
                         (fun checks field =>
                            set_prop (context ++ ": has " ++ to_string field)
                                     (Checks.has_field field) checks)
                         requiredFields acc)).
    { induction requiredFields as [| f fs IH]; intros acc Hacc; [ exact Hacc |].
      cbn [fold_left]. apply IH. apply set_prop_Forall; [| exact Hacc ].
      split; [ intros b; apply P_check |].
      unfold Checks.has_field. apply calm_bind; [ apply calm_lift | intros x ].
      apply calm_quiet, quiet_ret. }
    apply H. constructor; [| constructor ].
    split; [ intros b; apply P_check | apply calm_quiet, quiet_ret ].
  - intros msg. apply quiet_bind; [ apply quiet_emit, P_console | intros _ ].
    apply quiet_ret.
Qed.

Lemma quiet_checkPostEndpoint (res : Response) (requiredFields : list Value)
      (context : string) :
  quiet P (Checks.checkPostEndpoint res requiredFields context).
Proof.
  unfold Checks.checkPostEndpoint. cbv zeta.
  apply quiet_bind.
  - apply quiet_check. constructor; [| constructor ].
    split; [ intros b; apply P_check | apply quiet_ret ].
  - intros s. destruct (_ && truthy _); [| apply quiet_ret ].
    apply quiet_bind; [ apply quiet_checkItemResponse | intros i; apply quiet_ret ].
Qed.

Lemma quiet_extractId (res : Response) (idField : string) :
  quiet P (HttpUtils.extractId res idField).
Proof.
  unfold HttpUtils.extractId. apply quiet_bind; [ apply quiet_safeJson | intros d ].
  destruct (truthy d); apply quiet_ret.
Qed.

End Calm.

Section Yields2.
Context {RT : Runtime}.
Context {B : Type}.
Variable g : Event -> list B.

Lemma yields_http_request (req : Request) (l : list B) :
  (forall res, g (EHttp req res) = l) -> yields g (http_request req) l.
Proof.
  intros H t. eexists _, _, _. split; [ reflexivity |].
  cbn [flat_map]. rewrite H. apply app_nil_r.
Qed.

End Yields2.

(** A proof that a computation yields a list of views, when the list
    comes from the requests it sends. *)
Ltac sends_auto :=
  cbv beta zeta;
  first
    [ solve [ apply yields_quiet; quiet_auto ]
    | lazymatch goal with
      | |- yields _ (http_request _) _ =>
          apply yields_http_request; intros;
          cbn [method url headers req_body]; reflexivity
      | |- yields _ (emit _) _ => apply yields_emit; lazy; reflexivity
      | |- yields _ (bind _ _) _ =>
          eapply yields_bind;
          [ sends_auto | intros ?; sends_auto | reflexivity ]
      | |- yields _ (if ?b then _ else _) _ => destruct b; sends_auto
      | |- yields _ ?m _ => let h := head_of m in unfold h; sends_auto
      end ].

(* ------------------------------------------------------------------ *)
(** ** The single operations of the CRUD test                          *)
(* ------------------------------------------------------------------ *)

Section ScenarioFunctions.
Context {RT : Runtime}.

Lemma js_or_truthy (a d : Value) : truthy d = true -> truthy (js_or a d) = true.
Proof. intros Hd. unfold js_or. destruct (truthy a) eqn:E; assumption. Qed.

(** The id [readOnly] and [updateOnly] work on is always usable. *)
Lemma existing_id_run (data : Value) (t : Ticks) :
  exists id t',
    Crud.existing_id data t = (Ok id, t', []) /\ truthy id = true
    /\ (nullish (get_opt data "existingIds") = true -> id = VInt 1 /\ t' = t).
Proof.
  unfold Crud.existing_id. cbv zeta.
  destruct (nullish (get_opt data "existingIds")) eqn:E.
  - exists (VInt 1), t. repeat split.
  - unfold Common.randomInt, bind, Math_random, ret. eexists _, _.
    split; [ reflexivity |]. split; [| discriminate ].
    apply js_or_truthy. reflexivity.
Qed.

(** The request of a read. *)
Lemma readResource_sends (id : Value) :
  truthy id = true ->
  yields (fun e => match e with EHttp req _ => [ req ] | _ => [] end)
         (Crud.readResource id)
         [ {| method := "GET";
              url := Common.getUrl ("/products/" ++ to_string id);
              headers := Common.getHeaders "USER"; req_body := None |} ].
Proof.
  intros Hid. unfold Crud.readResource. rewrite Hid. cbn [negb]. sends_auto.
Qed.

Lemma yields_then {B A C : Type} (g : Event -> list B) (m : M A) (f : A -> M C)
      (l : list B) :
  yields g m l -> (forall a, yields g (f a) []) -> yields g (bind m f) l.
Proof.
  intros Hm Hf. eapply yields_bind; [ exact Hm | exact Hf |].
  symmetry. apply app_nil_r.
Qed.

(** X25.  [readOnly] always reads: whatever the setup data are, the id
    it works on is usable (the id 1 when the data list no existing ids),
    so the step sends exactly one GET on the resource, takes one sample
    of the read duration and counts one read; it never ends on the
    branch without an id. *)
Theorem readOnly_always_reads (data : Value) (t : Ticks) :
  exists id t' e,
    Crud.readOnly data t = (Ok tt, t', e)
    /\ truthy id = true
    /\ (nullish (get_opt data "existingIds") = true -> id = VInt 1)
    /\ requests e
       = [ {| method := "GET";
              url := Common.getUrl ("/products/" ++ to_string id);
              headers := Common.getHeaders "USER"; req_body := None |} ]
    /\ metric_log e = step_entries Crud.readDuration Crud.operationCounts_read
    /\ calls e = [ "readResource" ].
Proof.
  destruct (existing_id_run data t) as (id & t1 & Hid & Ht & Hdef).
  set (rest := (Crud.readResource id ;; s <- Common.thinkTime ;; sleep s)).
  assert (Hreq : yields (fun e => match e with EHttp req _ => [ req ] | _ => [] end)
                        rest
                        [ {| method := "GET";
                             url := Common.getUrl ("/products/" ++ to_string id);
                             headers := Common.getHeaders "USER";
                             req_body := None |} ]).
  { apply yields_then; [ apply readResource_sends; exact Ht | intros _ ].
    apply yields_quiet. quiet_auto. }
  assert (Hmet : yields metric_entry rest
                        (step_entries Crud.readDuration Crud.operationCounts_read)).
  { apply yields_then.
    - pose proof (readResource_entries id) as H. rewrite Ht in H. exact H.
    - intros _. apply yields_quiet. quiet_auto. }
  assert (Hcalls : yields (fun e => match e with ECall f => [ f ] | _ => [] end)
                          rest [ "readResource" ]).
  { apply yields_then; [| intros _; apply yields_quiet; quiet_auto ].
    intros t0. destruct (readResource_step id t0) as (a & t' & e & E & He).
    exists a, t', (ECall "readResource" :: e). split; [ exact E |].
    change (calls (ECall "readResource" :: e) = [ "readResource" ]).
    rewrite calls_cons. cbn [app]. rewrite (step_events_calls e He). reflexivity. }
  destruct (Hreq t1) as ([] & t2 & e & Erun & Hr).
  exists id, t2, e.
  split.
  { unfold Crud.readOnly. unfold bind at 1. rewrite Hid. fold rest. rewrite Erun.
    reflexivity. }
  split; [ exact Ht |]. split; [ intros H; apply (Hdef H) |].
  split; [ exact Hr |].
  split; [ exact (yields_run _ _ _ _ _ _ _ Hmet Erun) |].
  exact (yields_run _ _ _ _ _ _ _ Hcalls Erun).
Qed.


(** What a read with a usable id does: one GET on the resource, and
    success exactly when the status of the response is 200. *)
Lemma readResource_run (id : Value) (t : Ticks) :
  truthy id = true ->
  let req := {| method := "GET";
                url := Common.getUrl ("/products/" ++ to_string id);
                headers := Common.getHeaders "USER"; req_body := None |} in
  let res := http_send (n_http t) req in
  exists r t' post,
    Crud.readResource id t
    = (Ok r, t', ECall "readResource" :: EHttp req res :: post)
    /\ Crud.success r = (status res =? 200)
    /\ routes post = [].
Proof.
  intros Hid. cbv zeta.
  unfold Crud.readResource, HttpUtils.get, HttpUtils.log_if_error,
    Common.logRequestError, Common.logError, console_error, HttpUtils.safeJson,
    try_catch, res_json, lift, metric_add, Checks.status_is.
  rewrite Hid.
  cbv [negb bind emit ret http_request check Date_now].
  cbn [n_http n_date n_rand].
  match goal with
  | |- context [ http_send (n_http t) ?q ] => set (res := http_send (n_http t) q)
  end.
  destruct (status res >=? 400); destruct (json res); destruct (status res =? 200);
    eexists _, _, _; (split; [ reflexivity | split; reflexivity ]).
Qed.

Lemma updateResource_sends (id originalData : Value) :
  truthy id = true ->
  yields (fun e => match e with
                   | EHttp req _ => [ (method req, url req) ]
                   | _ => []
                   end)
         (Crud.updateResource id originalData)
         [ ("PUT", Common.getUrl ("/products/" ++ to_string id)) ].
Proof.
  intros Hid. unfold Crud.updateResource. rewrite Hid. cbn [negb]. sends_auto.
Qed.

Lemma routes_app (a b : list Event) : routes (a ++ b) = (routes a ++ routes b)%list.
Proof. apply flat_map_app. Qed.

Lemma exchanges_app (a b : list Event) :
  exchanges (a ++ b) = (exchanges a ++ exchanges b)%list.
Proof. apply flat_map_app. Qed.

(** X26.  [updateOnly] updates only what it could read: it sends one GET
    on the resource and, exactly when the response has the status 200, a
    PUT on the same resource after it; with any other status no PUT is
    sent. *)
Theorem updateOnly_puts_after_a_successful_read (data : Value) (t : Ticks) :
  exists id req res rest t' e,
    Crud.updateOnly data t = (Ok tt, t', e)
    /\ truthy id = true
    /\ exchanges e = (req, res) :: rest
    /\ method req = "GET"
    /\ routes e
       = (("GET", Common.getUrl ("/products/" ++ to_string id))
          :: (if status res =? 200
              then [ ("PUT", Common.getUrl ("/products/" ++ to_string id)) ]
              else []))%list.
Proof.
  destruct (existing_id_run data t) as (id & t1 & Hid & Ht & _).
  destruct (readResource_run id t1 Ht) as (r & t2 & post & Hread & Hsucc & Hpost).
  set (req := {| method := "GET";
                 url := Common.getUrl ("/products/" ++ to_string id);
                 headers := Common.getHeaders "USER"; req_body := None |}) in *.
  set (res := http_send (n_http t1) req) in *.
  set (rest := ((if Crud.success r
                 then Crud.updateResource id (Crud.data r) ;; ret tt
                 else ret tt) ;;
                s <- Common.thinkTime ;; sleep s)).
  assert (Hrest : yields (fun e => match e with
                                   | EHttp q _ => [ (method q, url q) ]
                                   | _ => []
                                   end)
                         rest
                         (if status res =? 200
                          then [ ("PUT", Common.getUrl ("/products/" ++ to_string id)) ]
                          else [])).
  { unfold rest. rewrite Hsucc. destruct (status res =? 200).
    - apply yields_then; [| intros _; apply yields_quiet; quiet_auto ].
      apply yields_then; [ apply updateResource_sends; exact Ht | intros _ ].
      apply yields_quiet. quiet_auto.
    - apply yields_quiet. quiet_auto. }
  destruct (Hrest t2) as ([] & t3 & e3 & Erun & Hr).
  exists id, req, res, (exchanges post ++ exchanges e3)%list, t3,
    (ECall "readResource" :: EHttp req res :: post ++ e3)%list.
  split.
  { unfold Crud.updateOnly. unfold bind at 1. rewrite Hid.
    unfold bind at 1. rewrite Hread. fold rest. rewrite Erun. reflexivity. }
  split; [ exact Ht |]. split.
  { change (ECall "readResource" :: EHttp req res :: post ++ e3)%list
      with ([ ECall "readResource"; EHttp req res ] ++ (post ++ e3))%list.
    rewrite !exchanges_app. reflexivity. }
  split; [ reflexivity |].
  change (ECall "readResource" :: EHttp req res :: post ++ e3)%list
    with ([ ECall "readResource"; EHttp req res ] ++ (post ++ e3))%list.
  rewrite !routes_app, Hpost. change (routes e3) with
    (flat_map (fun e => match e with
                        | EHttp q _ => [ (method q, url q) ]
                        | _ => []
                        end) e3).
  rewrite Hr. reflexivity.
Qed.

End ScenarioFunctions.

(* ------------------------------------------------------------------ *)
(** ** The POST endpoint test (tests/example/post-endpoint.js)         *)
(* ------------------------------------------------------------------ *)

Section PostTestParts.
Context {RT : Runtime}.

Lemma item_at_nat {A : Type} (l : list A) (k : Z) :
  0 <= k -> item_at l (Fin (inject_Z k)) = nth_error l (Z.to_nat k).
Proof.
  intros Hk. unfold item_at. rewrite Qfloor_Z, Qeq_bool_refl.
  destruct (Z.leb_spec 0 k); [ reflexivity | lia ].
Qed.

Lemma last_index_3 {A : Type} (a b c : A) :
  PostEndpoint.last_index [ a; b; c ] = Fin (inject_Z 2).
Proof. unfold PostEndpoint.last_index. cbn [List.length]. apply (sub_int 3 1). lia. Qed.

Lemma quiet_reports_error (P : Event -> bool) (r : Response) :
  quiet P (PostEndpoint.reports_error r).
Proof.
  unfold PostEndpoint.reports_error. apply quiet_try_catch; [| intros; apply quiet_ret ].
  apply calm_bind; [ apply calm_lift | intros data ].
  apply calm_bind; [ apply calm_lift | intros message ].
  destruct (negb _); [ apply calm_quiet, quiet_ret |].
  apply calm_bind; [ apply calm_lift | intros error ].
  destruct (negb _); [ apply calm_quiet, quiet_ret |].
  apply calm_bind; [ apply calm_lift | intros errors ].
  apply calm_quiet, quiet_ret.
Qed.

Lemma quiet_fill (P : Event -> bool) (fuel : nat) (i : Number) (batchSize : Value)
      (items : list Value) :
  quiet P (PostEndpoint.fill fuel i batchSize items).
Proof.
  revert i items. induction fuel as [| fuel IH]; intros i items; cbn [PostEndpoint.fill].
  - apply quiet_ret.
  - destruct (i <? to_number batchSize)%num; [| apply quiet_ret ].
    apply quiet_bind; [ quiet_auto | intros p; apply IH ].
Qed.

(** The loop of [testBulkCreate] on a batch size [n]: it adds one
    payload per round until the counter reaches [n], and ends there by
    its own test when the rounds allowed are enough. *)
Lemma fill_run (fuel : nat) :
  forall (i n : Z) (acc : list Value) (t : Ticks),
    0 <= i <= n -> n - i <= Z.of_nat fuel -> n < 2 ^ 53 ->
    exists items t',
      PostEndpoint.fill fuel (Fin (inject_Z i)) (VInt n) acc t
      = (Ok (acc ++ items)%list, t', [])
      /\ Z.of_nat (List.length items) = n - i
      /\ forall more,
           PostEndpoint.fill (fuel + more) (Fin (inject_Z i)) (VInt n) acc t
           = (Ok (acc ++ items)%list, t', []).
Proof.
  induction fuel as [| fuel IH]; intros i n acc t Hi Hf Hn.
  - assert (i = n) by lia. subst i.
    exists [], t. rewrite app_nil_r. split; [ reflexivity | split; [ simpl; lia |] ].
    intros [| more]; cbn [Nat.add PostEndpoint.fill]; [ reflexivity |].
    unfold VInt. cbn [to_number B64.ltb]. rewrite Qle_bool_inject_Z, Z.leb_refl.
    reflexivity.
  - cbn [Nat.add PostEndpoint.fill]. unfold VInt at 1 3. cbn [to_number B64.ltb].
    rewrite Qle_bool_inject_Z. fold (VInt n).
    destruct (Z.leb_spec n i) as [Hle | Hlt]; cbn [negb].
    + assert (i = n) by lia. subst i.
      exists [], t. rewrite app_nil_r. repeat split. simpl. lia.
    + assert (Hp : quiet (fun _ => false) Common.createProductPayload) by quiet_auto.
      destruct (Hp t) as (p & t1 & e1 & Ep & He1).
      assert (e1 = []) by (destruct e1; [ reflexivity | discriminate He1 ]). subst e1.
      change (Fin 1) with (Fin (inject_Z 1)). rewrite (add_int i 1) by lia.
      destruct (IH (i + 1) n (acc ++ [ p ])%list t1) as (items & t' & Hrun & Hlen & Hmore);
        [ lia | lia | exact Hn |].
      exists (p :: items), t'.
      replace (acc ++ p :: items)%list with ((acc ++ [ p ]) ++ items)%list
        by (rewrite <- app_assoc; reflexivity).
      split; [| split ].
      * unfold bind. rewrite Ep, Hrun. reflexivity.
      * cbn [List.length]. lia.
      * intros more. unfold bind. rewrite Ep, (Hmore more). reflexivity.
Qed.

End PostTestParts.

(** One step of a proof that a computation of the tests is quiet, the
    checks of utils/checks.js included. *)
Ltac hush_step :=
  lazymatch goal with
  | |- quiet _ (Checks.checkPostEndpoint _ _ _) =>
      apply quiet_checkPostEndpoint; intros; reflexivity
  | |- quiet _ (Checks.checkItemResponse _ _ _) =>
      apply quiet_checkItemResponse; intros; reflexivity
  | |- quiet _ (HttpUtils.extractId _ _) => apply quiet_extractId
  | |- quiet _ (PostEndpoint.reports_error _) => apply quiet_reports_error
  | |- quiet _ (PostEndpoint.fill _ _ _ _) => apply quiet_fill
  | |- _ => quiet_step
  end.

Ltac hush := cbv beta zeta; repeat hush_step.

(** A proof that a computation yields a list of views, piece by piece. *)
Ltac tally :=
  cbv beta zeta;
  first
    [ solve [ apply yields_quiet; hush ]
    | lazymatch goal with
      | |- yields _ (http_request _) _ =>
          apply yields_http_request; intros;
          cbn [method url headers req_body]; reflexivity
      | |- yields _ (emit _) _ => apply yields_emit; lazy; reflexivity
      | |- yields _ (bind _ _) _ =>
          eapply yields_bind; [ tally | intros ?; tally | reflexivity ]
      | |- yields _ (if ?b then _ else _) _ => destruct b; tally
      | |- yields _ ?m _ => let h := head_of m in unfold h; tally
      end ].

Section PostTest.
Context {RT : Runtime}.
Hypothesis fair : forall i, unit_draw (math_random i) = true.

(** The index each test draws lies inside its table of three cases. *)
Lemma case_index (t : Ticks) :
  exists k,
    (k < 3)%nat
    /\ Common.randomInt (Fin 0) (Fin (inject_Z 2)) t
       = (Ok (Fin (inject_Z (Z.of_nat k))), advance 1 t, []).
Proof.
  change (Fin 0) with (Fin (inject_Z 0)).
  destruct (randomInt_run fair 0 2 t) as (k & Hk & Hrun); [ lia | lia | lia | lia |].
  exists (Z.to_nat k). rewrite Z2Nat.id by lia. split; [ lia | exact Hrun ].
Qed.

Lemma item_at_index {A : Type} (l : list A) (k : nat) :
  item_at l (Fin (inject_Z (Z.of_nat k))) = nth_error l k.
Proof. rewrite item_at_nat by lia. rewrite Nat2Z.id. reflexivity. Qed.

(** Each of the three tests picks its case with an index inside its
    table, so it completes normally; it enters no other function. *)
Lemma testCreateEndpoint_step (t : Ticks) :
  exists v t' e,
    PostEndpoint.testCreateEndpoint t = (Ok v, t', ECall "testCreateEndpoint" :: e)
    /\ forallb no_entry e = true.
Proof.
  unfold PostEndpoint.testCreateEndpoint, PostEndpoint.payloadTypes.
  rewrite last_index_3, bind_emit.
  destruct (case_index t) as (k & Hk & Hrun).
  rewrite (bind_run _ _ _ _ _ _ Hrun), item_at_index.
  cbn [result_of ticks_of events_of fst snd app].
  destruct k as [| [| [| k]]]; [ | | | lia ]; cbn [nth_error];
    match goal with
    | |- context [ (?m (advance 1 t)) ] =>
        assert (H : quiet no_entry m)
          by (cbn [PostEndpoint.generator PostEndpoint.type]; hush);
        destruct (H (advance 1 t)) as (v & t' & e & E & He); rewrite E;
        exists v, t', e; split; [ reflexivity | exact He ]
    end.
Qed.

Lemma testInvalidPayload_step (t : Ticks) :
  exists t' e,
    PostEndpoint.testInvalidPayload t = (Ok tt, t', ECall "testInvalidPayload" :: e)
    /\ forallb no_entry e = true.
Proof.
  unfold PostEndpoint.testInvalidPayload, PostEndpoint.invalidPayloads.
  rewrite last_index_3, bind_emit.
  destruct (case_index t) as (k & Hk & Hrun).
  rewrite (bind_run _ _ _ _ _ _ Hrun), item_at_index.
  cbn [result_of ticks_of events_of fst snd app].
  destruct k as [| [| [| k]]]; [ | | | lia ]; cbn [nth_error];
    match goal with
    | |- context [ (?m (advance 1 t)) ] =>
        assert (H : quiet no_entry m)
          by (cbn [PostEndpoint.payload PostEndpoint.description]; hush);
        destruct (H (advance 1 t)) as ([] & t' & e & E & He); rewrite E;
        exists t', e; split; [ reflexivity | exact He ]
    end.
Qed.

Lemma testBulkCreate_step (t : Ticks) :
  exists t' e,
    PostEndpoint.testBulkCreate t = (Ok tt, t', ECall "testBulkCreate" :: e)
    /\ forallb no_entry e = true.
Proof.
  unfold PostEndpoint.testBulkCreate, PostEndpoint.batchSizes.
  rewrite last_index_3, bind_emit.
  destruct (case_index t) as (k & Hk & Hrun).
  rewrite (bind_run _ _ _ _ _ _ Hrun).
  cbn [result_of ticks_of events_of fst snd app].
  match goal with
  | |- context [ (?m (advance 1 t)) ] =>
      assert (H : quiet no_entry m) by hush;
      destruct (H (advance 1 t)) as ([] & t' & e & E & He); rewrite E;
      exists t', e; split; [ reflexivity | exact He ]
  end.
Qed.

Lemma no_entry_calls (e : list Event) : forallb no_entry e = true -> calls e = [].
Proof. apply flat_map_nil. intros [] H; try reflexivity. discriminate H. Qed.

(** X27.  An iteration of the POST test runs exactly one of its three
    tests, chosen by one draw: the creation test below 0.80, the
    invalid-payload test from there below 0.95, the bulk test above; it
    completes normally and ends with a sleep of two to six seconds, twice
    the think time. *)
Theorem post_iteration_runs_one_test (data : Value) (t : Ticks) :
  let rand := math_random (n_rand t) in
  exists t' before seconds,
    PostEndpoint.default data t = (Ok tt, t', (before ++ [ ESleep seconds ])%list)
    /\ calls (before ++ [ ESleep seconds ])
       = [ if (rand <? B64.lit 80 100)%num then "testCreateEndpoint"
           else if (rand <? B64.lit 95 100)%num then "testInvalidPayload"
           else "testBulkCreate" ]
    /\ (Fin 2 <=? seconds)%num = true /\ (seconds <=? Fin 6)%num = true.
Proof.
  cbv zeta. unfold PostEndpoint.default.
  assert (Hd : Math_random t = (Ok (math_random (n_rand t)), advance 1 t, []))
    by reflexivity.
  rewrite (bind_run _ _ _ _ _ _ Hd).
  cbn [result_of ticks_of events_of fst snd app].
  assert (Hsleep : forall t1,
             exists t2 seconds,
               (s <- Common.thinkTime ;; sleep (s * Fin 2)%num) t1
               = (Ok tt, t2, [ ESleep seconds ])
               /\ (Fin 2 <=? seconds)%num = true /\ (seconds <=? Fin 6)%num = true).
  { intros t1. destruct (thinkTime_run_ms fair t1) as (k & Hk & Hrun).
    unfold bind. rewrite Hrun. eexists _, _. split; [ reflexivity |].
    pose proof (each_ms
                  (fun k => let s := ((Fin (inject_Z (1000 + k))
                                       / Fin (inject_Z 1000)) * Fin 2)%num in
                            (Fin 2 <=? s)%num && (s <=? Fin 6)%num)
                  ltac:(vm_compute; reflexivity) k Hk) as H.
    cbv beta zeta in H. apply andb_prop in H. exact H. }
  assert (Hone : forall (name : string) (m : M unit) (t1 : Ticks) (e : list Event),
             m (advance 1 t) = (Ok tt, t1, ECall name :: e) ->
             forallb no_entry e = true ->
             exists t' before seconds,
               (m ;; s <- Common.thinkTime ;; sleep (s * Fin 2)%num) (advance 1 t)
               = (Ok tt, t', (before ++ [ ESleep seconds ])%list)
               /\ calls (before ++ [ ESleep seconds ]) = [ name ]
               /\ (Fin 2 <=? seconds)%num = true /\ (seconds <=? Fin 6)%num = true).
  { intros name m t1 e Hm He.
    destruct (Hsleep t1) as (t2 & seconds & Hs & Hlo & Hhi).
    exists t2, (ECall name :: e), seconds.
    split; [ rewrite (bind_run _ _ _ _ _ _ Hm), Hs; reflexivity |].
    split; [| split; assumption ].
    cbn [app]. rewrite calls_cons, calls_app, (no_entry_calls e He). reflexivity. }
  assert (Hfin : forall (name : string) (m : M unit),
             (exists t' before seconds,
                 m (advance 1 t) = (Ok tt, t', (before ++ [ ESleep seconds ])%list)
                 /\ calls (before ++ [ ESleep seconds ]) = [ name ]
                 /\ (Fin 2 <=? seconds)%num = true /\ (seconds <=? Fin 6)%num = true) ->
             exists t' before seconds,
               (result_of (m (advance 1 t)), ticks_of (m (advance 1 t)),
                events_of (m (advance 1 t)))
               = (Ok tt, t', (before ++ [ ESleep seconds ])%list)
               /\ calls (before ++ [ ESleep seconds ]) = [ name ]
               /\ (Fin 2 <=? seconds)%num = true /\ (seconds <=? Fin 6)%num = true).
  { intros name m (t' & before & seconds & Hm & H).
    exists t', before, seconds. rewrite Hm. split; [ reflexivity | exact H ]. }
  destruct (math_random (n_rand t) <? B64.lit 80 100)%num.
  - apply Hfin.
    destruct (testCreateEndpoint_step (advance 1 t)) as (v & t1 & e & Hm & He).
    apply (Hone "testCreateEndpoint" (PostEndpoint.testCreateEndpoint ;; ret tt) t1 e);
      [| exact He ].
    unfold bind at 1. rewrite Hm. unfold ret. cbn [app]. rewrite app_nil_r. reflexivity.
  - destruct (math_random (n_rand t) <? B64.lit 95 100)%num; apply Hfin.
    + destruct (testInvalidPayload_step (advance 1 t)) as (t1 & e & Hm & He).
      exact (Hone "testInvalidPayload" _ t1 e Hm He).
    + destruct (testBulkCreate_step (advance 1 t)) as (t1 & e & Hm & He).
      exact (Hone "testBulkCreate" _ t1 e Hm He).
Qed.

End PostTest.

Section PostCounts.
Context {RT : Runtime}.

(** A run of [post]: the request it sends, the response it returns, and
    nothing besides but a console line. *)
Lemma post_run (path : string) (payload : Value) (role context : string) (t : Ticks) :
  let req := {| method := "POST"; url := Common.getUrl path;
                headers := Common.getHeaders role;
                req_body := json_text payload |} in
  let res := http_send (n_http t) req in
  exists t' logs,
    HttpUtils.post path payload role context t = (Ok res, t', EHttp req res :: logs)
    /\ exchanges logs = [] /\ (forall metric, samples metric logs = [])
    /\ recorded_checks logs = [].
Proof.
  cbv zeta.
  unfold HttpUtils.post, HttpUtils.log_if_error, Common.logRequestError,
    Common.logError, console_error.
  cbv [negb bind emit ret http_request].
  cbn [n_http n_date n_rand].
  match goal with
  | |- context [ http_send (n_http t) ?q ] => set (res := http_send (n_http t) q)
  end.
  destruct (status res >=? 400); eexists _, _; (split; [ reflexivity | repeat split ]).
Qed.

(** The common shape of the two tests that create: silent preparation of
    the payload, the clock read, the POST, then the rest on the response. *)
Lemma send_shape {X A : Type} (gen : M X) (mk : X -> Value) (path role context : string)
      (k : X -> Number -> Response -> M A) (t : Ticks) :
  quiet (fun _ => false) gen ->
  exists x t1 req res t3 logs,
    gen t = (Ok x, t1, [])
    /\ method req = "POST" /\ url req = Common.getUrl path
    /\ req_body req = json_text (mk x)
    /\ exchanges logs = [] /\ (forall metric, samples metric logs = [])
    /\ recorded_checks logs = []
    /\ forall r t' e,
         k x (date_now (n_date t1)) res t3 = (r, t', e) ->
         (x <- gen ;;
          startTime <- Date_now ;;
          res <- HttpUtils.post path (mk x) role context ;;
          k x startTime res) t
         = (r, t', EHttp req res :: (logs ++ e)%list).
Proof.
  intros Hq. destruct (silent_run gen t Hq) as (x & t1 & Eg).
  set (t2 := {| n_http := n_http t1; n_date := S (n_date t1); n_rand := n_rand t1 |}).
  destruct (post_run path (mk x) role context t2) as (t3 & logs & Ep & H1 & H2 & H3).
  match type of Ep with
  | _ = (Ok ?res, _, EHttp ?req _ :: _) => exists x, t1, req, res, t3, logs
  end.
  split; [ exact Eg |]. split; [ reflexivity |]. split; [ reflexivity |].
  split; [ reflexivity |]. split; [ exact H1 |]. split; [ exact H2 |].
  split; [ exact H3 |].
  intros r t' e Ek.
  unfold bind at 1. rewrite Eg.
  unfold bind at 1. unfold Date_now at 1. fold t2.
  unfold bind at 1. rewrite Ep. rewrite Ek. reflexivity.
Qed.

Lemma view_length {B : Type} (g : Event -> list B) (e : list Event) :
  List.length (flat_map g e)
  = List.length (flat_map (fun x => map (fun _ => tt) (g x)) e).
Proof.
  induction e as [| x e IH]; [ reflexivity |].
  cbn [flat_map]. rewrite !length_app, length_map, IH. reflexivity.
Qed.

Hypothesis fair : forall i, unit_draw (math_random i) = true.

(** X28.  Every run of [testCreateEndpoint] sends one POST to the
    products collection, adds one sample to the request counter and one to
    the duration trend, and counts the response exactly once: as a created
    item when its status is 2xx, as an error otherwise. *)
Theorem testCreateEndpoint_counts (t : Ticks) :
  exists v t' e req res,
    PostEndpoint.testCreateEndpoint t = (Ok v, t', e)
    /\ exchanges e = [ (req, res) ]
    /\ method req = "POST" /\ url req = Common.getUrl "/products"
    /\ samples PostEndpoint.createRequests e = [ VInt 1 ]
    /\ List.length (samples PostEndpoint.createDuration e) = 1%nat
    /\ samples PostEndpoint.createdItems e
       = (if PostEndpoint.is_success res then [ VInt 1 ] else [])
    /\ samples PostEndpoint.createErrors e
       = (if PostEndpoint.is_success res then [] else [ VInt 1 ]).
Proof.
  unfold PostEndpoint.testCreateEndpoint, PostEndpoint.payloadTypes.
  rewrite last_index_3, bind_emit.
  destruct (case_index fair t) as (k & Hk & Hrun).
  rewrite (bind_run _ _ _ _ _ _ Hrun), item_at_index.
  cbn [result_of ticks_of events_of fst snd app].
  destruct k as [| [| [| k]]]; [ | | | lia ]; cbn [nth_error];
    cbn [PostEndpoint.generator PostEndpoint.type].
  all: match goal with
    | |- context [ bind ?g (fun payload =>
                     bind Date_now (fun st =>
                       bind (HttpUtils.post ?p (@?mk payload) ?r ?c) (@?k payload st))) ] =>
        destruct (send_shape g mk p r c k (advance 1 t))
          as (x & t1 & req & res & t3 & logs & Eg & Hm & Hu & Hb & Hx & Hs & Hc & Hsend);
          [ hush |]
    end.
  all: cbv beta in Hsend.
  all: match type of Hsend with
    | forall r t' e, ?m ?s = _ -> _ =>
        assert (Y1 : yields (fun e => match e with
                                      | EHttp req res => [ (req, res) ]
                                      | _ => []
                                      end) m []) by tally;
        assert (Y2 : yields (sample_of PostEndpoint.createRequests) m [ VInt 1 ])
          by tally;
        assert (Y3 : yields (fun x => map (fun _ => tt)
                                          (sample_of PostEndpoint.createDuration x))
                            m [ tt ]) by tally;
        assert (Y4 : yields (sample_of PostEndpoint.createdItems) m
                            (if PostEndpoint.is_success res then [ VInt 1 ] else []))
          by (destruct (PostEndpoint.is_success res); cbn [negb]; tally);
        assert (Y5 : yields (sample_of PostEndpoint.createErrors) m
                            (if PostEndpoint.is_success res then [] else [ VInt 1 ]))
          by (destruct (PostEndpoint.is_success res); cbn [negb]; tally);
        destruct (Y1 s) as (v & t' & e & E & _)
    end.
  all: exists v, t', (ECall "testCreateEndpoint" :: EHttp req res :: logs ++ e)%list,
         req, res.
  all: rewrite (Hsend _ _ _ E).
  all: split; [ reflexivity |].
  all: split;
    [ change ((req, res) :: exchanges (logs ++ e) = [ (req, res) ]);
      rewrite exchanges_app, Hx; unfold exchanges;
      rewrite (yields_run _ _ _ _ _ _ _ Y1 E); reflexivity |].
  all: split; [ exact Hm |]. all: split; [ exact Hu |].
  all: repeat split.
  all: rewrite !samples_cons; cbn [sample_of app].
  all: rewrite ?samples_app, ?Hs.
  all: cbn [app]; unfold samples; try rewrite view_length.
  all: first [ rewrite (yields_run _ _ _ _ _ _ _ Y2 E)
             | rewrite (yields_run _ _ _ _ _ _ _ Y3 E)
             | rewrite (yields_run _ _ _ _ _ _ _ Y4 E)
             | rewrite (yields_run _ _ _ _ _ _ _ Y5 E) ]; reflexivity.
Qed.

(** X29.  [testBulkCreate] posts to the bulk route a body whose [items]
    array holds as many payloads as the batch size it drew, which is 5, 10
    or 25, and names its second check after that size; the loop that fills
    the array ends by its own test, whatever further rounds it is allowed. *)
Theorem testBulkCreate_sends_the_batch (t : Ticks) :
  (exists t' e req res items quick,
      PostEndpoint.testBulkCreate t = (Ok tt, t', e)
      /\ exchanges e = [ (req, res) ]
      /\ method req = "POST" /\ url req = Common.getUrl "/products/bulk"
      /\ req_body req = Some (JSON_stringify (VObj [ ("items", VArr items) ]))
      /\ In (Z.of_nat (List.length items)) [ 5; 10; 25 ]
      /\ recorded_checks e
         = [ ("bulk create status is 2xx", PostEndpoint.is_success res);
             ("batch of " ++ to_string (VInt (Z.of_nat (List.length items)))
              ++ " items processed", PostEndpoint.is_success res);
             ("bulk response time acceptable", quick) ])
  /\ (forall size more t0,
         In size PostEndpoint.batchSizes ->
         PostEndpoint.fill (25 + more) (Fin 0) size [] t0
         = PostEndpoint.fill 25 (Fin 0) size [] t0).
Proof.
  assert (Hfill : forall n t0,
             In n [ 5; 10; 25 ] ->
             exists items t',
               PostEndpoint.fill 25 (Fin 0) (VInt n) [] t0 = (Ok items, t', [])
               /\ Z.of_nat (List.length items) = n
               /\ forall more,
                    PostEndpoint.fill (25 + more) (Fin 0) (VInt n) [] t0
                    = (Ok items, t', [])).
  { intros n t0 Hn.
    destruct (fill_run 25 0 n [] t0) as (items & t' & H1 & H2 & H3).
    - cbn [In] in Hn. lia.
    - cbn [In] in Hn. lia.
    - cbn [In] in Hn. lia.
    - exists items, t'. cbn [app] in H1, H3. rewrite Z.sub_0_r in H2.
      split; [ exact H1 | split; [ exact H2 | exact H3 ] ]. }
  split.
  - unfold PostEndpoint.testBulkCreate, PostEndpoint.batchSizes.
    rewrite last_index_3, bind_emit.
    destruct (case_index fair t) as (k & Hk & Hrun).
    rewrite (bind_run _ _ _ _ _ _ Hrun), item_at_index.
    cbn [result_of ticks_of events_of fst snd app].
    assert (Hsize : exists n, In n [ 5; 10; 25 ]
                              /\ nth_error [ VInt 5; VInt 10; VInt 25 ] k = Some (VInt n)).
    { destruct k as [| [| [| k]]]; [ | | | lia ]; cbn [nth_error In]; eauto 6. }
    destruct Hsize as (n & Hn & ->).
    match goal with
    | |- context [ bind ?g (fun payload =>
                     bind Date_now (fun st =>
                       bind (HttpUtils.post ?p (@?mk payload) ?r ?c) (@?k payload st))) ] =>
        destruct (send_shape g mk p r c k (advance 1 t))
          as (x & t1 & req & res & t3 & logs & Eg & Hm & Hu & Hb & Hx & Hs & Hc & Hsend);
          [ hush |]
    end.
    cbv beta in Hsend, Hb.
    destruct (Hfill n (advance 1 t) Hn) as (items & t1' & Ef & Hlen & _).
    rewrite Ef in Eg. injection Eg as -> ->.
    match type of Hsend with
    | forall r t' e, ?m ?s = _ -> _ =>
        assert (Et : exists t4 quick,
                   m s = (Ok tt, t4,
                          [ ECheck "bulk create status is 2xx"
                                   (PostEndpoint.is_success res);
                            ECheck ("batch of " ++ to_string (VInt n)
                                    ++ " items processed")
                                   (PostEndpoint.is_success res);
                            ECheck "bulk response time acceptable" quick ]))
    end.
    { eexists _, _. unfold PostEndpoint.is_success.
      cbv [bind Date_now check emit ret Checks.status_2xx].
      cbn [app truthy fst snd]. reflexivity. }
    destruct Et as (t4 & quick & Et).
    match type of Et with
    | _ = (_, _, ?tail) =>
        exists t4, (ECall "testBulkCreate" :: EHttp req res :: logs ++ tail)%list,
          req, res, x, quick
    end.
    rewrite (Hsend _ _ _ Et).
    split; [ reflexivity |].
    unfold exchanges, recorded_checks in *.
    split; [ cbn [flat_map app]; rewrite flat_map_app, Hx; reflexivity |].
    split; [ exact Hm |]. split; [ exact Hu |]. split; [ exact Hb |].
    split; [ rewrite Hlen; exact Hn |].
    rewrite Hlen. cbn [flat_map app]. rewrite flat_map_app, Hc. reflexivity.
  - intros size more t0 Hsize.
    assert (Hn : exists n, In n [ 5; 10; 25 ] /\ size = VInt n).
    { cbn [In PostEndpoint.batchSizes] in Hsize.
      destruct Hsize as [<- | [<- | [<- | []]]]; eexists; (split; [| reflexivity ]);
        cbn [In]; auto. }
    destruct Hn as (n & Hn & ->).
    destruct (Hfill n t0 Hn) as (items & t' & E & _ & Hmore).
    rewrite E. apply Hmore.
Qed.

End PostCounts.

(* ------------------------------------------------------------------ *)
(** ** The virtual users of the two example tests                      *)
(* ------------------------------------------------------------------ *)

Section TestOptions.
Context {RT : Runtime}.

(** X30.  The virtual users the two example tests declare, half and
    three tenths of the profile's rounded up, are whole numbers for every
    profile: 1 and 1 for SMOKE, 5 and 3 for LIGHT, 15 and 9 for MEDIUM,
    50 and 30 for HEAVY; so each test declares at least one virtual user
    and no more than the profile has. *)
Theorem test_vus_per_profile (name : string) :
  In name valid_profiles -> ENV "PROFILE" = Some name ->
  In (name, Crud.options_vus, PostEndpoint.options_vus)
     [ ("SMOKE", Fin (inject_Z 1), Fin (inject_Z 1));
       ("LIGHT", Fin (inject_Z 5), Fin (inject_Z 3));
       ("MEDIUM", Fin (inject_Z 15), Fin (inject_Z 9));
       ("HEAVY", Fin (inject_Z 50), Fin (inject_Z 30)) ]
  /\ (Fin 1 <=? PostEndpoint.options_vus)%num = true
  /\ (PostEndpoint.options_vus <=? Crud.options_vus)%num = true
  /\ (Crud.options_vus <=? to_number (prop Env.getProfile "vus"))%num = true.
Proof.
  intros Hin Henv.
  pose proof (getProfile_valid name Hin Henv) as Hp.
  unfold Crud.options_vus, PostEndpoint.options_vus. rewrite Hp.
  simpl in Hin.
  destruct Hin as [<- | [<- | [<- | [<- | []]]]].
  - split; [ left; vm_compute; reflexivity | repeat split; vm_compute; reflexivity ].
  - split; [ right; left; vm_compute; reflexivity
           | repeat split; vm_compute; reflexivity ].
  - split; [ right; right; left; vm_compute; reflexivity
           | repeat split; vm_compute; reflexivity ].
  - split; [ right; right; right; left; vm_compute; reflexivity
           | repeat split; vm_compute; reflexivity ].
Qed.

End TestOptions.

(* ------------------------------------------------------------------ *)
(** ** The properties on the sample runtimes                           *)
(* ------------------------------------------------------------------ *)

Section HeavyProfile.
#[local] Existing Instance Sample.heavy.

(** C2 as amended, on the HEAVY profile. *)
Lemma vu_allocation_witness :
  (Fin 1 <=? vu_count RunAll.create)%num = true
  /\ ("HEAVY" <> "SMOKE" ->
      B64.eqb allocated base_vus = true /\ (allocated <=? base_vus)%num = true)
  /\ ("HEAVY" = "SMOKE" ->
      map (fun s => RunAll.vus (snd s)) RunAll.scenarios = [ VInt 1; VInt 1; VInt 1 ]
      /\ B64.eqb allocated (Fin 3) = true /\ B64.eqb base_vus (Fin 1) = true).
Proof.
  apply (vu_allocation "HEAVY").
  - simpl. tauto.
  - reflexivity.
Defined.

End HeavyProfile.

Section PlainRuntime.
#[local] Existing Instance Sample.plain.

(** C9 as amended, for the role GUEST. *)
Lemma unknown_role_unauthenticated_witness :
  token "GUEST" = VUndefined
  /\ assoc "Authorization" (Common.getHeaders "GUEST") = Some "Bearer undefined"
  /\ (exists req,
         requests (events_of (HttpUtils.get "/products" "GUEST" "get" ticks0)) = [ req ]
         /\ assoc "Authorization" (headers req) = Some "Bearer undefined"
         /\ result_of (HttpUtils.get "/products" "GUEST" "get" ticks0)
            = Ok (http_send (n_http ticks0) req))
  /\ (forall anyRole, terminates (HttpUtils.get "/products" anyRole "get")).
Proof.
  apply (unknown_role_unauthenticated "GUEST" "/products" "get" ticks0).
  - simpl. intros [H | [H | [H | []]]]; discriminate H.
  - reflexivity.
Defined.

(** C10 on a parameter object with a [null] entry. *)
Lemma getWithParams_query_witness :
  let params := VObj [ ("pageNumber", VInt 1); ("search", VNull);
                       ("pageSize", VInt 10) ] in
  HttpUtils.getWithParams "/products" params "USER" "get-list" ticks0
  = HttpUtils.get (spec_path "/products" params) "USER" "get-list" ticks0
  /\ Common.getUrlWithParams "/products" params
     = Ok (Common.getUrl (spec_path "/products" params))
  /\ (spec_pairs (own_entries params) = [] -> spec_path "/products" params = "/products").
Proof.
  intros params.
  apply (getWithParams_query "/products" params "USER" "get-list" ticks0).
  discriminate.
Defined.

(** C6 on a response whose body is HTML. *)
Lemma validators_reject_invalid_json_witness :
  let res := Sample.response 200 "<html>" (Throw "SyntaxError") in
  let ok := fun _ : Value => ret (VBool true) in
  Checks.checkListResponse res "list" ticks0
  = (Ok false, ticks0,
     [ EConsole "error" [ "Failed to parse list response:"; "SyntaxError" ] ])
  /\ Checks.checkItemResponse res [ VStr "id" ] "list" ticks0
     = (Ok false, ticks0,
        [ EConsole "error" [ "Failed to parse list response:"; "SyntaxError" ] ])
  /\ Checks.checkFieldTypes res (VObj [ ("id", VStr "number") ]) "list" ticks0
     = (Ok false, ticks0,
        [ EConsole "error" [ "Failed to parse list response:"; "SyntaxError" ] ])
  /\ Checks.checkListItemStructure res ok "list" ticks0
     = (Ok false, ticks0,
        [ EConsole "error" [ "Failed to validate list:"; "SyntaxError" ] ]).
Proof.
  intros res ok.
  apply (validators_reject_invalid_json res "SyntaxError" "list"
           [ VStr "id" ] (VObj [ ("id", VStr "number") ]) ok ticks0).
  reflexivity.
Defined.

(** C8.  [generateThresholds] does not return exactly the three bounds
    of the SLO record.  On [ENDPOINT_SLO.products.list], the example of
    its own documentation, the documentation announces the two keys
    [http_req_duration] and [http_req_failed] with the three bounds; the
    function returns them followed by a third key, [checks], with the
    bound ['rate>0.95'], which the companion [generateScenarioThresholds]
    does not add. *)
Theorem generateThresholds_returns_undocumented_checks :
  let documented : Slo.Thresholds :=
    [ ("http_req_duration", [ "p(95)<300"; "p(99)<800" ]);
      ("http_req_failed", [ "rate<0.01" ]) ] in
  Slo.generateThresholds Slo.ENDPOINT_SLO_products_list
  = (documented ++ [ ("checks", [ "rate>0.95" ]) ])%list
  /\ Slo.generateThresholds Slo.ENDPOINT_SLO_products_list <> documented
  /\ Slo.generateScenarioThresholds Slo.ENDPOINT_SLO_products_list "get-list"
     = [ ("http_req_duration{test_type:get-list}", [ "p(95)<300"; "p(99)<800" ]);
         ("http_req_failed{test_type:get-list}", [ "rate<0.01" ]) ].
Proof.
  cbv zeta. split; [ vm_compute; reflexivity | split ].
  - intros H. apply (f_equal (@List.length _)) in H. discriminate H.
  - vm_compute. reflexivity.
Qed.

(** The example of the documentation of [generateThresholds], with the
    bound on checks the function adds. *)
Example thresholds_products_list :
  Slo.generateThresholds Slo.ENDPOINT_SLO_products_list
  = [ ("http_req_duration", [ "p(95)<300"; "p(99)<800" ]);
      ("http_req_failed", [ "rate<0.01" ]);
      ("checks", [ "rate>0.95" ]) ].
Proof. vm_compute. reflexivity. Qed.

Example thresholds_tagged_create :
  Slo.generateScenarioThresholds Slo.DEFAULT_SLO_write "create"
  = [ ("http_req_duration{test_type:create}", [ "p(95)<1000"; "p(99)<2500" ]);
      ("http_req_failed{test_type:create}", [ "rate<0.02" ]) ].
Proof. vm_compute. reflexivity. Qed.

(** The example of the documentation of [getUrlWithParams], on the DEV host. *)
Example url_with_params :
  Common.getUrlWithParams "/users" (VObj [ ("page", VInt 1); ("limit", VInt 10) ])
  = Ok "https://api-dev.example.com/users?page=1&limit=10".
Proof. vm_compute. reflexivity. Qed.

Example url_escapes_and_omits :
  Common.getUrlWithParams "/products"
    (VObj [ ("page number", VInt 1); ("q", VNull); ("s", VStr "a&b=c");
            ("u", VUndefined) ])
  = Ok "https://api-dev.example.com/products?page%20number=1&s=a%26b%3Dc".
Proof. vm_compute. reflexivity. Qed.

Example headers_of_roles :
  assoc "Authorization" (Common.getHeaders "ADMIN") = Some "Bearer your-admin-token-here"
  /\ assoc "Authorization" (Common.getHeaders "GUEST") = Some "Bearer undefined"
  /\ assoc "Authorization" (Common.getHeaders "constructor")
     = Some "Bearer function Object() { [native code] }".
Proof. vm_compute. repeat split. Qed.

End PlainRuntime.

Section RejectingServer.
#[local] Existing Instance Sample.rejecting.

(** C1 on a server that answers the creation with a 500. *)
Lemma create_failure_aborts_flow_witness :
  result_of (Crud.default ticks0) = Ok tt
  /\ calls (events_of (Crud.default ticks0)) = [ "createResource" ]
  /\ samples Crud.fullFlowFailed (events_of (Crud.default ticks0)) = [ VInt 1 ]
  /\ samples Crud.fullFlowSuccess (events_of (Crud.default ticks0)) = [].
Proof.
  eapply (create_failure_aborts_flow ticks0).
  - vm_compute. reflexivity.
  - reflexivity.
Defined.

End RejectingServer.

Section ForgetfulServer.
#[local] Existing Instance Sample.forgetful.

(** Without an id the six steps run, only CREATE and the final GET reach
    the server, and only CREATE touches its metrics. *)
Example flow_without_id :
  calls (events_of (Crud.default ticks0)) = six_steps
  /\ map method (requests (events_of (Crud.default ticks0))) = [ "POST"; "GET" ]
  /\ metric_log (events_of (Crud.default ticks0))
     = step_entries Crud.createDuration Crud.operationCounts_create
  /\ samples Crud.fullFlowFailed (events_of (Crud.default ticks0)) = [ VInt 1 ].
Proof. vm_compute. repeat split. Qed.

End ForgetfulServer.

Section SmokeProfile.
#[local] Existing Instance Sample.smoke.

Example smoke_allocation :
  map (fun s => RunAll.vus (snd s)) RunAll.scenarios = [ VInt 1; VInt 1; VInt 1 ]
  /\ RunAll.profile_vus = VInt 1.
Proof. vm_compute. split; reflexivity. Qed.

End SmokeProfile.

Section HappyServer.
#[local] Existing Instance Sample.happy.

(** C5 on a server on which every step succeeds. *)
Lemma full_success_counted_once_witness :
  result_of (Crud.default ticks0) = Ok tt
  /\ samples Crud.fullFlowSuccess (events_of (Crud.default ticks0)) = [ VInt 1 ]
  /\ samples Crud.fullFlowFailed (events_of (Crud.default ticks0)) = []
  /\ check_results "CRUD flow completed successfully" (events_of (Crud.default ticks0))
     = [ true ].
Proof.
  eapply full_success_counted_once.
  - vm_compute. reflexivity.
  - reflexivity.
  - vm_compute. reflexivity.
  - reflexivity.
  - vm_compute. reflexivity.
  - reflexivity.
  - vm_compute. reflexivity.
  - reflexivity.
  - vm_compute. reflexivity.
  - reflexivity.
  - vm_compute. reflexivity.
Defined.

(** C3 on a server on which every step succeeds. *)
Lemma verify_deleted_decides_flow_witness :
  exists t5 pre post,
    let res := http_send (n_http t5) (verify_request (Crud.id Sample.created)) in
    events_of (Crud.default ticks0)
    = (pre ++ ECall "verifyDeleted"
           :: EHttp (verify_request (Crud.id Sample.created)) res :: post)%list
    /\ calls pre = [ "createResource"; "readResource"; "updateResource";
                     "readResource"; "deleteResource" ]
    /\ calls post = [] /\ requests post = []
    /\ result_of (Crud.verifyDeleted (Crud.id Sample.created) t5)
       = Ok (status res =? 404)
    /\ (status res <> 404 ->
        samples Crud.fullFlowFailed (events_of (Crud.default ticks0)) = [ VInt 1 ]
        /\ samples Crud.fullFlowSuccess (events_of (Crud.default ticks0)) = [])
    /\ (Crud.is_2xx res = true -> status res <> 404).
Proof.
  eapply (verify_deleted_decides_flow ticks0 _ Sample.created).
  - vm_compute. reflexivity.
  - reflexivity.
Defined.

End HappyServer.

Section ReadFailingServer.
#[local] Existing Instance Sample.read_failing.

(** After a READ that fails with the status 500 the five other steps
    still run and send their requests, READ has added to its metrics on
    both calls, and the flow is counted as failed. *)
Example flow_after_failed_read :
  calls (events_of (Crud.default ticks0)) = six_steps
  /\ map method (requests (events_of (Crud.default ticks0)))
     = [ "POST"; "GET"; "PUT"; "GET"; "DELETE"; "GET" ]
  /\ samples Crud.operationCounts_read (events_of (Crud.default ticks0))
     = [ VInt 1; VInt 1 ]
  /\ check_results "READ: status 200" (events_of (Crud.default ticks0))
     = [ false; true ]
  /\ samples Crud.fullFlowFailed (events_of (Crud.default ticks0)) = [ VInt 1 ]
  /\ samples Crud.fullFlowSuccess (events_of (Crud.default ticks0)) = [].
Proof. vm_compute. repeat split. Qed.

End ReadFailingServer.

Section InheritedProfileName.
#[local] Existing Instance Sample.profile_toString.

(** With [PROFILE=toString] the profile is a built-in function. *)
Example getProfile_of_inherited_name :
  Env.getProfile = VNative "toString".
Proof. vm_compute. reflexivity. Qed.

End InheritedProfileName.

(** C4 as amended, on two servers: one that creates the resource and
    fails the first READ, and one that accepts the creation without
    returning an id, so that READ, UPDATE and DELETE have no id to work
    on. *)
Lemma flow_continues_after_failures_witness :
  (let RT := Sample.read_failing in
   exists r2 r3 r4 r5 b t1 t2 t3 t4 t5 t6 e2 e3 e4 e5 e6,
     Crud.readResource (Crud.id Sample.created) t1 = (Ok r2, t2, e2)
     /\ Crud.updateResource (Crud.id Sample.created)
          (js_or (Crud.data r2) (Crud.data Sample.created)) t2
        = (Ok r3, t3, e3)
     /\ Crud.readResource (Crud.id Sample.created) t3 = (Ok r4, t4, e4)
     /\ Crud.deleteResource (Crud.id Sample.created) t4 = (Ok r5, t5, e5)
     /\ Crud.verifyDeleted (Crud.id Sample.created) t5 = (Ok b, t6, e6)
     /\ result_of (Crud.default ticks0) = Ok tt
     /\ calls (events_of (Crud.default ticks0)) = six_steps
     /\ check_results "CRUD flow completed successfully"
          (events_of (Crud.default ticks0))
        = [ flow_outcome r2 r3 r4 r5 b ]
     /\ samples Crud.fullFlowFailed (events_of (Crud.default ticks0))
        = (if flow_outcome r2 r3 r4 r5 b then [] else [ VInt 1 ])
     /\ samples Crud.fullFlowSuccess (events_of (Crud.default ticks0))
        = (if flow_outcome r2 r3 r4 r5 b then [ VInt 1 ] else [])
     /\ metric_log (events_of (Crud.default ticks0))
        = (step_entries Crud.createDuration Crud.operationCounts_create
           ++ (if truthy (Crud.id Sample.created)
               then step_entries Crud.readDuration Crud.operationCounts_read
                    ++ step_entries Crud.updateDuration Crud.operationCounts_update
                    ++ step_entries Crud.readDuration Crud.operationCounts_read
                    ++ step_entries Crud.deleteDuration Crud.operationCounts_delete
               else []))%list
     /\ (truthy (Crud.id Sample.created) = false ->
         let skipped (name context : string) : list Event :=
           [ ECall name;
             EConsole "error" [ "ERROR [" ++ context ++ "]: No ID provided" ] ] in
         e2 = skipped "readResource" "crud-read"
         /\ e3 = skipped "updateResource" "crud-update"
         /\ e4 = skipped "readResource" "crud-read"
         /\ e5 = skipped "deleteResource" "crud-delete"
         /\ Crud.success r2 = false /\ Crud.success r3 = false
         /\ Crud.success r4 = false /\ Crud.success r5 = false
         /\ requests e2 = [] /\ requests e3 = []
         /\ requests e4 = [] /\ requests e5 = []
         /\ flow_outcome r2 r3 r4 r5 b = false))
  /\ (let RT := Sample.forgetful in
   exists r2 r3 r4 r5 b t1 t2 t3 t4 t5 t6 e2 e3 e4 e5 e6,
     Crud.readResource (Crud.id Sample.created_without_id) t1 = (Ok r2, t2, e2)
     /\ Crud.updateResource (Crud.id Sample.created_without_id)
          (js_or (Crud.data r2) (Crud.data Sample.created_without_id)) t2
        = (Ok r3, t3, e3)
     /\ Crud.readResource (Crud.id Sample.created_without_id) t3 = (Ok r4, t4, e4)
     /\ Crud.deleteResource (Crud.id Sample.created_without_id) t4 = (Ok r5, t5, e5)
     /\ Crud.verifyDeleted (Crud.id Sample.created_without_id) t5 = (Ok b, t6, e6)
     /\ result_of (Crud.default ticks0) = Ok tt
     /\ calls (events_of (Crud.default ticks0)) = six_steps
     /\ check_results "CRUD flow completed successfully"
          (events_of (Crud.default ticks0))
        = [ flow_outcome r2 r3 r4 r5 b ]
     /\ samples Crud.fullFlowFailed (events_of (Crud.default ticks0))
        = (if flow_outcome r2 r3 r4 r5 b then [] else [ VInt 1 ])
     /\ samples Crud.fullFlowSuccess (events_of (Crud.default ticks0))
        = (if flow_outcome r2 r3 r4 r5 b then [ VInt 1 ] else [])
     /\ metric_log (events_of (Crud.default ticks0))
        = (step_entries Crud.createDuration Crud.operationCounts_create
           ++ (if truthy (Crud.id Sample.created_without_id)
               then step_entries Crud.readDuration Crud.operationCounts_read
                    ++ step_entries Crud.updateDuration Crud.operationCounts_update
                    ++ step_entries Crud.readDuration Crud.operationCounts_read
                    ++ step_entries Crud.deleteDuration Crud.operationCounts_delete
               else []))%list
     /\ (truthy (Crud.id Sample.created_without_id) = false ->
         let skipped (name context : string) : list Event :=
           [ ECall name;
             EConsole "error" [ "ERROR [" ++ context ++ "]: No ID provided" ] ] in
         e2 = skipped "readResource" "crud-read"
         /\ e3 = skipped "updateResource" "crud-update"
         /\ e4 = skipped "readResource" "crud-read"
         /\ e5 = skipped "deleteResource" "crud-delete"
         /\ Crud.success r2 = false /\ Crud.success r3 = false
         /\ Crud.success r4 = false /\ Crud.success r5 = false
         /\ requests e2 = [] /\ requests e3 = []
         /\ requests e4 = [] /\ requests e5 = []
         /\ flow_outcome r2 r3 r4 r5 b = false)).
Proof.
  split; cbv zeta.
  - assert (H1 : exists t1 e1,
               Crud.createResource (RT := Sample.read_failing) ticks0
               = (Ok Sample.created, t1, e1)).
    { eexists _, _. vm_compute. reflexivity. }
    destruct H1 as (t1 & e1 & H1).
    destruct (flow_continues_after_failures
                (RT := Sample.read_failing) ticks0 t1 Sample.created e1 H1 eq_refl)
      as (r2 & r3 & r4 & r5 & b & t2 & t3 & t4 & t5 & t6 & e2 & e3 & e4 & e5 & e6 & H).
    exists r2, r3, r4, r5, b, t1, t2, t3, t4, t5, t6, e2, e3, e4, e5, e6.
    exact H.
  - assert (H1 : exists t1 e1,
               Crud.createResource (RT := Sample.forgetful) ticks0
               = (Ok Sample.created_without_id, t1, e1)).
    { eexists _, _. vm_compute. reflexivity. }
    destruct H1 as (t1 & e1 & H1).
    destruct (flow_continues_after_failures
                (RT := Sample.forgetful) ticks0 t1 Sample.created_without_id e1 H1 eq_refl)
      as (r2 & r3 & r4 & r5 & b & t2 & t3 & t4 & t5 & t6 & e2 & e3 & e4 & e5 & e6 & H).
    exists r2, r3, r4, r5, b, t1, t2, t3, t4, t5, t6, e2, e3, e4, e5, e6.
    exact H.
Defined.


(** C4, as stated, fails: on a server that answers the creation with a 2xx
    but no id, all six steps run, yet READ, UPDATE and DELETE return early
    ("No ID provided") and none of them adds a sample to its duration trend
    or increments its counter. *)
Lemma steps_without_id_skip_their_metrics :
  ~ (forall (RT : Runtime) (t t1 : Ticks) (r1 : Crud.StepResult) (e1 : list Event),
        Crud.createResource t = (Ok r1, t1, e1) ->
        Crud.success r1 = true ->
        calls (events_of (Crud.default t)) = six_steps
        /\ samples Crud.operationCounts_read (events_of (Crud.default t))
           = [ VInt 1; VInt 1 ]
        /\ List.length (samples Crud.readDuration (events_of (Crud.default t))) = 2%nat).
Proof.
  intros H.
  assert (H1 : exists t1 e1,
             Crud.createResource (RT := Sample.forgetful) ticks0
             = (Ok Sample.created_without_id, t1, e1)).
  { eexists _, _. vm_compute. reflexivity. }
  destruct H1 as (t1 & e1 & H1).
  destruct (H Sample.forgetful ticks0 t1 Sample.created_without_id e1 H1 eq_refl)
    as (_ & Hcount & _).
  vm_compute in Hcount. discriminate Hcount.
Qed.

(* ------------------------------------------------------------------ *)
(** ** The further properties on the sample runtimes                   *)
(* ------------------------------------------------------------------ *)

(** The random generator of the sample runtimes draws inside the unit
    interval. *)
Lemma plain_fair : forall i, unit_draw (@math_random Sample.plain i) = true.
Proof. intros i. vm_compute. reflexivity. Qed.

Section HelperExamples.
#[local] Existing Instance Sample.plain.

(** X5 on options whose page number is zero. *)
Lemma listPayload_defaults_witness :
  let options := VObj [ ("pageNumber", VInt 0); ("search", VStr "widget") ] in
  let o := default_param options (VObj []) in
  let field (k : string) (d : Value) : string * Value :=
    (k, if truthy (prop o k) then prop o k else d) in
  Common.listPayload options
  = Ok (VObj [ field "pageNumber" (VInt 1); field "pageSize" (VInt 50);
               field "search" VNull; field "sort" VNull;
               field "filters" (VObj []) ])
  /\ truthy (snd (field "pageNumber" (VInt 1))) = true
  /\ truthy (snd (field "pageSize" (VInt 50))) = true
  /\ truthy (snd (field "filters" (VObj []))) = true
  /\ (forall k v d, own_property options k = Some v ->
                    field k d = (k, if truthy v then v else d))
  /\ (inherits_none [ "pageNumber"; "pageSize"; "search"; "sort"; "filters" ] = true ->
      Common.listPayload VUndefined
      = Ok (VObj [ ("pageNumber", VInt 1); ("pageSize", VInt 50);
                   ("search", VNull); ("sort", VNull); ("filters", VObj []) ]))
  /\ (exists e, Common.listPayload VNull = Throw e).
Proof.
  intros options. apply (listPayload_defaults options). discriminate.
Defined.

(** The payload of those options, and of no options, computed. *)
Example listPayload_of_zero_page :
  Common.listPayload (VObj [ ("pageNumber", VInt 0); ("search", VStr "widget") ])
  = Ok (VObj [ ("pageNumber", VInt 1); ("pageSize", VInt 50);
               ("search", VStr "widget"); ("sort", VNull); ("filters", VObj []) ])
  /\ Common.listPayload VUndefined
     = Ok (VObj [ ("pageNumber", VInt 1); ("pageSize", VInt 50);
                  ("search", VNull); ("sort", VNull); ("filters", VObj []) ]).
Proof. split; reflexivity. Qed.

(** X9 on the throw of a die. *)
Lemma randomInt_in_range_witness :
  exists n,
    Common.randomInt (Fin (inject_Z 1)) (Fin (inject_Z 6)) ticks0
    = (Ok n, advance 1 ticks0, [])
    /\ B64.floor n = n
    /\ (Fin (inject_Z 1) <=? n)%num = true
    /\ (n <=? Fin (inject_Z 6))%num = true.
Proof.
  apply (randomInt_in_range plain_fair 1 6 ticks0).
  - lia.
  - lia.
  - lia.
  - lia.
Defined.


(** X11 on an array of three numbers. *)
Lemma randomItem_member_witness :
  let array := [ VInt 4; VInt 5; VInt 6 ] in
  exists item,
    In item array
    /\ Common.randomItem (VArr array) ticks0 = (Ok item, advance 1 ticks0, []).
Proof.
  intros array. apply (randomItem_member plain_fair array ticks0).
  - discriminate.
  - simpl. lia.
  - vm_compute. reflexivity.
Defined.

(** X12 at the start of a run. *)
Lemma thinkTime_between_one_and_three_witness :
  (exists seconds,
      Common.thinkTime ticks0 = (Ok seconds, advance 1 ticks0, [])
      /\ (Fin 1 <=? seconds)%num = true /\ (seconds <=? Fin 3)%num = true)
  /\ (forall baseMs jitterMs,
         (Fin 0 <? jitterMs)%num = false ->
         Common.sleepWithJitter baseMs jitterMs ticks0
         = (Ok ((baseMs + Fin 0) / B64.of_Z 1000)%num, ticks0, [])).
Proof.
  apply (thinkTime_between_one_and_three plain_fair ticks0).
Defined.


(** X14 on overrides that set the role. *)
Lemma createUserPayload_overrides_win_witness :
  let overrides := VObj [ ("role", VStr "admin") ] in
  (exists payload t',
      Common.createUserPayload overrides ticks0 = (Ok (VObj payload), t', [])
      /\ assoc "name" payload <> None /\ assoc "email" payload <> None
      /\ assoc "role" payload <> None
      /\ (forall props k v,
             overrides = VObj props -> NoDup (map fst props) ->
             assoc k props = Some v -> assoc k payload = Some v))
  /\ (exists e t', Common.createUserPayload VNull ticks0 = (Throw e, t', [])).
Proof.
  intros overrides. apply (createUserPayload_overrides_win overrides ticks0).
  discriminate.
Defined.

(** X17 on a list response of one product. *)
Lemma getRandomItem_picks_an_item_witness :
  let res := Sample.json_response 200 (VObj [ ("items", VArr [ Sample.product ]) ]) in
  (forall msg, json res = Throw msg ->
               HttpUtils.getRandomItem res ticks0 = (Ok VNull, ticks0, []))
  /\ (forall data,
         json res = Ok data ->
         truthy (get_opt data "items") = false \/ get_opt data "items" = VArr [] ->
         HttpUtils.getRandomItem res ticks0 = (Ok VNull, ticks0, []))
  /\ (forall data items,
         json res = Ok data -> get_opt data "items" = VArr items ->
         items <> [] -> Z.of_nat (List.length items) < 2 ^ 53 ->
         sound_indices (List.length items) = true ->
         exists item, In item items
                      /\ HttpUtils.getRandomItem res ticks0
                         = (Ok item, advance 1 ticks0, [])).
Proof.
  intros res. apply (getRandomItem_picks_an_item plain_fair res ticks0).
Defined.

(** X18 on a list response of one product. *)
Lemma checkListResponse_bounds_witness :
  let data := VObj [ ("items", VArr [ Sample.product ]) ] in
  let res := Sample.json_response 200 data in
  Checks.checkListResponse res "list" ticks0
  = (Ok ((0 <? 1) && (1 <=? 100)), ticks0,
     [ ECheck ("list" ++ ": has items array") true;
       ECheck ("list" ++ ": items not empty") (0 <? 1);
       ECheck ("list" ++ ": valid page size") (1 <=? 100) ]).
Proof.
  intros data res.
  apply (checkListResponse_bounds res "list" data [ Sample.product ] ticks0).
  - reflexivity.
  - reflexivity.
  - reflexivity.
Defined.

(** X19 on a response whose body is the text [null]. *)
Lemma null_body_is_reported_as_parse_failure_witness :
  let res := Sample.json_response 200 VNull in
  let itemValidator := fun _ : Value => ret (VBool true) in
  (exists msg,
      Checks.checkListResponse res "list" ticks0
      = (Ok false, ticks0,
         [ ECheck ("list" ++ ": has items array") false;
           EConsole "error" [ "Failed to parse " ++ "list" ++ " response:"; msg ] ]))
  /\ (exists msg,
         Checks.checkListItemStructure res itemValidator "list" ticks0
         = (Ok false, ticks0,
            [ EConsole "error" [ "Failed to validate " ++ "list" ++ ":"; msg ] ]))
  /\ (exists msg,
         Checks.checkItemResponse res [ VStr "id" ] "list" ticks0
         = (Ok false, ticks0,
            [ ECheck ("list" ++ ": response is object") false;
              ECheck ("list" ++ ": has " ++ to_string (VStr "id")) false;
              EConsole "error"
                [ "Failed to parse " ++ "list" ++ " response:"; msg ] ]))
  /\ (exists msg,
         Checks.checkFieldTypes res VUndefined "list" ticks0
         = (Ok false, ticks0,
            [ EConsole "error"
                [ "Failed to parse " ++ "list" ++ " response:"; msg ] ])).
Proof.
  intros res itemValidator.
  apply (null_body_is_reported_as_parse_failure res "list" (VStr "id")
           itemValidator ticks0).
  reflexivity.
Defined.

(** X20 on a product and two of its fields. *)
Lemma checkItemResponse_decides_witness :
  let data := Sample.product in
  let res := Sample.json_response 200 data in
  let requiredFields := [ VStr "id"; VStr "name" ] in
  exists e,
    Checks.checkItemResponse res requiredFields "item" ticks0
    = (Ok (negb (strict_eq data VNull) && String.eqb (typeof data) "object"
           && negb (isArray data)
           && forallb (fun f => negb (strict_eq (prop data (to_string f)) VUndefined))
                      requiredFields),
       ticks0, e)
    /\ Forall (fun ev => exists name pass, ev = ECheck name pass) e
    /\ console_lines "error" e = [].
Proof.
  intros data res requiredFields.
  apply (checkItemResponse_decides res requiredFields "item" data ticks0).
  - reflexivity.
  - reflexivity.
Defined.

(** X21 on a list whose second item is [null], with a validator that
    reads a property of a property the first item does not have. *)
Lemma checkListItemStructure_first_item_witness :
  let first := Sample.product in
  let others := [ VNull ] in
  let data := VObj [ ("items", VArr (first :: others)) ] in
  let res := Sample.json_response 200 data in
  let itemValidator :=
    fun item : Value => lift (get_prop (prop item "size") "width") in
  (prop data "items" = VArr (first :: others) ->
   Checks.checkListItemStructure res itemValidator "list" ticks0
   = match itemValidator first ticks0 with
     | (Ok v, t', e) =>
         (Ok (truthy v), t',
          (e ++ [ ECheck ("list" ++ ": valid structure")%string (truthy v) ])%list)
     | (Throw msg, t', e) =>
         (Ok false, t',
          (e ++ [ ECheck ("list" ++ ": valid structure")%string false;
                  EConsole "error"
                    [ ("Failed to validate " ++ "list" ++ ":")%string; msg ] ])%list)
     end)
  /\ (prop data "items" = VArr [] ->
      Checks.checkListItemStructure res itemValidator "list" ticks0
      = (Ok false, ticks0, [])).
Proof.
  intros first others data res itemValidator.
  apply (checkListItemStructure_first_item res itemValidator "list" data first others
           ticks0).
  - reflexivity.
  - reflexivity.
  - vm_compute. reflexivity.
Defined.

(** X22 on a response with the status 404. *)
Lemma failed_status_skips_structure_witness :
  let res := Sample.response 404 "Not Found" (Throw "SyntaxError") in
  Checks.checkGetListEndpoint res None "list" ticks0
  = (Ok false, ticks0, [ ECheck ("status is " ++ to_string (VInt 200)) false ])
  /\ Checks.checkGetItemEndpoint res [ VStr "id" ] "list" ticks0
     = (Ok false, ticks0, [ ECheck ("status is " ++ to_string (VInt 200)) false ])
  /\ ((status res >=? 200) && (status res <? 300) = false ->
      Checks.checkPostEndpoint res [ VStr "id" ] "list" ticks0
      = (Ok false, ticks0, [ ECheck ("list" ++ ": status is 2xx") false ])).
Proof.
  intros res.
  apply (failed_status_skips_structure res None [ VStr "id" ] "list" ticks0).
  simpl. lia.
Defined.

(** X23 on a response with the status 204 and an empty body. *)
Lemma post_and_delete_accept_empty_body_witness :
  let res := Sample.response 204 "" (Throw "SyntaxError") in
  Checks.checkPostEndpoint res [ VStr "id" ] "delete" ticks0
  = (Ok true, ticks0, [ ECheck ("delete" ++ ": status is 2xx") true ])
  /\ Checks.checkDeleteEndpoint res "delete" ticks0
     = (Ok true, ticks0, [ ECheck ("delete" ++ ": status is 2xx") true ]).
Proof.
  intros res.
  apply (post_and_delete_accept_empty_body res [ VStr "id" ] "delete" ticks0).
  - reflexivity.
  - right. reflexivity.
Defined.

(** X27 at the start of a run. *)
Lemma post_iteration_runs_one_test_witness :
  let rand := math_random (n_rand ticks0) in
  exists t' before seconds,
    PostEndpoint.default VUndefined ticks0
    = (Ok tt, t', (before ++ [ ESleep seconds ])%list)
    /\ calls (before ++ [ ESleep seconds ])
       = [ if (rand <? B64.lit 80 100)%num then "testCreateEndpoint"
           else if (rand <? B64.lit 95 100)%num then "testInvalidPayload"
           else "testBulkCreate" ]
    /\ (Fin 2 <=? seconds)%num = true /\ (seconds <=? Fin 6)%num = true.
Proof.
  apply (post_iteration_runs_one_test plain_fair VUndefined ticks0).
Defined.

(** X28 at the start of a run. *)
Lemma testCreateEndpoint_counts_witness :
  exists v t' e req res,
    PostEndpoint.testCreateEndpoint ticks0 = (Ok v, t', e)
    /\ exchanges e = [ (req, res) ]
    /\ method req = "POST" /\ url req = Common.getUrl "/products"
    /\ samples PostEndpoint.createRequests e = [ VInt 1 ]
    /\ List.length (samples PostEndpoint.createDuration e) = 1%nat
    /\ samples PostEndpoint.createdItems e
       = (if PostEndpoint.is_success res then [ VInt 1 ] else [])
    /\ samples PostEndpoint.createErrors e
       = (if PostEndpoint.is_success res then [] else [ VInt 1 ]).
Proof.
  apply (testCreateEndpoint_counts plain_fair ticks0).
Defined.

(** X29 at the start of a run. *)
Lemma testBulkCreate_sends_the_batch_witness :
  (exists t' e req res items quick,
      PostEndpoint.testBulkCreate ticks0 = (Ok tt, t', e)
      /\ exchanges e = [ (req, res) ]
      /\ method req = "POST" /\ url req = Common.getUrl "/products/bulk"
      /\ req_body req = Some (JSON_stringify (VObj [ ("items", VArr items) ]))
      /\ In (Z.of_nat (List.length items)) [ 5; 10; 25 ]
      /\ recorded_checks e
         = [ ("bulk create status is 2xx", PostEndpoint.is_success res);
             ("batch of " ++ to_string (VInt (Z.of_nat (List.length items)))
              ++ " items processed", PostEndpoint.is_success res);
             ("bulk response time acceptable", quick) ])
  /\ (forall size more t0,
         In size PostEndpoint.batchSizes ->
         PostEndpoint.fill (25 + more) (Fin 0) size [] t0
         = PostEndpoint.fill 25 (Fin 0) size [] t0).
Proof.
  apply (testBulkCreate_sends_the_batch plain_fair ticks0).
Defined.

End HelperExamples.

Section HeavyProfileTests.
#[local] Existing Instance Sample.heavy.

(** X30 on the HEAVY profile. *)
Lemma test_vus_per_profile_witness :
  In ("HEAVY", Crud.options_vus, PostEndpoint.options_vus)
     [ ("SMOKE", Fin (inject_Z 1), Fin (inject_Z 1));
       ("LIGHT", Fin (inject_Z 5), Fin (inject_Z 3));
       ("MEDIUM", Fin (inject_Z 15), Fin (inject_Z 9));
       ("HEAVY", Fin (inject_Z 50), Fin (inject_Z 30)) ]
  /\ (Fin 1 <=? PostEndpoint.options_vus)%num = true
  /\ (PostEndpoint.options_vus <=? Crud.options_vus)%num = true
  /\ (Crud.options_vus <=? to_number (prop Env.getProfile "vus"))%num = true.
Proof.
  apply (test_vus_per_profile "HEAVY").
  - simpl. tauto.
  - reflexivity.
Defined.

End HeavyProfileTests.
